(** * AI-Trader: the Schwab token lifecycle and quote tools

    A shallow embedding of the Python sources
      - [agent_tools/schwab_client.py]   (class [SchwabAPIClient])
      - [agent_tools/tool_get_price_schwab.py]
      - [schwab_oauth.py], [refresh_token.py]
    Python values received from the network are JSON values; methods of the
    client are state-passing functions over the client object and the
    network, and may raise. Strings are ASCII text. What the code prints is
    left out; the expressions it formats for printing are evaluated, since
    they can raise. A request goes through the header checks of [requests]
    and [http.client] before the service is asked ([Http], [deliver]); the
    file [.env] is read in text mode, line by line ([TextFile]). *)

From Stdlib Require Import ZArith QArith List String Ascii Bool Lia.
Import ListNotations.
Local Open Scope string_scope.
Local Open Scope Z_scope.

(** ** Python strings (ASCII text) *)

Module PyStr.

Definition is_lower (c : ascii) : bool :=
  let n := nat_of_ascii c in (97 <=? n)%nat && (n <=? 122)%nat.

Definition upper_char (c : ascii) : ascii :=
  if is_lower c then ascii_of_nat (nat_of_ascii c - 32) else c.

(** [s.upper()] *)
Fixpoint upper (s : string) : string :=
  match s with
  | EmptyString => EmptyString
  | String c r => String (upper_char c) (upper r)
  end.


(** [s.startswith(p)] *)
Fixpoint startswith (s p : string) : bool :=
  match p, s with
  | EmptyString, _ => true
  | String a p', String b s' => Ascii.eqb a b && startswith s' p'
  | String _ _, EmptyString => false
  end.

(** [p in s] for two strings: substring test. *)
Fixpoint contains (s p : string) : bool :=
  startswith s p ||
  match s with
  | EmptyString => false
  | String _ r => contains r p
  end.

(** The characters [str.strip()] removes from an ASCII string. *)
Definition is_space (c : ascii) : bool :=
  let n := nat_of_ascii c in
  ((9 <=? n)%nat && (n <=? 13)%nat) || ((28 <=? n)%nat && (n <=? 32)%nat).

Fixpoint lstrip (s : string) : string :=
  match s with
  | EmptyString => EmptyString
  | String c r => if is_space c then lstrip r else s
  end.

Fixpoint rstrip (s : string) : string :=
  match s with
  | EmptyString => EmptyString
  | String c r =>
      match rstrip r with
      | EmptyString => if is_space c then EmptyString else String c EmptyString
      | r' => String c r'
      end
  end.

(** [s.strip()] *)
Definition strip (s : string) : string := rstrip (lstrip s).

(** [s.split(sep)] for a one-character separator: the current field is
    accumulated in [cur]. *)
Fixpoint split_acc (sep : ascii) (s cur : string) : list string :=
  match s with
  | EmptyString => [cur]
  | String c r =>
      if Ascii.eqb c sep then cur :: split_acc sep r EmptyString
      else split_acc sep r (cur ++ String c EmptyString)
  end.

Definition split (sep : ascii) (s : string) : list string :=
  split_acc sep s EmptyString.

(** [sep.join(l)] *)
Definition join (sep : string) (l : list string) : string :=
  String.concat sep l.

(** [s.lower()] *)
Definition is_upper (c : ascii) : bool :=
  let n := nat_of_ascii c in (65 <=? n)%nat && (n <=? 90)%nat.

Fixpoint lower (s : string) : string :=
  match s with
  | EmptyString => EmptyString
  | String c r =>
      String (if is_upper c then ascii_of_nat (nat_of_ascii c + 32) else c)
             (lower r)
  end.

(** [f"{x}"] of a value that is [None] or a string. *)
Definition fmt_opt (o : option string) : string :=
  match o with
  | Some s => s
  | None => "None"
  end.

(** truth value of [None] or a string *)
Definition truthy_opt (o : option string) : bool :=
  match o with
  | Some EmptyString | None => false
  | Some _ => true
  end.

Definition cr : ascii := ascii_of_nat 13.
Definition lf : ascii := ascii_of_nat 10.

(** A character that is neither CR nor LF, and a text of such characters. *)
Definition plain_char (c : ascii) : bool :=
  negb (Ascii.eqb c lf || Ascii.eqb c cr).

Fixpoint plain (s : string) : bool :=
  match s with
  | EmptyString => true
  | String c r => plain_char c && plain r
  end.

End PyStr.

(** ** [base64.b64encode] *)

Module Base64.

Definition alphabet : string :=
  "ABCDEFGHIJKLMNOPQRSTUVWXYZabcdefghijklmnopqrstuvwxyz0123456789+/".

Definition digit (n : N) : ascii :=
  match String.get (N.to_nat n) alphabet with
  | Some c => c
  | None => "="%char
  end.

Definition pad : ascii := "="%char.

(** Three input bytes give four digits; a final group of one or two bytes
    is padded with [=]. *)
Fixpoint encode_bytes (l : list N) : list ascii :=
  match l with
  | [] => []
  | [a] =>
      [digit (N.shiftr a 2); digit (N.shiftl (N.land a 3) 4); pad; pad]
  | [a; b] =>
      [digit (N.shiftr a 2);
       digit (N.lor (N.shiftl (N.land a 3) 4) (N.shiftr b 4));
       digit (N.shiftl (N.land b 15) 2); pad]
  | a :: b :: c :: r =>
      digit (N.shiftr a 2)
      :: digit (N.lor (N.shiftl (N.land a 3) 4) (N.shiftr b 4))
      :: digit (N.lor (N.shiftl (N.land b 15) 2) (N.shiftr c 6))
      :: digit (N.land c 63)
      :: encode_bytes r
  end%N.

(** [base64.b64encode(s.encode()).decode()] *)
Definition b64encode (s : string) : string :=
  string_of_list_ascii
    (encode_bytes (map N_of_ascii (list_ascii_of_string s))).

End Base64.

(** ** Python values: what [response.json()] gives *)

#[local] Set Warnings "-register-all".

Inductive json : Type :=
| JNull
| JBool (b : bool)
| JNum (q : Q)
| JStr (s : string)
| JArr (l : list json)
| JObj (m : list (string * json)).

(** A Python [dict] with string keys, in insertion order. *)
Definition dict : Type := list (string * json).

Module Dict.

Fixpoint get (k : string) (d : dict) : option json :=
  match d with
  | [] => None
  | (k', v) :: r => if String.eqb k k' then Some v else get k r
  end.

Definition has (k : string) (d : dict) : bool :=
  match get k d with Some _ => true | None => false end.

(** [d[k] = v]: an existing key keeps its place, a new key goes last. *)
Fixpoint set (k : string) (v : json) (d : dict) : dict :=
  match d with
  | [] => [(k, v)]
  | (k', v') :: r =>
      if String.eqb k k' then (k, v) :: r else (k', v') :: set k v r
  end.

Definition keys (d : dict) : list string := map fst d.

End Dict.

(** ** Exceptions and outcomes *)

Inductive exn : Type :=
| HTTPError (status : Z)        (* requests.exceptions.HTTPError *)
| ConnectionError               (* requests.exceptions.ConnectionError, Timeout, ... *)
| JSONDecodeError               (* requests.exceptions.JSONDecodeError, raised by
                                   response.json(); a RequestException, as in
                                   requests 2.27 and later *)
| InvalidHeader                 (* requests.exceptions.InvalidHeader *)
| ValueError (msg : string)
| HeaderValueError (value : string)
                                (* the ValueError of http.client:
                                   Invalid header value ... *)
| NameError (name : string)
| KeyError (key : string)
| AttributeError (attr : string)
| TypeError
| FileNotFoundError
| EOFError
| SystemExit (code : Z).

(** [isinstance(e, requests.exceptions.RequestException)] *)
Definition is_RequestException (e : exn) : bool :=
  match e with
  | HTTPError _ | ConnectionError | JSONDecodeError | InvalidHeader => true
  | _ => false
  end.

(** [isinstance(e, Exception)]: everything but [SystemExit]. *)
Definition is_Exception (e : exn) : bool :=
  match e with
  | SystemExit _ => false
  | _ => true
  end.

Inductive outcome (A : Type) : Type :=
| Ret (a : A)
| Raise (e : exn).
Arguments Ret {A} a.
Arguments Raise {A} e.

(** ** Operations of Python on JSON values *)

Module Py.

(** [bool(v)] *)
Definition truthy (v : json) : bool :=
  match v with
  | JNull => false
  | JBool b => b
  | JNum q => negb (Qnum q =? 0)
  | JStr s => negb (String.eqb s "")
  | JArr l => match l with [] => false | _ => true end
  | JObj m => match m with [] => false | _ => true end
  end.

Definition is_str (k : string) (v : json) : bool :=
  match v with JStr s => String.eqb s k | _ => false end.

(** [k in v] for a string [k] *)
Definition contains (k : string) (v : json) : outcome bool :=
  match v with
  | JObj m => Ret (Dict.has k m)
  | JStr s => Ret (PyStr.contains s k)
  | JArr l => Ret (existsb (is_str k) l)
  | JNull | JBool _ | JNum _ => Raise TypeError
  end.

(** [v[k]] for a string [k] *)
Definition getitem (v : json) (k : string) : outcome json :=
  match v with
  | JObj m =>
      match Dict.get k m with
      | Some x => Ret x
      | None => Raise (KeyError k)
      end
  | _ => Raise TypeError
  end.

(** [v.get(k, default)] *)
Definition get (v : json) (k : string) (default : json) : outcome json :=
  match v with
  | JObj m =>
      match Dict.get k m with
      | Some x => Ret x
      | None => Ret default
      end
  | _ => Raise (AttributeError "get")
  end.

Definition of_opt (o : option string) : json :=
  match o with Some s => JStr s | None => JNull end.

Definition zero : json := JNum 0.

End Py.

(** ** A state and exception monad for methods and scripts *)

Definition M (S A : Type) : Type := S -> outcome A * S.

Definition ret {S A} (a : A) : M S A := fun s => (Ret a, s).

Definition raise {S A} (e : exn) : M S A := fun s => (Raise e, s).

Definition bind {S A B} (m : M S A) (k : A -> M S B) : M S B :=
  fun s =>
    match m s with
    | (Ret a, s') => k a s'
    | (Raise e, s') => (Raise e, s')
    end.

Definition lift {S A} (o : outcome A) : M S A := fun s => (o, s).

(** Sequencing of computations that touch no state. *)
Definition obind {A B} (o : outcome A) (k : A -> outcome B) : outcome B :=
  match o with
  | Ret a => k a
  | Raise e => Raise e
  end.

(** [try: body except <catches> as e: handler e] *)
Definition try_except {S A} (body : M S A) (catches : exn -> bool)
  (handler : exn -> M S A) : M S A :=
  fun s =>
    match body s with
    | (Raise e, s') => if catches e then handler e s' else (Raise e, s')
    | r => r
    end.

Declare Scope py_scope.
Delimit Scope py_scope with py.
Notation "x <- m ;; k" := (bind m (fun x => k))
  (at level 61, m at next level, right associativity) : py_scope.
Notation "m ;; k" := (bind m (fun _ => k))
  (at level 61, right associativity) : py_scope.
Local Open Scope py_scope.

(** [for x in l: body x] *)
Fixpoint for_each {S A} (l : list A) (body : A -> M S unit) : M S unit :=
  match l with
  | [] => ret tt
  | x :: r => body x ;; for_each r body
  end.

(** ** The network *)

Inductive method := GET | POST.

Record Request := {
  meth : method;
  url : string;
  headers : list (string * string);
  params : list (string * json);     (* query parameters, [params=] *)
  data : list (string * json)        (* form fields of the body, [data=] *)
}.

Record Response := {
  status_code : Z;
  body : option json                 (* [None]: the body is not JSON *)
}.

Inductive reply :=
| Answer (r : Response)
| NoAnswer                           (* connection error, timeout *)
| Refused.                           (* not sent: the library refuses a header,
                                        or the connection is refused *)

(** The remote service answers a request knowing the requests before it. *)
Definition service : Type := list Request -> Request -> reply.

(** [sent]: the requests handed to the library, in order. *)
Record Net := {
  server : service;
  sent : list Request
}.

(** The checks a header value goes through before anything is sent. *)
Module Http.

Definition is_blank (c : ascii) : bool :=
  Ascii.eqb c " "%char || Ascii.eqb c (ascii_of_nat 9).

Definition is_empty (s : string) : bool :=
  match s with EmptyString => true | String _ _ => false end.

(** [[^\r\n]*$]: no CR and no LF up to the end, where the end may also be
    just before one final LF. *)
Fixpoint rest_ok (s : string) : bool :=
  match s with
  | EmptyString => true
  | String c r =>
      if Ascii.eqb c PyStr.lf then is_empty r
      else if Ascii.eqb c PyStr.cr then false
      else rest_ok r
  end.

(** [requests]: the value matches [^\S[^\r\n]*$|^$]. *)
Definition requests_accepts (v : string) : bool :=
  match v with
  | EmptyString => true
  | String c r =>
      (negb (PyStr.is_space c) && rest_ok r) || (Ascii.eqb c PyStr.lf && is_empty r)
  end.

Definition starts_blank (s : string) : bool :=
  match s with EmptyString => false | String c _ => is_blank c end.

Definition starts_blank_or_lf (s : string) : bool :=
  match s with
  | EmptyString => false
  | String c _ => is_blank c || Ascii.eqb c PyStr.lf
  end.

(** [http.client]: the value holds an LF not followed by a blank, or a CR
    not followed by a blank or an LF. *)
Fixpoint illegal (v : string) : bool :=
  match v with
  | EmptyString => false
  | String c r =>
      (Ascii.eqb c PyStr.lf && negb (starts_blank r))
      || (Ascii.eqb c PyStr.cr && negb (starts_blank_or_lf r))
      || illegal r
  end.

(** The first header value [requests] refuses; else the first one
    [http.client] refuses when the request is written. *)
Definition check (h : list (string * string)) : option exn :=
  if negb (forallb (fun kv => requests_accepts (snd kv)) h)
  then Some InvalidHeader
  else
    match find (fun kv => illegal (snd kv)) h with
    | Some kv => Some (HeaderValueError (snd kv))
    | None => None
    end.

End Http.

(** Text files, opened in text mode on a system whose line end is LF. *)
Module TextFile.

(** What is read: CR LF and a lone CR arrive as LF. *)
Fixpoint translate (s : string) : string :=
  match s with
  | EmptyString => EmptyString
  | String c r =>
      if Ascii.eqb c PyStr.cr
      then String PyStr.lf
             match r with
             | EmptyString => EmptyString
             | String c' r' =>
                 if Ascii.eqb c' PyStr.lf then translate r' else translate r
             end
      else String c (translate r)
  end.

(** The text cut after each LF. *)
Fixpoint cut (s : string) : list string :=
  match s with
  | EmptyString => []
  | String c r =>
      if Ascii.eqb c PyStr.lf then String c EmptyString :: cut r
      else match cut r with
           | [] => [String c EmptyString]
           | l :: ls => String c l :: ls
           end
  end.

(** [f.readlines()] on a file that holds [text]. *)
Definition readlines (text : string) : list string := cut (translate text).

(** The text that pieces written one after the other make. *)
Definition text_of (pieces : list string) : string :=
  fold_right append EmptyString pieces.

End TextFile.

(** What comes back for a request: the service is asked only when the
    library accepts the headers. *)
Definition deliver (srv : service) (history : list Request) (r : Request)
  : reply :=
  match Http.check (headers r) with
  | Some _ => Refused
  | None => srv history r
  end.

(** The exception of a request that is not sent. *)
Definition refusal (r : Request) : exn :=
  match Http.check (headers r) with
  | Some e => e
  | None => ConnectionError
  end.

(** [requests.request(...)]: the request is noted as handed to the library;
    it is answered, or not, or refused with the exception of the check that
    failed. *)
Definition send (r : Request) (n : Net) : outcome Response * Net :=
  let n' := {| server := server n; sent := sent n ++ [r] |} in
  match deliver (server n) (sent n) r with
  | Answer resp => (Ret resp, n')
  | NoAnswer => (Raise ConnectionError, n')
  | Refused => (Raise (refusal r), n')
  end.

(** [response.raise_for_status()] *)
Definition raise_for_status {S} (r : Response) : M S unit :=
  if (400 <=? status_code r) && (status_code r <? 600)
  then raise (HTTPError (status_code r))
  else ret tt.

(** [response.json()] *)
Definition response_json {S} (r : Response) : M S json :=
  match body r with
  | Some j => ret j
  | None => raise JSONDecodeError
  end.

(** ** [agent_tools/schwab_client.py] *)

Record Client := {
  base_url : string;
  client_id : string;
  client_secret : string;
  access_token : json;               (* [None] or what the server sent *)
  refresh_token : json
}.

(** The client object, the network it talks to, and a ghost counter of the
    calls of [refresh_access_token]. *)
Record Sys := {
  self : Client;
  net : Net;
  refresh_calls : nat
}.

Definition get_self : M Sys Client := fun s => (Ret (self s), s).

Definition set_access_token (v : json) : M Sys unit :=
  fun s =>
    (Ret tt,
     {| self := {| base_url := base_url (self s);
                   client_id := client_id (self s);
                   client_secret := client_secret (self s);
                   access_token := v;
                   refresh_token := refresh_token (self s) |};
        net := net s;
        refresh_calls := refresh_calls s |}).

Definition set_refresh_token (v : json) : M Sys unit :=
  fun s =>
    (Ret tt,
     {| self := {| base_url := base_url (self s);
                   client_id := client_id (self s);
                   client_secret := client_secret (self s);
                   access_token := access_token (self s);
                   refresh_token := v |};
        net := net s;
        refresh_calls := refresh_calls s |}).

Definition count_refresh_call : M Sys unit :=
  fun s =>
    (Ret tt,
     {| self := self s; net := net s; refresh_calls := S (refresh_calls s) |}).

Definition requests (r : Request) : M Sys Response :=
  fun s =>
    let '(o, n) := send r (net s) in
    (o, {| self := self s; net := n; refresh_calls := refresh_calls s |}).

(** [requests.get(url, headers=headers, params=params)] *)
Definition requests_get (u : string) (h : list (string * string))
  (p : list (string * json)) : M Sys Response :=
  requests {| meth := GET; url := u; headers := h; params := p; data := [] |}.

(** [requests.post(url, data=data, headers=headers)] *)
Definition requests_post (u : string) (d : list (string * json))
  (h : list (string * string)) : M Sys Response :=
  requests {| meth := POST; url := u; headers := h; params := []; data := d |}.

(** Evaluating a name that is bound nowhere. *)
Definition unbound_name {A} (x : string) : M Sys A := raise (NameError x).

Section Builtins.

(** [str(v)] of a number, a list or a dict, and [str(e)] of an exception:
    builtins of the interpreter, taken as given. *)
Variable repr_other : json -> string.
Variable str_exn : exn -> string.

(** [f"{v}"] *)
Definition py_str (v : json) : string :=
  match v with
  | JStr s => s
  | JNull => "None"
  | JBool true => "True"
  | JBool false => "False"
  | _ => repr_other v
  end.

(** [SchwabAPIClient.__init__], with [os.getenv] as [getenv]. *)
Definition SchwabAPIClient (getenv : string -> option string) : outcome Client :=
  let cid := getenv "SCHWAB_CLIENT_ID" in
  let csec := getenv "SCHWAB_CLIENT_SECRET" in
  if negb (PyStr.truthy_opt cid) || negb (PyStr.truthy_opt csec)
  then Raise (ValueError "Schwab API credentials not found in environment variables")
  else Ret {| base_url := "https://api.schwabapi.com";
              client_id := PyStr.fmt_opt cid;
              client_secret := PyStr.fmt_opt csec;
              access_token := Py.of_opt (getenv "SCHWAB_ACCESS_TOKEN");
              refresh_token := Py.of_opt (getenv "SCHWAB_REFRESH_TOKEN") |}.

Definition _get_headers (include_content_type : bool)
  : M Sys (list (string * string)) :=
  c <- get_self ;;
  if negb (Py.truthy (access_token c))
  then raise (ValueError "No access token available. Please authenticate first.")
  else
    let headers := [("Authorization", "Bearer " ++ py_str (access_token c))] in
    if include_content_type
    then ret (headers ++ [("Content-Type", "application/json")])%list
    else ret headers.

Definition refresh_access_token : M Sys bool :=
  count_refresh_call ;;
  c <- get_self ;;
  if negb (Py.truthy (refresh_token c)) then ret false
  else
    let token_url := base_url c ++ "/v1/oauth/token" in
    let data :=
      [("grant_type", JStr "refresh_token");
       ("refresh_token", refresh_token c);
       ("client_id", JStr (client_id c));
       ("client_secret", JStr (client_secret c))] in
    let headers := [("Content-Type", "application/x-www-form-urlencoded")] in
    try_except
      (response <- requests_post token_url data headers ;;
       raise_for_status response ;;
       token_data <- response_json response ;;
       tok <- lift (Py.get token_data "access_token" JNull) ;;
       set_access_token tok ;;
       has <- lift (Py.contains "refresh_token" token_data) ;;
       (if has
        then rt <- lift (Py.getitem token_data "refresh_token") ;;
             set_refresh_token rt
        else ret tt) ;;
       ret true)
      is_RequestException
      (fun _ => ret false).

(** The part of [get_quote] after the response is in hand. *)
Definition quote_of_response (symbol : string) (response : Response)
  : M Sys json :=
  raise_for_status response ;;
  data <- response_json response ;;
  has <- lift (Py.contains symbol data) ;;
  if has then lift (Py.getitem data symbol) else ret JNull.

Definition get_quote (symbol : string) : M Sys json :=
  c <- get_self ;;
  let symbol_upper := PyStr.upper symbol in
  let url := base_url c ++ "/marketdata/v1/quotes?symbols=" ++ symbol_upper in
  try_except
    (h <- _get_headers false ;;
     response <- requests_get url h [] ;;
     if status_code response =? 401
     then
       ok <- refresh_access_token ;;
       if ok
       then
         h' <- _get_headers false ;;
         params <- unbound_name "params" ;;
         response' <- requests_get url h' params ;;
         quote_of_response symbol response'
       else ret JNull
     else quote_of_response symbol response)
    is_RequestException
    (fun _ => ret JNull).

Definition payload_of_response (response : Response) : M Sys json :=
  raise_for_status response ;;
  response_json response.

Definition get_quotes_bulk (symbols : list string) : M Sys json :=
  c <- get_self ;;
  let symbols_str := PyStr.join "," (map PyStr.upper symbols) in
  let url := base_url c ++ "/marketdata/v1/quotes?symbols=" ++ symbols_str in
  try_except
    (h <- _get_headers false ;;
     response <- requests_get url h [] ;;
     if status_code response =? 401
     then
       ok <- refresh_access_token ;;
       if ok
       then
         h' <- _get_headers false ;;
         response' <- requests_get url h' [] ;;
         payload_of_response response'
       else ret (JObj [])
     else payload_of_response response)
    is_RequestException
    (fun _ => ret (JObj [])).

Definition get_price_history (symbol period_type : string) (period : Z)
  (frequency_type : string) (frequency : Z) : M Sys json :=
  c <- get_self ;;
  let url := base_url c ++ "/marketdata/v1/pricehistory" in
  let params :=
    [("symbol", JStr symbol);
     ("periodType", JStr period_type);
     ("period", JNum (inject_Z period));
     ("frequencyType", JStr frequency_type);
     ("frequency", JNum (inject_Z frequency))] in
  try_except
    (h <- _get_headers false ;;
     response <- requests_get url h params ;;
     if status_code response =? 401
     then
       ok <- refresh_access_token ;;
       if ok
       then
         h' <- _get_headers false ;;
         response' <- requests_get url h' params ;;
         payload_of_response response'
       else ret JNull
     else payload_of_response response)
    is_RequestException
    (fun _ => ret JNull).

(** [format_quote_for_trading]: it reads nothing of [self]. *)
Definition format_quote_for_trading (quote_data : json) : outcome json :=
  if negb (Py.truthy quote_data) then Ret (JObj [])
  else
    obind (Py.contains "quote" quote_data) (fun has =>
    if negb has then Ret (JObj [])
    else
      obind (Py.getitem quote_data "quote") (fun quote =>
      obind (Py.get quote "lastPrice" Py.zero) (fun last_for_ask =>
      obind (Py.get quote "askPrice" last_for_ask) (fun buy_price =>
      obind (Py.get quote "lastPrice" Py.zero) (fun last_for_bid =>
      obind (Py.get quote "bidPrice" last_for_bid) (fun sell_price =>
      obind (Py.get quote "lastPrice" Py.zero) (fun last_price =>
      obind (Py.get quote "highPrice" Py.zero) (fun high =>
      obind (Py.get quote "lowPrice" Py.zero) (fun low =>
      obind (Py.get quote "totalVolume" Py.zero) (fun volume =>
      obind (Py.get quote "quoteTime" Py.zero) (fun timestamp =>
      Ret (JObj [("buy_price", buy_price);
                 ("sell_price", sell_price);
                 ("last_price", last_price);
                 ("high", high);
                 ("low", low);
                 ("volume", volume);
                 ("timestamp", timestamp)])))))))))))).

(** ** [agent_tools/tool_get_price_schwab.py] *)

(** The module holds [schwab_client]: the client object, or [None] when its
    construction failed at import. *)
Record Tool := {
  schwab_client : option Client;
  tool_net : Net;
  tool_refresh_calls : nat
}.

(** A method call on the object held by the module: what the method does to
    the object stays in the module. *)
Definition call_method {A} (c : Client) (m : M Sys A) : M Tool A :=
  fun t =>
    let '(o, s) :=
      m {| self := c; net := tool_net t;
           refresh_calls := tool_refresh_calls t |} in
    (o, {| schwab_client := Some (self s); tool_net := net s;
           tool_refresh_calls := refresh_calls s |}).

Definition error_dict (msg : string) : json := JObj [("error", JStr msg)].

Definition get_real_time_price (symbol : string) : M Tool json :=
  fun t =>
    match schwab_client t with
    | None => (Ret (error_dict "Schwab API client not initialized"), t)
    | Some c =>
        try_except
          (quote_data <- call_method c (get_quote symbol) ;;
           if negb (Py.truthy quote_data)
           then ret (error_dict ("No quote data available for " ++ symbol))
           else
             formatted <- lift (format_quote_for_trading quote_data) ;;
             current_price <- lift (Py.get formatted "last_price" Py.zero) ;;
             bid_price <- lift (Py.get formatted "sell_price" Py.zero) ;;
             ask_price <- lift (Py.get formatted "buy_price" Py.zero) ;;
             high <- lift (Py.get formatted "high" Py.zero) ;;
             low <- lift (Py.get formatted "low" Py.zero) ;;
             volume <- lift (Py.get formatted "volume" Py.zero) ;;
             timestamp <- lift (Py.get formatted "timestamp" Py.zero) ;;
             ret (JObj [("symbol", JStr symbol);
                        ("current_price", current_price);
                        ("bid_price", bid_price);
                        ("ask_price", ask_price);
                        ("high", high);
                        ("low", low);
                        ("volume", volume);
                        ("timestamp", timestamp);
                        ("status", JStr "success")]))
          is_Exception
          (fun e => ret (error_dict ("Failed to fetch price for " ++ symbol
                                     ++ ": " ++ str_exn e)))
          t
    end.

(** The body of the loop [for symbol in symbol_list] of
    [get_multiple_prices]: one symbol, the [result] dict so far. *)
Definition price_entry (quotes : json) (symbol : string) (result : dict)
  : outcome dict :=
  obind (Py.contains symbol quotes) (fun has =>
  if has
  then
    obind (Py.getitem quotes symbol) (fun q =>
    obind (format_quote_for_trading (JObj [(symbol, q)])) (fun formatted =>
    obind (Py.get formatted "last_price" Py.zero) (fun price =>
    let result := Dict.set (symbol ++ "_price") price result in
    obind (Py.get formatted "sell_price" Py.zero) (fun bid =>
    let result := Dict.set (symbol ++ "_bid") bid result in
    obind (Py.get formatted "buy_price" Py.zero) (fun ask =>
    Ret (Dict.set (symbol ++ "_ask") ask result))))))
  else
    Ret (Dict.set symbol (error_dict "No data available") result)).

Fixpoint price_entries (quotes : json) (symbol_list : list string)
  (result : dict) : outcome dict :=
  match symbol_list with
  | [] => Ret result
  | symbol :: rest =>
      obind (price_entry quotes symbol result) (price_entries quotes rest)
  end.

Definition parse_symbols (symbols : string) : list string :=
  map PyStr.strip (PyStr.split ","%char symbols).

Definition get_multiple_prices (symbols : string) : M Tool json :=
  fun t =>
    match schwab_client t with
    | None => (Ret (error_dict "Schwab API client not initialized"), t)
    | Some c =>
        try_except
          (let symbol_list := parse_symbols symbols in
           quotes <- call_method c (get_quotes_bulk symbol_list) ;;
           result <- lift (price_entries quotes symbol_list []) ;;
           ret (JObj result))
          is_Exception
          (fun e => ret (error_dict ("Failed to fetch prices: " ++ str_exn e)))
          t
    end.

(** [datetime.now()]: the fields the tool reads, and the two texts the
    library formats from it. *)
Record datetime := {
  weekday : Z;                     (* Monday = 0 *)
  hour : Z;
  minute : Z;
  isoformat : string;
  strftime_A : string
}.

Definition is_market_hours (now : datetime) : bool :=
  let is_weekday := weekday now <? 5 in
  let current_hour := hour now in
  let current_minute := minute now in
  is_weekday &&
  (((current_hour =? 9) && (current_minute >=? 30))
   || ((current_hour >? 9) && (current_hour <? 16))
   || ((current_hour =? 16) && (current_minute =? 0))).

Definition get_market_status (now : datetime) : dict :=
  [("is_open", JBool (is_market_hours now));
   ("current_time", JStr (isoformat now));
   ("day_of_week", JStr (strftime_A now));
   ("market_session",
    JStr (if is_market_hours now then "regular_hours" else "closed"))].

(** ** The scripts [schwab_oauth.py] and [refresh_token.py] *)

(** What a script touches: the network, the file [.env] and what the
    operator will type at the prompts. The file is held as the pieces its
    text is made of, in order ([None]: no such file): for a script that
    starts, the lines [readlines()] gives, that is [TextFile.readlines] of
    the text; while it is written, the chunks written so far. What a later
    process finds is [reopened]. *)
Record Script := {
  script_net : Net;
  env_file : option (list string);
  stdin : list string
}.

Definition script_post (u : string) (h : list (string * string))
  (d : list (string * json)) : M Script Response :=
  fun s =>
    let '(o, n) :=
      send {| meth := POST; url := u; headers := h; params := []; data := d |}
           (script_net s) in
    (o, {| script_net := n; env_file := env_file s; stdin := stdin s |}).

(** [input(prompt)] *)
Definition input : M Script string :=
  fun s =>
    match stdin s with
    | [] => (Raise EOFError, s)
    | l :: r =>
        (Ret l, {| script_net := script_net s; env_file := env_file s;
                   stdin := r |})
    end.

(** [open(env_path, 'r')] and [f.readlines()] *)
Definition read_env_lines : M Script (list string) :=
  fun s =>
    match env_file s with
    | Some l => (Ret l, s)
    | None => (Raise FileNotFoundError, s)
    end.

(** [open(env_path, 'w')]: the file is emptied. *)
Definition open_env_w : M Script unit :=
  fun s =>
    (Ret tt, {| script_net := script_net s; env_file := Some [];
                stdin := stdin s |}).

(** [f.write(chunk)]: the chunk goes to the end of the file. It is kept as one
    piece whatever it holds; the text of the file is [TextFile.text_of] the
    pieces, and who opens the file afterwards reads the lines of that text
    ([reopened]), where a chunk holding a line end counts as several lines. *)
Definition f_write (chunk : string) : M Script unit :=
  fun s =>
    (Ret tt,
     {| script_net := script_net s;
        env_file := Some (match env_file s with
                          | Some l => (l ++ [chunk])%list
                          | None => [chunk]
                          end);
        stdin := stdin s |}).

Definition newline : string := String (ascii_of_nat 10) EmptyString.

Definition CALLBACK_URL : string :=
  "https://lively-tarsier-11a576.netlify.app/callback.html".

(** [update_env_file] of [schwab_oauth.py] *)
Definition update_env_file (access_token refresh_token : json) : M Script unit :=
  lines <- read_env_lines ;;
  open_env_w ;;
  for_each lines (fun line =>
    if PyStr.startswith line "SCHWAB_ACCESS_TOKEN="
    then f_write ("SCHWAB_ACCESS_TOKEN=" ++ py_str access_token ++ newline)
    else if PyStr.startswith line "SCHWAB_REFRESH_TOKEN="
    then f_write ("SCHWAB_REFRESH_TOKEN=" ++ py_str refresh_token ++ newline)
    else f_write line).

(** The Basic authorization header both scripts build. *)
Definition basic_auth_headers (CLIENT_ID CLIENT_SECRET : option string)
  : list (string * string) :=
  let credentials :=
    PyStr.fmt_opt CLIENT_ID ++ ":" ++ PyStr.fmt_opt CLIENT_SECRET in
  let encoded_credentials := Base64.b64encode credentials in
  [("Authorization", "Basic " ++ encoded_credentials);
   ("Content-Type", "application/x-www-form-urlencoded")].

(** [exchange_code_for_tokens] of [schwab_oauth.py]; [CLIENT_ID] and
    [CLIENT_SECRET] are the module's globals. The texts printed are left out,
    the expressions they format are evaluated. *)
Definition exchange_code_for_tokens (CLIENT_ID CLIENT_SECRET : option string)
  (auth_code : string) : M Script json :=
  let token_url := "https://api.schwabapi.com/v1/oauth/token" in
  let headers := basic_auth_headers CLIENT_ID CLIENT_SECRET in
  let data :=
    [("grant_type", JStr "authorization_code");
     ("code", JStr auth_code);
     ("redirect_uri", JStr CALLBACK_URL)] in
  try_except
    (response <- script_post token_url headers data ;;
     raise_for_status response ;;
     tokens <- response_json response ;;
     _ <- lift (Py.getitem tokens "access_token") ;;
     _ <- lift (Py.getitem tokens "refresh_token") ;;
     _ <- lift (Py.get tokens "expires_in" Py.zero) ;;
     update <- input ;;
     (if String.eqb (PyStr.lower (PyStr.strip update)) "y"
      then
        a <- lift (Py.getitem tokens "access_token") ;;
        r <- lift (Py.getitem tokens "refresh_token") ;;
        update_env_file a r
      else ret tt) ;;
     ret tokens)
    is_RequestException
    (fun _ => ret JNull).

(** The request [refresh_token.py] sends. *)
Definition refresh_script_request (CLIENT_ID CLIENT_SECRET REFRESH_TOKEN : option string)
  : Request :=
  {| meth := POST;
     url := "https://api.schwabapi.com/v1/oauth/token";
     headers := basic_auth_headers CLIENT_ID CLIENT_SECRET;
     params := [];
     data := [("grant_type", JStr "refresh_token");
              ("refresh_token", Py.of_opt REFRESH_TOKEN)] |}.

(** The loop of [refresh_token.py] that writes [.env] back. *)
Definition rewrite_env_lines (tokens : json) (REFRESH_TOKEN : option string)
  (lines : list string) : M Script unit :=
  for_each lines (fun line =>
    if PyStr.startswith line "SCHWAB_ACCESS_TOKEN="
    then
      a <- lift (Py.getitem tokens "access_token") ;;
      f_write ("SCHWAB_ACCESS_TOKEN=" ++ py_str a ++ newline)
    else if PyStr.startswith line "SCHWAB_REFRESH_TOKEN="
    then
      new_refresh <- lift (Py.get tokens "refresh_token" (Py.of_opt REFRESH_TOKEN)) ;;
      f_write ("SCHWAB_REFRESH_TOKEN=" ++ py_str new_refresh ++ newline)
    else f_write line).

(** The script [refresh_token.py], run with [os.getenv] as [getenv]. *)
Definition refresh_token_main (getenv : string -> option string) : M Script unit :=
  let CLIENT_ID := getenv "SCHWAB_CLIENT_ID" in
  let CLIENT_SECRET := getenv "SCHWAB_CLIENT_SECRET" in
  let REFRESH_TOKEN := getenv "SCHWAB_REFRESH_TOKEN" in
  if negb (forallb PyStr.truthy_opt [CLIENT_ID; CLIENT_SECRET; REFRESH_TOKEN])
  then raise (SystemExit 1)
  else
    let r := refresh_script_request CLIENT_ID CLIENT_SECRET REFRESH_TOKEN in
    try_except
      (response <- script_post (url r) (headers r) (data r) ;;
       if status_code response =? 200
       then
         tokens <- response_json response ;;
         _ <- lift (Py.getitem tokens "access_token") ;;
         _ <- lift (Py.get tokens "refresh_token" (Py.of_opt REFRESH_TOKEN)) ;;
         _ <- lift (Py.get tokens "expires_in" Py.zero) ;;
         update <- input ;;
         if String.eqb (PyStr.lower (PyStr.strip update)) "y"
         then
           lines <- read_env_lines ;;
           open_env_w ;;
           rewrite_env_lines tokens REFRESH_TOKEN lines
         else ret tt
       else ret tt)
      is_Exception
      (fun _ => ret tt).

End Builtins.

(** ** Observations on a run *)

Definition is_get (r : Request) : bool :=
  match meth r with GET => true | POST => false end.

Definition is_post (r : Request) : bool :=
  match meth r with POST => true | GET => false end.

(** How many [GET]s and [POST]s a trace holds. *)
Definition gets (l : list Request) : nat := List.length (filter is_get l).
Definition posts (l : list Request) : nat := List.length (filter is_post l).

(** A response that [raise_for_status] lets through. *)
Definition passes (r : Response) : bool :=
  negb ((400 <=? status_code r) && (status_code r <? 600)).

(** The state once a request has been sent. *)
Definition after_send (s : Sys) (r : Request) : Sys :=
  {| self := self s;
     net := {| server := server (net s); sent := sent (net s) ++ [r] |};
     refresh_calls := refresh_calls s |}.

(** The reply that comes back for [r] in state [s]. *)
Definition reply_to (s : Sys) (r : Request) : reply :=
  deliver (server (net s)) (sent (net s)) r.

(** A stub service: the k-th request of the run gets the k-th reply. *)
Definition stub (replies : list reply) : service :=
  fun history _ => nth (List.length history) replies NoAnswer.

Definition answer (status : Z) (j : json) : reply :=
  Answer {| status_code := status; body := Some j |}.

Definition client0 : Client :=
  {| base_url := "https://api.schwabapi.com";
     client_id := "id";
     client_secret := "secret";
     access_token := JStr "a0";
     refresh_token := JStr "r0" |}.

Definition sys0 (replies : list reply) : Sys :=
  {| self := client0;
     net := {| server := stub replies; sent := [] |};
     refresh_calls := 0 |}.

(** A GET carrying the bearer token [token]. *)
Definition bearer_get (repr_other : json -> string) (u : string)
  (p : list (string * json)) (token : json) : Request :=
  {| meth := GET;
     url := u;
     headers := [("Authorization", "Bearer " ++ py_str repr_other token)];
     params := p;
     data := [] |}.

Definition quotes_url (c : Client) (symbols : string) : string :=
  base_url c ++ "/marketdata/v1/quotes?symbols=" ++ symbols.

Definition history_url (c : Client) : string :=
  base_url c ++ "/marketdata/v1/pricehistory".

Definition history_params (symbol period_type : string) (period : Z)
  (frequency_type : string) (frequency : Z) : list (string * json) :=
  [("symbol", JStr symbol);
   ("periodType", JStr period_type);
   ("period", JNum (inject_Z period));
   ("frequencyType", JStr frequency_type);
   ("frequency", JNum (inject_Z frequency))].

(** The shape [get_quotes_bulk] and [get_price_history] share: one GET, on
    401 one refresh and one more GET. *)
Definition fetch_with_retry (repr_other : json -> string) (u : string)
  (p : list (string * json)) (fail : json) : M Sys json :=
  try_except
    (h <- _get_headers repr_other false ;;
     response <- requests_get u h p ;;
     if status_code response =? 401
     then
       ok <- refresh_access_token ;;
       if ok
       then
         h' <- _get_headers repr_other false ;;
         response' <- requests_get u h' p ;;
         payload_of_response response'
       else ret fail
     else payload_of_response response)
    is_RequestException
    (fun _ => ret fail).

(** The request [refresh_access_token] sends. *)
Definition refresh_request (c : Client) : Request :=
  {| meth := POST;
     url := base_url c ++ "/v1/oauth/token";
     headers := [("Content-Type", "application/x-www-form-urlencoded")];
     params := [];
     data := [("grant_type", JStr "refresh_token");
              ("refresh_token", refresh_token c);
              ("client_id", JStr (client_id c));
              ("client_secret", JStr (client_secret c))] |}.

(** The value a field of the formatted quote takes: the first of the source
    fields that is present, else 0. *)
Fixpoint first_present (fields : list string) (quote : dict) : json :=
  match fields with
  | [] => Py.zero
  | f :: r =>
      match Dict.get f quote with
      | Some v => v
      | None => first_present r quote
      end
  end.

(** The state once the call of [refresh_access_token] has been counted. *)
Definition counted (s : Sys) : Sys :=
  {| self := self s; net := net s; refresh_calls := S (refresh_calls s) |}.

(** The client after a refresh that was answered with the dict [m]. *)
Definition refreshed (c : Client) (m : dict) : Client :=
  {| base_url := base_url c;
     client_id := client_id c;
     client_secret := client_secret c;
     access_token :=
       match Dict.get "access_token" m with Some v => v | None => JNull end;
     refresh_token :=
       match Dict.get "refresh_token" m with
       | Some v => v
       | None => refresh_token c
       end |}.

(** The state after a refresh answered with the dict [m]. *)
Definition after_refresh (s : Sys) (m : dict) : Sys :=
  {| self := refreshed (self s) m;
     net := net (after_send s (refresh_request (self s)));
     refresh_calls := S (refresh_calls s) |}.

(** The state after a refresh that sent its request and failed. *)
Definition after_failed_refresh (s : Sys) : Sys :=
  counted (after_send s (refresh_request (self s))).

(** [cost g p c m]: whatever the state, running [m] keeps the service, sends
    at most [g] GETs and [p] POSTs and nothing before what was already sent,
    and makes at most [c] calls of [refresh_access_token]. *)
Definition cost {A} (g p c : nat) (m : M Sys A) : Prop :=
  forall s,
    server (net (snd (m s))) = server (net s) /\
    (refresh_calls s <= refresh_calls (snd (m s)) <= refresh_calls s + c)%nat /\
    exists l,
      sent (net (snd (m s))) = (sent (net s) ++ l)%list /\
      (gets l <= g)%nat /\ (posts l <= p)%nat.

(** The value of a header. *)
Fixpoint header (k : string) (h : list (string * string)) : option string :=
  match h with
  | [] => None
  | (k', v) :: r => if String.eqb k k' then Some v else header k r
  end.

(** The GET a fetch sends in state [s]: it carries the token [s] holds. *)
Definition first_request (repr_other : json -> string) (u : string)
  (p : list (string * json)) (s : Sys) : Request :=
  bearer_get repr_other u p (access_token (self s)).

(** A stub run: 401, then a refresh answered with a new access token, then a
    third reply. *)
Definition replies_401_refresh_then (third : reply) : list reply :=
  [answer 401 JNull;
   answer 200 (JObj [("access_token", JStr "a1"); ("expires_in", JNum 1800)]);
   third].

Definition repr0 : json -> string := fun _ => "".

Definition payload_aapl : json :=
  JObj [("AAPL", JObj [("symbol", JStr "AAPL");
                       ("quote", JObj [("lastPrice", JNum 150);
                                       ("bidPrice", JNum 149);
                                       ("askPrice", JNum 151)])])].

(** The state of the stub run after the 401 and the refresh. *)
Definition sys_after_refresh (u : string) (p : list (string * json))
  (third : reply) : Sys :=
  after_refresh
    (after_send (sys0 (replies_401_refresh_then third))
                (first_request repr0 u p (sys0 (replies_401_refresh_then third))))
    [("access_token", JStr "a1"); ("expires_in", JNum 1800)].

Definition replies_401_refresh_fails : list reply := [answer 401 JNull; NoAnswer].

(** The state of the stub run after the 401 and a refresh left unanswered. *)
Definition sys_after_failed_refresh (u : string) (p : list (string * json)) : Sys :=
  after_failed_refresh
    (after_send (sys0 replies_401_refresh_fails)
                (first_request repr0 u p (sys0 replies_401_refresh_fails))).

Definition history_params0 : list (string * json) :=
  history_params "AAPL" "day" 1 "minute" 1.

(** A state with the client [client0] and a service giving one reply. *)
Definition sys_refresh (answer_to_refresh : reply) : Sys := sys0 [answer_to_refresh].

Definition tokens_without_access : dict := [("expires_in", JNum 1800)].

Definition tool0 (replies : list reply) : Tool :=
  {| schwab_client := Some client0;
     tool_net := {| server := stub replies; sent := [] |};
     tool_refresh_calls := 0 |}.

Definition str_exn0 : exn -> string := fun _ => "".

Definition script0 (replies : list reply) (lines : list string)
  (typed : list string) : Script :=
  {| script_net := {| server := stub replies; sent := [] |};
     env_file := Some lines;
     stdin := typed |}.

Definition env_lines0 : list string :=
  ["SCHWAB_CLIENT_ID=id" ++ newline;
   "SCHWAB_ACCESS_TOKEN=a0" ++ newline;
   "# tokens" ++ newline;
   "SCHWAB_REFRESH_TOKEN=r0" ++ newline;
   "OPENAI_API_KEY=k"].

Definition formatted_quote (quote : dict) : json :=
  JObj [("buy_price", first_present ["askPrice"; "lastPrice"] quote);
        ("sell_price", first_present ["bidPrice"; "lastPrice"] quote);
        ("last_price", first_present ["lastPrice"] quote);
        ("high", first_present ["highPrice"] quote);
        ("low", first_present ["lowPrice"] quote);
        ("volume", first_present ["totalVolume"] quote);
        ("timestamp", first_present ["quoteTime"] quote)].


(** What the rewrite makes of one line, given the texts of the two tokens. *)
Definition env_line_rewritten (access refresh old new : string) : Prop :=
  if PyStr.startswith old "SCHWAB_ACCESS_TOKEN="
  then new = "SCHWAB_ACCESS_TOKEN=" ++ access ++ newline
  else if PyStr.startswith old "SCHWAB_REFRESH_TOKEN="
  then new = "SCHWAB_REFRESH_TOKEN=" ++ refresh ++ newline
  else new = old.

Definition with_env_file (s : Script) (content : list string) : Script :=
  {| script_net := script_net s; env_file := Some content; stdin := stdin s |}.

(** What a method may not touch: the endpoint, the credentials, the
    service. *)
Definition same_identity (s s' : Sys) : Prop :=
  base_url (self s') = base_url (self s) /\
  client_id (self s') = client_id (self s) /\
  client_secret (self s') = client_secret (self s) /\
  server (net s') = server (net s).

(** [keeps R m]: running [m] from any state ends in a state related to it. *)
Definition keeps {A} (R : Sys -> Sys -> Prop) (m : M Sys A) : Prop :=
  forall s, R s (snd (m s)).

(** The environment of a process, as [os.getenv] reads it. *)
Definition env_of (l : list (string * string)) : string -> option string :=
  fun k => header k l.

Definition creds_env : string -> option string :=
  env_of [("SCHWAB_CLIENT_ID", "id"); ("SCHWAB_CLIENT_SECRET", "secret");
          ("SCHWAB_REFRESH_TOKEN", "r0")].

Definition client_no_token : Client :=
  {| base_url := "https://api.schwabapi.com";
     client_id := "id";
     client_secret := "secret";
     access_token := JNull;
     refresh_token := JStr "r0" |}.

Definition sys_no_token : Sys :=
  {| self := client_no_token;
     net := {| server := stub [answer 200 payload_aapl]; sent := [] |};
     refresh_calls := 0 |}.

Definition tokens_a1 : dict :=
  [("access_token", JStr "a1"); ("expires_in", JNum 1800)].

Definition candles0 : json := JObj [("symbol", JStr "AAPL"); ("empty", JBool false)].

(** [yields P m]: whatever the state, [m] returns a value satisfying [P] or
    raises an exception that [except Exception] catches. *)
Definition yields {S A} (P : A -> Prop) (m : M S A) : Prop :=
  forall s,
    match fst (m s) with
    | Ret a => P a
    | Raise e => is_Exception e = true
    end.

(** The same for a computation without state. *)
Definition gives {A} (P : A -> Prop) (o : outcome A) : Prop :=
  match o with
  | Ret a => P a
  | Raise e => is_Exception e = true
  end.

Definition any {A} : A -> Prop := fun _ => True.

Definition is_dict (v : json) : Prop := exists d, v = JObj d.

(** The client held by the tool module, as the state its methods run in. *)
Definition tool_sys (t : Tool) (c : Client) : Sys :=
  {| self := c; net := tool_net t; refresh_calls := tool_refresh_calls t |}.

Definition no_data : json := error_dict "No data available".

(** The result dict when no requested symbol has data. *)
Definition all_no_data (symbol_list : list string) (result : dict) : dict :=
  fold_left (fun d symbol => Dict.set symbol no_data d) symbol_list result.

Definition tool_uninitialised : Tool :=
  {| schwab_client := None;
     tool_net := {| server := stub [answer 200 payload_aapl]; sent := [] |};
     tool_refresh_calls := 0 |}.

(** [leaves f m]: running [m] does not change the part [f] of the state. *)
Definition leaves {S X A} (f : S -> X) (m : M S A) : Prop :=
  forall s, f (snd (m s)) = f s.

(** The request [exchange_code_for_tokens] sends. *)
Definition exchange_request (CLIENT_ID CLIENT_SECRET : option string)
  (auth_code : string) : Request :=
  {| meth := POST;
     url := "https://api.schwabapi.com/v1/oauth/token";
     headers := basic_auth_headers CLIENT_ID CLIENT_SECRET;
     params := [];
     data := [("grant_type", JStr "authorization_code");
              ("code", JStr auth_code);
              ("redirect_uri", JStr CALLBACK_URL)] |}.

(** The script state once a request has been sent. *)
Definition script_after_send (s : Script) (r : Request) : Script :=
  {| script_net := {| server := server (script_net s);
                      sent := sent (script_net s) ++ [r] |};
     env_file := env_file s;
     stdin := stdin s |}.

(** The script state once a line of input has been read. *)
Definition script_after_input (s : Script) : Script :=
  {| script_net := script_net s; env_file := env_file s; stdin := tl (stdin s) |}.

(** The operator's answer counts as yes. *)
Definition says_yes (typed : string) : bool :=
  String.eqb (PyStr.lower (PyStr.strip typed)) "y".

(** The state a process finds that opens [.env] after [s]: the lines of the
    text that was written. *)
Definition reopened (s : Script) : Script :=
  {| script_net := script_net s;
     env_file :=
       option_map (fun pieces => TextFile.readlines (TextFile.text_of pieces))
                  (env_file s);
     stdin := stdin s |}.

Fixpoint no_cr (s : string) : bool :=
  match s with
  | EmptyString => true
  | String c r => negb (Ascii.eqb c PyStr.cr) && no_cr r
  end.

(** A line with its end: no CR, and one LF, which is its last character. *)
Fixpoint full_line (s : string) : bool :=
  match s with
  | EmptyString => false
  | String c r =>
      if Ascii.eqb c PyStr.lf then Http.is_empty r
      else negb (Ascii.eqb c PyStr.cr) && full_line r
  end.

(** The last line of a text that does not end in LF. *)
Definition open_line (s : string) : bool :=
  negb (Http.is_empty s) && PyStr.plain s.

(** Lines as [readlines()] gives them: full lines, the last one possibly
    without its end. *)
Fixpoint is_lines (l : list string) : bool :=
  match l with
  | [] => true
  | x :: r =>
      (full_line x || match r with [] => open_line x | _ :: _ => false end)
      && is_lines r
  end.

Definition is_token_line (line : string) : bool :=
  PyStr.startswith line "SCHWAB_ACCESS_TOKEN=" ||
  PyStr.startswith line "SCHWAB_REFRESH_TOKEN=".

Definition tokens_both : dict :=
  [("access_token", JStr "a1"); ("refresh_token", JStr "r1");
   ("expires_in", JNum 1800)].

(** What [exchange_code_for_tokens] does once the response is in hand. *)
Definition exchange_continue (repr_other : json -> string) (response : Response)
  : M Script json :=
  raise_for_status response ;;
  tokens <- response_json response ;;
  _ <- lift (Py.getitem tokens "access_token") ;;
  _ <- lift (Py.getitem tokens "refresh_token") ;;
  _ <- lift (Py.get tokens "expires_in" Py.zero) ;;
  update <- input ;;
  (if String.eqb (PyStr.lower (PyStr.strip update)) "y"
   then
     a <- lift (Py.getitem tokens "access_token") ;;
     r <- lift (Py.getitem tokens "refresh_token") ;;
     update_env_file repr_other a r
   else ret tt) ;;
  ret tokens.

(** What [refresh_token.py] does once the response is in hand. *)
Definition refresh_script_continue (repr_other : json -> string)
  (REFRESH_TOKEN : option string) (response : Response) : M Script unit :=
  if status_code response =? 200
  then
    tokens <- response_json response ;;
    _ <- lift (Py.getitem tokens "access_token") ;;
    _ <- lift (Py.get tokens "refresh_token" (Py.of_opt REFRESH_TOKEN)) ;;
    _ <- lift (Py.get tokens "expires_in" Py.zero) ;;
    update <- input ;;
    if String.eqb (PyStr.lower (PyStr.strip update)) "y"
    then
      lines <- read_env_lines ;;
      open_env_w ;;
      rewrite_env_lines repr_other tokens REFRESH_TOKEN lines
    else ret tt
  else ret tt.

Definition exchange_req0 : Request := exchange_request (Some "id") (Some "secret") "code0".

Definition script_creds (replies : list reply) (typed : list string) : Script :=
  script0 replies env_lines0 typed.

(** * Properties *)

(** ** The library's header checks *)

Lemma plain_rest_ok (s : string) : PyStr.plain s = true -> Http.rest_ok s = true.
Proof.
  induction s as [| c r IH]; [reflexivity | ].
  cbn [PyStr.plain Http.rest_ok]. unfold PyStr.plain_char. intros H.
  apply andb_true_iff in H. destruct H as [Hc Hr].
  apply negb_true_iff, orb_false_iff in Hc.
  destruct Hc as [Hlf Hcr]. rewrite Hlf, Hcr. apply IH. exact Hr.
Qed.

Lemma plain_not_illegal (s : string) : PyStr.plain s = true -> Http.illegal s = false.
Proof.
  induction s as [| c r IH]; [reflexivity | ].
  cbn [PyStr.plain Http.illegal]. unfold PyStr.plain_char. intros H.
  apply andb_true_iff in H. destruct H as [Hc Hr].
  apply negb_true_iff, orb_false_iff in Hc.
  destruct Hc as [Hlf Hcr]. rewrite Hlf, Hcr. cbn [andb orb].
  apply IH. exact Hr.
Qed.

Lemma plain_app (a b : string) :
  PyStr.plain (a ++ b) = PyStr.plain a && PyStr.plain b.
Proof.
  induction a as [| c a IH]; [reflexivity | ].
  cbn. rewrite IH. apply andb_assoc.
Qed.

Lemma plain_get (s : string) :
  PyStr.plain s = true ->
  forall k c, String.get k s = Some c -> PyStr.plain_char c = true.
Proof.
  induction s as [| c0 s IH]; intros Hp k c Hget; [destruct k; discriminate Hget | ].
  cbn in Hp. apply andb_true_iff in Hp. destruct Hp as [Hc Hs].
  destruct k as [| k]; cbn in Hget.
  - injection Hget as <-. exact Hc.
  - apply (IH Hs k c Hget).
Qed.

Lemma digit_plain (n : N) : PyStr.plain_char (Base64.digit n) = true.
Proof.
  unfold Base64.digit.
  destruct (String.get (N.to_nat n) Base64.alphabet) as [c | ] eqn:E;
    [ | reflexivity].
  apply (plain_get Base64.alphabet eq_refl _ _ E).
Qed.

Lemma encode_bytes_plain (n : nat) :
  forall l, (List.length l <= n)%nat ->
            forallb PyStr.plain_char (Base64.encode_bytes l) = true.
Proof.
  induction n as [| n IH]; intros l Hl.
  - destruct l; [reflexivity | cbn in Hl; lia].
  - destruct l as [| a [| b [| c r] ] ]; cbn [Base64.encode_bytes forallb];
      rewrite ?digit_plain; try reflexivity.
    cbn [andb]. apply IH. cbn in Hl. lia.
Qed.

Lemma plain_string_of_list (l : list ascii) :
  PyStr.plain (string_of_list_ascii l) = forallb PyStr.plain_char l.
Proof.
  induction l as [| c l IH]; [reflexivity | ]. cbn. rewrite IH. reflexivity.
Qed.

(** The encoding holds no CR and no LF. *)
Lemma b64encode_plain (s : string) : PyStr.plain (Base64.b64encode s) = true.
Proof.
  unfold Base64.b64encode. rewrite plain_string_of_list.
  apply (encode_bytes_plain _ _ (le_n _)).
Qed.

(** The headers both scripts build always pass the checks. *)
Lemma check_basic_auth_headers (cid csec : option string) :
  Http.check (basic_auth_headers cid csec) = None.
Proof.
  unfold basic_auth_headers, Http.check.
  set (enc := Base64.b64encode _).
  pose proof (b64encode_plain (PyStr.fmt_opt cid ++ ":" ++ PyStr.fmt_opt csec))
    as Hp. fold enc in Hp.
  assert (Hv : PyStr.plain ("Basic " ++ enc) = true).
  { rewrite plain_app, Hp. reflexivity. }
  cbn [forallb find snd].
  assert (Ha : Http.requests_accepts ("Basic " ++ enc) = true).
  { assert (Hr : Http.rest_ok ("asic " ++ enc) = true).
    { apply plain_rest_ok. rewrite plain_app, Hp. reflexivity. }
    change (negb (PyStr.is_space "B") && Http.rest_ok ("asic " ++ enc)
            || Ascii.eqb "B" PyStr.lf && Http.is_empty ("asic " ++ enc) = true).
    rewrite Hr. reflexivity. }
  rewrite Ha, (plain_not_illegal _ Hv). reflexivity.
Qed.

Lemma refusal_is_Exception (r : Request) : is_Exception (refusal r) = true.
Proof.
  unfold refusal, Http.check.
  destruct (negb (forallb _ (headers r))); [reflexivity | ].
  destruct (find _ (headers r)); reflexivity.
Qed.

(** ** The string and encoding helpers on known values *)

Example upper_aapl : PyStr.upper "aapl" = "AAPL".
Proof. reflexivity. Qed.

Example split_strip :
  map PyStr.strip (PyStr.split ","%char "AAPL, msft ,BAD") = ["AAPL"; "msft"; "BAD"].
Proof. reflexivity. Qed.

Example b64_id_secret : Base64.b64encode "id:secret" = "aWQ6c2VjcmV0".
Proof. reflexivity. Qed.

Example b64_padding : Base64.b64encode "a:b1" = "YTpiMQ==".
Proof. reflexivity. Qed.

(** ** The market-hours heuristic *)

Lemma is_market_hours_spec (now : datetime) :
  is_market_hours now = true <->
  weekday now < 5 /\
  ((hour now = 9 /\ 30 <= minute now)
   \/ (9 < hour now < 16)
   \/ (hour now = 16 /\ minute now = 0)).
Proof.
  unfold is_market_hours.
  rewrite andb_true_iff, !orb_true_iff, !andb_true_iff.
  rewrite Z.ltb_lt, !Z.eqb_eq, Z.geb_le, Z.gtb_lt, Z.ltb_lt.
  tauto.
Qed.

(** C9: for a local time whose minute is a minute of the hour, [is_open] is
    true exactly when the weekday index is below 5 and the time of day lies
    between 9:30 and 16:00 inclusive, counted in whole minutes (so hour 16
    qualifies with minute 0 only); [market_session] is ["regular_hours"]
    exactly when [is_open] is true. *)
Theorem get_market_status_open (now : datetime) :
  0 <= minute now < 60 ->
  exists is_open session,
    Dict.get "is_open" (get_market_status now) = Some (JBool is_open) /\
    Dict.get "market_session" (get_market_status now) = Some (JStr session) /\
    (is_open = true <->
       weekday now < 5 /\
       9 * 60 + 30 <= hour now * 60 + minute now <= 16 * 60) /\
    (hour now = 16 -> (is_open = true <-> weekday now < 5 /\ minute now = 0)) /\
    (session = "regular_hours" <-> is_open = true).
Proof.
  intros Hm.
  exists (is_market_hours now),
         (if is_market_hours now then "regular_hours" else "closed").
  pose proof (is_market_hours_spec now) as Hspec.
  split; [reflexivity | split; [reflexivity | ] ].
  split; [rewrite Hspec; lia | ].
  split; [intros H16; rewrite Hspec; lia | ].
  destruct (is_market_hours now).
  - split; intros _; reflexivity.
  - split; intros H; discriminate H.
Qed.

Lemma get_market_status_open_witness :
  exists is_open session,
    Dict.get "is_open"
      (get_market_status {| weekday := 0; hour := 16; minute := 0;
                            isoformat := "2025-01-06T16:00:30";
                            strftime_A := "Monday" |}) = Some (JBool is_open) /\
    Dict.get "market_session"
      (get_market_status {| weekday := 0; hour := 16; minute := 0;
                            isoformat := "2025-01-06T16:00:30";
                            strftime_A := "Monday" |}) = Some (JStr session) /\
    (is_open = true <-> 0 < 5 /\ 9 * 60 + 30 <= 16 * 60 + 0 <= 16 * 60) /\
    (16 = 16 -> (is_open = true <-> 0 < 5 /\ 0 = 0)) /\
    (session = "regular_hours" <-> is_open = true).
Proof.
  apply (get_market_status_open
           {| weekday := 0; hour := 16; minute := 0;
              isoformat := "2025-01-06T16:00:30"; strftime_A := "Monday" |}).
  simpl. lia.
Defined.

(** ** Formatting a quote *)

Lemma format_quote_of_dict (m quote : dict) :
  Dict.get "quote" m = Some (JObj quote) ->
  format_quote_for_trading (JObj m) = Ret (formatted_quote quote).
Proof.
  intros Hq.
  unfold format_quote_for_trading, formatted_quote.
  destruct m as [| p m']; [discriminate Hq | ].
  cbn [Py.truthy negb Py.contains obind Py.getitem].
  unfold Dict.has. rewrite Hq.
  cbn [negb obind Py.get first_present Py.zero].
  destruct (Dict.get "lastPrice" quote), (Dict.get "askPrice" quote),
    (Dict.get "bidPrice" quote), (Dict.get "highPrice" quote),
    (Dict.get "lowPrice" quote), (Dict.get "totalVolume" quote),
    (Dict.get "quoteTime" quote); reflexivity.
Qed.

Lemma format_quote_no_quote_key (m : dict) :
  Dict.get "quote" m = None ->
  format_quote_for_trading (JObj m) = Ret (JObj []).
Proof.
  intros Hn. unfold format_quote_for_trading.
  destruct (Py.truthy (JObj m)); [ | reflexivity].
  cbn [negb Py.contains obind]. unfold Dict.has. rewrite Hn. reflexivity.
Qed.




(** ** Writing the tokens back to [.env] *)

Section EnvRewrite.

Variable repr_other : json -> string.

Lemma update_loop (access refresh : json) (lines : list string) :
  forall (s : Script) (written : list string),
    env_file s = Some written ->
    exists out,
      for_each lines (fun line =>
        if PyStr.startswith line "SCHWAB_ACCESS_TOKEN="
        then f_write ("SCHWAB_ACCESS_TOKEN=" ++ py_str repr_other access ++ newline)
        else if PyStr.startswith line "SCHWAB_REFRESH_TOKEN="
        then f_write ("SCHWAB_REFRESH_TOKEN=" ++ py_str repr_other refresh ++ newline)
        else f_write line) s
      = (Ret tt, with_env_file s (written ++ out)%list) /\
      Forall2 (env_line_rewritten (py_str repr_other access)
                                  (py_str repr_other refresh)) lines out.
Proof.
  induction lines as [| line rest IH]; intros s written Hs.
  - exists []. split; [ | constructor].
    cbn [for_each]. unfold ret, with_env_file. rewrite app_nil_r, <- Hs.
    destruct s; reflexivity.
  - cbn [for_each]. unfold bind at 1.
    set (chunk :=
           if PyStr.startswith line "SCHWAB_ACCESS_TOKEN="
           then "SCHWAB_ACCESS_TOKEN=" ++ py_str repr_other access ++ newline
           else if PyStr.startswith line "SCHWAB_REFRESH_TOKEN="
           then "SCHWAB_REFRESH_TOKEN=" ++ py_str repr_other refresh ++ newline
           else line).
    assert (Hstep :
      (if PyStr.startswith line "SCHWAB_ACCESS_TOKEN="
       then f_write ("SCHWAB_ACCESS_TOKEN=" ++ py_str repr_other access ++ newline)
       else if PyStr.startswith line "SCHWAB_REFRESH_TOKEN="
       then f_write ("SCHWAB_REFRESH_TOKEN=" ++ py_str repr_other refresh ++ newline)
       else f_write line) s
      = (Ret tt, with_env_file s (written ++ [chunk])%list)).
    { unfold chunk.
      destruct (PyStr.startswith line "SCHWAB_ACCESS_TOKEN=");
        [ | destruct (PyStr.startswith line "SCHWAB_REFRESH_TOKEN=")];
        unfold f_write, with_env_file; rewrite Hs; reflexivity. }
    rewrite Hstep.
    destruct (IH (with_env_file s (written ++ [chunk])%list)
                 (written ++ [chunk])%list eq_refl) as [out [Hrun Hall]].
    exists (chunk :: out). split.
    + rewrite Hrun. unfold with_env_file. cbn [script_net stdin].
      rewrite <- app_assoc. reflexivity.
    + constructor; [ | exact Hall].
      unfold env_line_rewritten, chunk.
      destruct (PyStr.startswith line "SCHWAB_ACCESS_TOKEN=");
        [ | destruct (PyStr.startswith line "SCHWAB_REFRESH_TOKEN=")];
        reflexivity.
Qed.

Lemma rewrite_loop (m : dict) (REFRESH_TOKEN : option string) (a : json)
  (lines : list string) :
  Dict.get "access_token" m = Some a ->
  forall (s : Script) (written : list string),
    env_file s = Some written ->
    exists out,
      rewrite_env_lines repr_other (JObj m) REFRESH_TOKEN lines s
      = (Ret tt, with_env_file s (written ++ out)%list) /\
      Forall2 (env_line_rewritten
                 (py_str repr_other a)
                 (py_str repr_other
                    (match Dict.get "refresh_token" m with
                     | Some v => v
                     | None => Py.of_opt REFRESH_TOKEN
                     end))) lines out.
Proof.
  intros Ha.
  unfold rewrite_env_lines.
  induction lines as [| line rest IH]; intros s written Hs.
  - exists []. split; [ | constructor].
    cbn [for_each]. unfold ret, with_env_file. rewrite app_nil_r, <- Hs.
    destruct s; reflexivity.
  - cbn [for_each]. unfold bind at 1.
    set (new_refresh := match Dict.get "refresh_token" m with
                        | Some v => v
                        | None => Py.of_opt REFRESH_TOKEN
                        end).
    set (chunk :=
           if PyStr.startswith line "SCHWAB_ACCESS_TOKEN="
           then "SCHWAB_ACCESS_TOKEN=" ++ py_str repr_other a ++ newline
           else if PyStr.startswith line "SCHWAB_REFRESH_TOKEN="
           then "SCHWAB_REFRESH_TOKEN=" ++ py_str repr_other new_refresh ++ newline
           else line).
    assert (Hstep :
      (if PyStr.startswith line "SCHWAB_ACCESS_TOKEN="
       then a0 <- lift (Py.getitem (JObj m) "access_token") ;;
            f_write ("SCHWAB_ACCESS_TOKEN=" ++ py_str repr_other a0 ++ newline)
       else if PyStr.startswith line "SCHWAB_REFRESH_TOKEN="
       then nr <- lift (Py.get (JObj m) "refresh_token" (Py.of_opt REFRESH_TOKEN)) ;;
            f_write ("SCHWAB_REFRESH_TOKEN=" ++ py_str repr_other nr ++ newline)
       else f_write line) s
      = (Ret tt, with_env_file s (written ++ [chunk])%list)).
    { unfold chunk, new_refresh.
      destruct (PyStr.startswith line "SCHWAB_ACCESS_TOKEN=");
        [ | destruct (PyStr.startswith line "SCHWAB_REFRESH_TOKEN=")];
        unfold bind, lift, f_write, with_env_file;
        cbn [Py.getitem Py.get]; rewrite ?Ha, Hs;
        try destruct (Dict.get "refresh_token" m); reflexivity. }
    rewrite Hstep.
    destruct (IH (with_env_file s (written ++ [chunk])%list)
                 (written ++ [chunk])%list eq_refl) as [out [Hrun Hall]].
    exists (chunk :: out). split.
    + rewrite Hrun. unfold with_env_file. cbn [script_net stdin].
      rewrite <- app_assoc. reflexivity.
    + constructor; [ | exact Hall].
      unfold env_line_rewritten, chunk.
      destruct (PyStr.startswith line "SCHWAB_ACCESS_TOKEN=");
        [ | destruct (PyStr.startswith line "SCHWAB_REFRESH_TOKEN=")];
        reflexivity.
Qed.

Lemma update_env_file_run (access refresh : json) (s : Script)
  (lines : list string) :
  env_file s = Some lines ->
  exists out,
    update_env_file repr_other access refresh s = (Ret tt, with_env_file s out) /\
    Forall2 (env_line_rewritten (py_str repr_other access)
                                (py_str repr_other refresh)) lines out.
Proof.
  intros Hs.
  unfold update_env_file, bind at 1, read_env_lines. rewrite Hs.
  unfold bind at 1, open_env_w.
  destruct (update_loop access refresh lines
              (with_env_file s []) [] eq_refl) as [out [Hrun Hall]].
  exists out. split; [ | exact Hall].
  exact Hrun.
Qed.

Lemma rewrite_after_open_run (s : Script) (lines : list string) (m : dict)
  (REFRESH_TOKEN : option string) (a : json) :
  Dict.get "access_token" m = Some a ->
  exists out,
    bind open_env_w
         (fun _ => rewrite_env_lines repr_other (JObj m) REFRESH_TOKEN lines) s
    = (Ret tt, with_env_file s out) /\
    Forall2 (env_line_rewritten
               (py_str repr_other a)
               (py_str repr_other
                  (match Dict.get "refresh_token" m with
                   | Some v => v
                   | None => Py.of_opt REFRESH_TOKEN
                   end))) lines out.
Proof.
  intros Ha.
  unfold bind at 1, open_env_w.
  destruct (rewrite_loop m REFRESH_TOKEN a lines Ha
              (with_env_file s []) [] eq_refl) as [out [Hrun Hall]].
  exists out. split; [ | exact Hall].
  exact Hrun.
Qed.

(** C6: the rewrite of [.env], by [update_env_file] and by the loop of
    [refresh_token.py], writes one chunk per line read, in the order read:
    a line beginning with [SCHWAB_ACCESS_TOKEN=] becomes that key with the
    new access token, a line beginning with [SCHWAB_REFRESH_TOKEN=] that key
    with the new refresh token, and every other line is written back as it
    was; the network and the operator's input are untouched. *)
Theorem update_env_file_preserves_other_lines
  (access refresh : json) (s : Script) (lines : list string) :
  env_file s = Some lines ->
  (exists out,
     update_env_file repr_other access refresh s = (Ret tt, with_env_file s out) /\
     Forall2 (env_line_rewritten (py_str repr_other access)
                                 (py_str repr_other refresh)) lines out) /\
  (forall m REFRESH_TOKEN a,
     Dict.get "access_token" m = Some a ->
     exists out,
       bind open_env_w
            (fun _ => rewrite_env_lines repr_other (JObj m) REFRESH_TOKEN lines) s
       = (Ret tt, with_env_file s out) /\
       Forall2 (env_line_rewritten
                  (py_str repr_other a)
                  (py_str repr_other
                     (match Dict.get "refresh_token" m with
                      | Some v => v
                      | None => Py.of_opt REFRESH_TOKEN
                      end))) lines out).
Proof.
  intros Hs. split.
  - apply update_env_file_run. exact Hs.
  - intros m REFRESH_TOKEN a Ha. apply rewrite_after_open_run. exact Ha.
Qed.

End EnvRewrite.

(** ** Refreshing the access token *)

Lemma refresh_no_token (s : Sys) :
  Py.truthy (refresh_token (self s)) = false ->
  refresh_access_token s = (Ret false, counted s).
Proof.
  intros Ht.
  unfold refresh_access_token, bind at 1, count_refresh_call.
  unfold bind at 1, get_self. cbn [self].
  rewrite Ht. reflexivity.
Qed.

Lemma refresh_ok (s : Sys) (r : Response) (m : dict) :
  Py.truthy (refresh_token (self s)) = true ->
  reply_to s (refresh_request (self s)) = Answer r ->
  passes r = true ->
  body r = Some (JObj m) ->
  refresh_access_token s = (Ret true, after_refresh s m).
Proof.
  intros Ht Hr Hp Hb.
  unfold refresh_access_token, bind at 1, count_refresh_call.
  unfold bind at 1, get_self. cbn [self].
  rewrite Ht. cbn [negb].
  unfold try_except, bind at 1, requests_post, requests, send.
  cbn [net self refresh_calls].
  unfold reply_to, refresh_request in Hr. rewrite Hr.
  unfold bind at 1, raise_for_status. unfold passes in Hp.
  apply negb_true_iff in Hp. rewrite Hp.
  unfold ret at 1. unfold bind at 1, response_json. rewrite Hb.
  unfold ret at 1.
  unfold bind, lift, set_access_token, set_refresh_token, ret.
  cbn [Py.get Py.contains Py.getitem self net refresh_calls base_url
       client_id client_secret access_token refresh_token].
  unfold Dict.has, after_refresh, refreshed, after_send, refresh_request.
  destruct (Dict.get "access_token" m), (Dict.get "refresh_token" m);
    reflexivity.
Qed.

Lemma refresh_no_answer (s : Sys) :
  Py.truthy (refresh_token (self s)) = true ->
  reply_to s (refresh_request (self s)) = NoAnswer ->
  refresh_access_token s = (Ret false, after_failed_refresh s).
Proof.
  intros Ht Hr.
  unfold refresh_access_token, bind at 1, count_refresh_call.
  unfold bind at 1, get_self. cbn [self].
  rewrite Ht. cbn [negb].
  unfold try_except, bind at 1, requests_post, requests, send.
  cbn [net self refresh_calls].
  unfold reply_to, refresh_request in Hr. rewrite Hr.
  reflexivity.
Qed.

Lemma refresh_refused (s : Sys) :
  Py.truthy (refresh_token (self s)) = true ->
  reply_to s (refresh_request (self s)) = Refused ->
  refresh_access_token s = (Ret false, after_failed_refresh s).
Proof.
  intros Ht Hr.
  unfold refresh_access_token, bind at 1, count_refresh_call.
  unfold bind at 1, get_self. cbn [self].
  rewrite Ht. cbn [negb].
  unfold try_except, bind at 1, requests_post, requests, send.
  cbn [net self refresh_calls].
  unfold reply_to, refresh_request in Hr. rewrite Hr.
  reflexivity.
Qed.

Lemma refresh_http_error (s : Sys) (r : Response) :
  Py.truthy (refresh_token (self s)) = true ->
  reply_to s (refresh_request (self s)) = Answer r ->
  passes r = false ->
  refresh_access_token s = (Ret false, after_failed_refresh s).
Proof.
  intros Ht Hr Hp.
  unfold refresh_access_token, bind at 1, count_refresh_call.
  unfold bind at 1, get_self. cbn [self].
  rewrite Ht. cbn [negb].
  unfold try_except, bind at 1, requests_post, requests, send.
  cbn [net self refresh_calls].
  unfold reply_to, refresh_request in Hr. rewrite Hr.
  unfold bind at 1, raise_for_status. unfold passes in Hp.
  apply negb_false_iff in Hp. rewrite Hp.
  reflexivity.
Qed.

Lemma refresh_not_json (s : Sys) (r : Response) :
  Py.truthy (refresh_token (self s)) = true ->
  reply_to s (refresh_request (self s)) = Answer r ->
  passes r = true ->
  body r = None ->
  refresh_access_token s = (Ret false, after_failed_refresh s).
Proof.
  intros Ht Hr Hp Hb.
  unfold refresh_access_token, bind at 1, count_refresh_call.
  unfold bind at 1, get_self. cbn [self].
  rewrite Ht. cbn [negb].
  unfold try_except, bind at 1, requests_post, requests, send.
  cbn [net self refresh_calls].
  unfold reply_to, refresh_request in Hr. rewrite Hr.
  unfold bind at 1, raise_for_status. unfold passes in Hp.
  apply negb_true_iff in Hp. rewrite Hp.
  unfold ret at 1. unfold bind at 1, response_json. rewrite Hb.
  reflexivity.
Qed.

(** A refresh answered by JSON that is no dict raises, and the tokens stay. *)
Lemma refresh_not_dict (s : Sys) (r : Response) (j : json) :
  Py.truthy (refresh_token (self s)) = true ->
  reply_to s (refresh_request (self s)) = Answer r ->
  passes r = true ->
  body r = Some j ->
  (forall m, j <> JObj m) ->
  refresh_access_token s =
  (Raise (AttributeError "get"), after_failed_refresh s).
Proof.
  intros Ht Hr Hp Hb Hj.
  unfold refresh_access_token, bind at 1, count_refresh_call.
  unfold bind at 1, get_self. cbn [self].
  rewrite Ht. cbn [negb].
  unfold try_except, bind at 1, requests_post, requests, send.
  cbn [net self refresh_calls].
  unfold reply_to, refresh_request in Hr. rewrite Hr.
  unfold bind at 1, raise_for_status. unfold passes in Hp.
  apply negb_true_iff in Hp. rewrite Hp.
  unfold ret at 1. unfold bind at 1, response_json. rewrite Hb.
  unfold ret at 1. unfold bind at 1, lift.
  destruct j; try reflexivity.
  exfalso. apply (Hj m). reflexivity.
Qed.

(** ** What a run sends: a calculus of bounds *)

Lemma gets_app (l1 l2 : list Request) : gets (l1 ++ l2) = (gets l1 + gets l2)%nat.
Proof. unfold gets. rewrite filter_app, length_app. reflexivity. Qed.

Lemma posts_app (l1 l2 : list Request) : posts (l1 ++ l2) = (posts l1 + posts l2)%nat.
Proof. unfold posts. rewrite filter_app, length_app. reflexivity. Qed.

Lemma cost_pure {A} (m : M Sys A) :
  (forall s, snd (m s) = s) -> cost 0 0 0 m.
Proof.
  intros H s. rewrite H.
  split; [reflexivity | split; [lia | ] ].
  exists []. rewrite app_nil_r. repeat split; cbn; lia.
Qed.

Lemma cost_ret {A} (a : A) : cost 0 0 0 (ret a).
Proof. apply cost_pure. reflexivity. Qed.

Lemma cost_raise {A} (e : exn) : cost 0 0 0 (@raise Sys A e).
Proof. apply cost_pure. reflexivity. Qed.

Lemma cost_lift {A} (o : outcome A) : cost 0 0 0 (lift o).
Proof. apply cost_pure. reflexivity. Qed.

Lemma cost_get_self : cost 0 0 0 get_self.
Proof. apply cost_pure. reflexivity. Qed.

Lemma cost_weaken {A} (g p c g' p' c' : nat) (m : M Sys A) :
  cost g p c m -> (g <= g')%nat -> (p <= p')%nat -> (c <= c')%nat ->
  cost g' p' c' m.
Proof.
  intros H Hg Hp Hc s.
  destruct (H s) as [Hsrv [Hcalls [l [Hl [Hgl Hpl]]]]].
  split; [exact Hsrv | split; [lia | ] ].
  exists l. repeat split; [exact Hl | lia | lia].
Qed.

Lemma cost_bind {A B} (g1 p1 c1 g2 p2 c2 : nat) (m : M Sys A) (k : A -> M Sys B) :
  cost g1 p1 c1 m -> (forall a, cost g2 p2 c2 (k a)) ->
  cost (g1 + g2) (p1 + p2) (c1 + c2) (bind m k).
Proof.
  intros Hm Hk s.
  destruct (Hm s) as [Hsrv [Hcalls [l [Hl [Hgl Hpl]]]]].
  unfold bind. destruct (m s) as [[a | e] s1]; cbn [snd] in *.
  - destruct (Hk a s1) as [Hsrv2 [Hcalls2 [l2 [Hl2 [Hgl2 Hpl2]]]]].
    split; [congruence | split; [lia | ] ].
    exists (l ++ l2)%list. rewrite Hl2, Hl, app_assoc, gets_app, posts_app.
    repeat split; lia.
  - split; [exact Hsrv | split; [lia | ] ].
    exists l. repeat split; [exact Hl | lia | lia].
Qed.

Lemma cost_try_except {A} (g1 p1 c1 g2 p2 c2 : nat) (m : M Sys A)
  (catches : exn -> bool) (h : exn -> M Sys A) :
  cost g1 p1 c1 m -> (forall e, cost g2 p2 c2 (h e)) ->
  cost (g1 + g2) (p1 + p2) (c1 + c2) (try_except m catches h).
Proof.
  intros Hm Hh s.
  destruct (Hm s) as [Hsrv [Hcalls [l [Hl [Hgl Hpl]]]]].
  unfold try_except.
  destruct (m s) as [[a | e] s1]; cbn [snd] in *.
  - split; [exact Hsrv | split; [lia | ] ].
    exists l. repeat split; [exact Hl | lia | lia].
  - destruct (catches e).
    + destruct (Hh e s1) as [Hsrv2 [Hcalls2 [l2 [Hl2 [Hgl2 Hpl2]]]]].
      split; [congruence | split; [lia | ] ].
      exists (l ++ l2)%list. rewrite Hl2, Hl, app_assoc, gets_app, posts_app.
      repeat split; lia.
    + cbn [snd]. split; [exact Hsrv | split; [lia | ] ].
      exists l. repeat split; [exact Hl | lia | lia].
Qed.

Lemma cost_requests (r : Request) :
  cost (gets [r]) (posts [r]) 0 (requests r).
Proof.
  intros s. unfold requests, send.
  destruct (deliver (server (net s)) (sent (net s)) r);
    cbn [snd net self refresh_calls server sent];
    (split; [reflexivity | split; [lia | ] ]);
    exists [r]; repeat split; lia.
Qed.

Lemma cost_requests_get u h p : cost 1 0 0 (requests_get u h p).
Proof. apply (cost_requests {| meth := GET; url := u; headers := h; params := p; data := [] |}). Qed.

Lemma cost_requests_post u d h : cost 0 1 0 (requests_post u d h).
Proof. apply (cost_requests {| meth := POST; url := u; headers := h; params := []; data := d |}). Qed.

Lemma cost_count_refresh_call : cost 0 0 1 count_refresh_call.
Proof.
  intros s. cbn. split; [reflexivity | split; [lia | ] ].
  exists []. rewrite app_nil_r. repeat split; cbn; lia.
Qed.

Lemma cost_set_access_token v : cost 0 0 0 (set_access_token v).
Proof.
  intros s. cbn. split; [reflexivity | split; [lia | ] ].
  exists []. rewrite app_nil_r. repeat split; cbn; lia.
Qed.

Lemma cost_set_refresh_token v : cost 0 0 0 (set_refresh_token v).
Proof.
  intros s. cbn. split; [reflexivity | split; [lia | ] ].
  exists []. rewrite app_nil_r. repeat split; cbn; lia.
Qed.

Lemma cost_raise_for_status r : cost 0 0 0 (@raise_for_status Sys r).
Proof.
  unfold raise_for_status.
  destruct ((400 <=? status_code r) && (status_code r <? 600));
    [apply cost_raise | apply cost_ret].
Qed.

Lemma cost_response_json r : cost 0 0 0 (@response_json Sys r).
Proof.
  unfold response_json. destruct (body r); [apply cost_ret | apply cost_raise].
Qed.

Lemma cost_get_headers repr_other b : cost 0 0 0 (_get_headers repr_other b).
Proof.
  unfold _get_headers.
  apply (cost_bind 0 0 0 0 0 0); [apply cost_get_self | intros c].
  destruct (negb (Py.truthy (access_token c))); [apply cost_raise | ].
  destruct b; apply cost_ret.
Qed.

Create HintDb cost_db.
#[local] Hint Resolve cost_ret cost_raise cost_lift cost_get_self
  cost_requests_get cost_requests_post cost_count_refresh_call
  cost_set_access_token cost_set_refresh_token cost_raise_for_status
  cost_response_json cost_get_headers : cost_db.

(** One call of [refresh_access_token] is counted once, sends no GET and at
    most one POST. *)
Lemma cost_refresh_access_token : cost 0 1 1 refresh_access_token.
Proof.
  unfold refresh_access_token.
  apply (cost_bind 0 0 1 0 1 0); [auto with cost_db | intros _].
  apply (cost_bind 0 0 0 0 1 0); [auto with cost_db | intros c].
  destruct (negb (Py.truthy (refresh_token c))).
  { eapply cost_weaken; [apply cost_ret | lia | lia | lia]. }
  apply (cost_try_except 0 1 0 0 0 0); [ | auto with cost_db].
  apply (cost_bind 0 1 0 0 0 0); [auto with cost_db | intros response].
  apply (cost_bind 0 0 0 0 0 0); [auto with cost_db | intros _].
  apply (cost_bind 0 0 0 0 0 0); [auto with cost_db | intros token_data].
  apply (cost_bind 0 0 0 0 0 0); [auto with cost_db | intros tok].
  apply (cost_bind 0 0 0 0 0 0); [auto with cost_db | intros _].
  apply (cost_bind 0 0 0 0 0 0); [auto with cost_db | intros has].
  apply (cost_bind 0 0 0 0 0 0); [ | auto with cost_db].
  destruct has; [ | auto with cost_db].
  apply (cost_bind 0 0 0 0 0 0); auto with cost_db.
Qed.

Lemma cost_payload_of_response r : cost 0 0 0 (payload_of_response r).
Proof.
  unfold payload_of_response.
  apply (cost_bind 0 0 0 0 0 0); auto with cost_db.
Qed.

Lemma cost_quote_of_response symbol r : cost 0 0 0 (quote_of_response symbol r).
Proof.
  unfold quote_of_response.
  apply (cost_bind 0 0 0 0 0 0); [auto with cost_db | intros _].
  apply (cost_bind 0 0 0 0 0 0); [auto with cost_db | intros data].
  apply (cost_bind 0 0 0 0 0 0); [auto with cost_db | intros has].
  destruct has; auto with cost_db.
Qed.

Lemma cost_get_quotes_bulk repr_other symbols :
  cost 2 1 1 (get_quotes_bulk repr_other symbols).
Proof.
  unfold get_quotes_bulk.
  apply (cost_bind 0 0 0 2 1 1); [auto with cost_db | intros c].
  apply (cost_try_except 2 1 1 0 0 0); [ | auto with cost_db].
  apply (cost_bind 0 0 0 2 1 1); [auto with cost_db | intros h].
  apply (cost_bind 1 0 0 1 1 1); [auto with cost_db | intros response].
  destruct (status_code response =? 401).
  - apply (cost_bind 0 1 1 1 0 0); [apply cost_refresh_access_token | intros ok].
    destruct ok.
    + apply (cost_bind 0 0 0 1 0 0); [auto with cost_db | intros h'].
      apply (cost_bind 1 0 0 0 0 0); [auto with cost_db | intros response'].
      apply cost_payload_of_response.
    + eapply cost_weaken; [apply cost_ret | lia | lia | lia].
  - eapply cost_weaken; [apply cost_payload_of_response | lia | lia | lia].
Qed.

Lemma cost_get_price_history repr_other symbol period_type period
  frequency_type frequency :
  cost 2 1 1 (get_price_history repr_other symbol period_type period
                frequency_type frequency).
Proof.
  unfold get_price_history.
  apply (cost_bind 0 0 0 2 1 1); [auto with cost_db | intros c].
  apply (cost_try_except 2 1 1 0 0 0); [ | auto with cost_db].
  apply (cost_bind 0 0 0 2 1 1); [auto with cost_db | intros h].
  apply (cost_bind 1 0 0 1 1 1); [auto with cost_db | intros response].
  destruct (status_code response =? 401).
  - apply (cost_bind 0 1 1 1 0 0); [apply cost_refresh_access_token | intros ok].
    destruct ok.
    + apply (cost_bind 0 0 0 1 0 0); [auto with cost_db | intros h'].
      apply (cost_bind 1 0 0 0 0 0); [auto with cost_db | intros response'].
      apply cost_payload_of_response.
    + eapply cost_weaken; [apply cost_ret | lia | lia | lia].
  - eapply cost_weaken; [apply cost_payload_of_response | lia | lia | lia].
Qed.

(** [get_quote] never sends a second GET: the retry stops at the unbound
    name. *)
Lemma cost_get_quote repr_other symbol :
  cost 1 1 1 (get_quote repr_other symbol).
Proof.
  unfold get_quote.
  apply (cost_bind 0 0 0 1 1 1); [auto with cost_db | intros c].
  apply (cost_try_except 1 1 1 0 0 0); [ | auto with cost_db].
  apply (cost_bind 0 0 0 1 1 1); [auto with cost_db | intros h].
  apply (cost_bind 1 0 0 0 1 1); [auto with cost_db | intros response].
  destruct (status_code response =? 401).
  - apply (cost_bind 0 1 1 0 0 0); [apply cost_refresh_access_token | intros ok].
    destruct ok.
    + apply (cost_bind 0 0 0 0 0 0); [auto with cost_db | intros h'].
      unfold unbound_name. apply cost_pure. reflexivity.
    + auto with cost_db.
  - eapply cost_weaken; [apply cost_quote_of_response | lia | lia | lia].
Qed.

(** ** The paths of an authenticated fetch *)

Section Fetch.

Variable repr_other : json -> string.

Lemma get_quotes_bulk_shape (symbols : list string) (s : Sys) :
  get_quotes_bulk repr_other symbols s =
  fetch_with_retry repr_other
    (quotes_url (self s) (PyStr.join "," (map PyStr.upper symbols))) []
    (JObj []) s.
Proof. reflexivity. Qed.

Lemma get_price_history_shape symbol period_type period frequency_type
  frequency (s : Sys) :
  get_price_history repr_other symbol period_type period frequency_type
    frequency s =
  fetch_with_retry repr_other (history_url (self s))
    (history_params symbol period_type period frequency_type frequency)
    JNull s.
Proof. reflexivity. Qed.

Lemma get_headers_ok (s : Sys) :
  Py.truthy (access_token (self s)) = true ->
  _get_headers repr_other false s =
  (Ret [("Authorization", "Bearer " ++ py_str repr_other (access_token (self s)))], s).
Proof.
  intros Ht. unfold _get_headers, bind, get_self. rewrite Ht. reflexivity.
Qed.

Lemma get_headers_no_token (s : Sys) :
  Py.truthy (access_token (self s)) = false ->
  _get_headers repr_other false s =
  (Raise (ValueError "No access token available. Please authenticate first."), s).
Proof.
  intros Ht. unfold _get_headers, bind, get_self. rewrite Ht. reflexivity.
Qed.

Lemma requests_get_answer (u : string) (p : list (string * json)) (tok : json)
  (s : Sys) (r : Response) :
  reply_to s (bearer_get repr_other u p tok) = Answer r ->
  requests_get u [("Authorization", "Bearer " ++ py_str repr_other tok)] p s =
  (Ret r, after_send s (bearer_get repr_other u p tok)).
Proof.
  intros Hr. unfold requests_get, requests, send.
  unfold reply_to, bearer_get in Hr. rewrite Hr. reflexivity.
Qed.

Lemma requests_get_no_answer (u : string) (p : list (string * json)) (tok : json)
  (s : Sys) :
  reply_to s (bearer_get repr_other u p tok) = NoAnswer ->
  requests_get u [("Authorization", "Bearer " ++ py_str repr_other tok)] p s =
  (Raise ConnectionError, after_send s (bearer_get repr_other u p tok)).
Proof.
  intros Hr. unfold requests_get, requests, send.
  unfold reply_to, bearer_get in Hr. rewrite Hr. reflexivity.
Qed.

Lemma requests_get_refused (u : string) (p : list (string * json)) (tok : json)
  (s : Sys) :
  reply_to s (bearer_get repr_other u p tok) = Refused ->
  requests_get u [("Authorization", "Bearer " ++ py_str repr_other tok)] p s =
  (Raise (refusal (bearer_get repr_other u p tok)),
   after_send s (bearer_get repr_other u p tok)).
Proof.
  intros Hr. unfold requests_get, requests, send.
  unfold reply_to, bearer_get in Hr. rewrite Hr. reflexivity.
Qed.

Lemma payload_passes (r : Response) (j : json) (s : Sys) :
  passes r = true -> body r = Some j ->
  payload_of_response r s = (Ret j, s).
Proof.
  intros Hp Hb. unfold payload_of_response, bind, raise_for_status.
  unfold passes in Hp. apply negb_true_iff in Hp. rewrite Hp.
  unfold ret, response_json. rewrite Hb. reflexivity.
Qed.

Lemma payload_http_error (r : Response) (s : Sys) :
  passes r = false ->
  payload_of_response r s = (Raise (HTTPError (status_code r)), s).
Proof.
  intros Hp. unfold payload_of_response, bind, raise_for_status.
  unfold passes in Hp. apply negb_false_iff in Hp. rewrite Hp. reflexivity.
Qed.

Lemma status_401_fails (r : Response) : status_code r = 401 -> passes r = false.
Proof. intros H. unfold passes. rewrite H. reflexivity. Qed.

(** No access token: nothing is sent, and the [ValueError] is not caught. *)
Lemma fetch_no_access_token u p fail (s : Sys) :
  Py.truthy (access_token (self s)) = false ->
  fetch_with_retry repr_other u p fail s =
  (Raise (ValueError "No access token available. Please authenticate first."), s).
Proof.
  intros Ht. unfold fetch_with_retry, try_except, bind at 1.
  rewrite (get_headers_no_token s Ht). reflexivity.
Qed.

(** The first response is not a 401 and passes: its payload is returned. *)
Lemma fetch_first_ok u p fail (s : Sys) (r : Response) (j : json) :
  Py.truthy (access_token (self s)) = true ->
  reply_to s (bearer_get repr_other u p (access_token (self s))) = Answer r ->
  passes r = true -> body r = Some j ->
  fetch_with_retry repr_other u p fail s =
  (Ret j, after_send s (bearer_get repr_other u p (access_token (self s)))).
Proof.
  intros Ht Hr Hp Hb. unfold fetch_with_retry, try_except, bind at 1.
  rewrite (get_headers_ok s Ht). unfold bind at 1.
  rewrite (requests_get_answer _ _ _ _ _ Hr).
  assert (H401 : (status_code r =? 401) = false).
  { apply Z.eqb_neq. intros E. apply status_401_fails in E. congruence. }
  rewrite H401, (payload_passes r j _ Hp Hb). reflexivity.
Qed.

(** The first response is an error other than 401: failure, one GET. *)
Lemma fetch_first_http_error u p fail (s : Sys) (r : Response) :
  Py.truthy (access_token (self s)) = true ->
  reply_to s (bearer_get repr_other u p (access_token (self s))) = Answer r ->
  passes r = false -> status_code r <> 401 ->
  fetch_with_retry repr_other u p fail s =
  (Ret fail, after_send s (bearer_get repr_other u p (access_token (self s)))).
Proof.
  intros Ht Hr Hp H401. unfold fetch_with_retry, try_except, bind at 1.
  rewrite (get_headers_ok s Ht). unfold bind at 1.
  rewrite (requests_get_answer _ _ _ _ _ Hr).
  apply Z.eqb_neq in H401. rewrite H401, (payload_http_error r _ Hp).
  reflexivity.
Qed.

(** No answer to the first request: failure, and no second request. *)
Lemma fetch_no_answer u p fail (s : Sys) :
  Py.truthy (access_token (self s)) = true ->
  reply_to s (bearer_get repr_other u p (access_token (self s))) = NoAnswer ->
  fetch_with_retry repr_other u p fail s =
  (Ret fail, after_send s (bearer_get repr_other u p (access_token (self s)))).
Proof.
  intros Ht Hr. unfold fetch_with_retry, try_except, bind at 1.
  rewrite (get_headers_ok s Ht). unfold bind at 1.
  rewrite (requests_get_no_answer _ _ _ _ Hr). reflexivity.
Qed.

(** 401, and the refresh fails: failure at once, the state is the one the
    refresh left. *)
Lemma fetch_refresh_fails u p fail (s s2 : Sys) (r : Response) :
  Py.truthy (access_token (self s)) = true ->
  reply_to s (bearer_get repr_other u p (access_token (self s))) = Answer r ->
  status_code r = 401 ->
  refresh_access_token
    (after_send s (bearer_get repr_other u p (access_token (self s)))) =
    (Ret false, s2) ->
  fetch_with_retry repr_other u p fail s = (Ret fail, s2).
Proof.
  intros Ht Hr H401 Href. unfold fetch_with_retry, try_except, bind at 1.
  rewrite (get_headers_ok s Ht). unfold bind at 1.
  rewrite (requests_get_answer _ _ _ _ _ Hr).
  rewrite H401. cbn [Z.eqb Pos.eqb]. unfold bind at 1. rewrite Href.
  reflexivity.
Qed.

(** 401, the refresh succeeds, the retried request is answered and passes:
    the payload of the second response is returned. *)
Lemma fetch_retry_ok u p fail (s s2 : Sys) (r r2 : Response) (j : json) :
  Py.truthy (access_token (self s)) = true ->
  reply_to s (bearer_get repr_other u p (access_token (self s))) = Answer r ->
  status_code r = 401 ->
  refresh_access_token
    (after_send s (bearer_get repr_other u p (access_token (self s)))) =
    (Ret true, s2) ->
  Py.truthy (access_token (self s2)) = true ->
  reply_to s2 (bearer_get repr_other u p (access_token (self s2))) = Answer r2 ->
  passes r2 = true -> body r2 = Some j ->
  fetch_with_retry repr_other u p fail s =
  (Ret j, after_send s2 (bearer_get repr_other u p (access_token (self s2)))).
Proof.
  intros Ht Hr H401 Href Ht2 Hr2 Hp2 Hb2.
  unfold fetch_with_retry, try_except, bind at 1.
  rewrite (get_headers_ok s Ht). unfold bind at 1.
  rewrite (requests_get_answer _ _ _ _ _ Hr).
  rewrite H401. cbn [Z.eqb Pos.eqb]. unfold bind at 1. rewrite Href.
  unfold bind at 1. rewrite (get_headers_ok s2 Ht2). unfold bind at 1.
  rewrite (requests_get_answer _ _ _ _ _ Hr2).
  rewrite (payload_passes r2 j _ Hp2 Hb2). reflexivity.
Qed.

(** 401, the refresh succeeds, the retried request gets a 4xx or 5xx:
    failure, and the state is the one after the second GET. *)
Lemma fetch_retry_http_error u p fail (s s2 : Sys) (r r2 : Response) :
  Py.truthy (access_token (self s)) = true ->
  reply_to s (bearer_get repr_other u p (access_token (self s))) = Answer r ->
  status_code r = 401 ->
  refresh_access_token
    (after_send s (bearer_get repr_other u p (access_token (self s)))) =
    (Ret true, s2) ->
  Py.truthy (access_token (self s2)) = true ->
  reply_to s2 (bearer_get repr_other u p (access_token (self s2))) = Answer r2 ->
  passes r2 = false ->
  fetch_with_retry repr_other u p fail s =
  (Ret fail, after_send s2 (bearer_get repr_other u p (access_token (self s2)))).
Proof.
  intros Ht Hr H401 Href Ht2 Hr2 Hp2.
  unfold fetch_with_retry, try_except, bind at 1.
  rewrite (get_headers_ok s Ht). unfold bind at 1.
  rewrite (requests_get_answer _ _ _ _ _ Hr).
  rewrite H401. cbn [Z.eqb Pos.eqb]. unfold bind at 1. rewrite Href.
  unfold bind at 1. rewrite (get_headers_ok s2 Ht2). unfold bind at 1.
  rewrite (requests_get_answer _ _ _ _ _ Hr2).
  rewrite (payload_http_error r2 _ Hp2). reflexivity.
Qed.

End Fetch.

(** ** [get_quote] *)

Section GetQuote.

Variable repr_other : json -> string.

Lemma quote_of_response_dict (symbol : string) (r : Response) (m : dict) (s : Sys) :
  passes r = true -> body r = Some (JObj m) ->
  quote_of_response symbol r s =
  (Ret (match Dict.get symbol m with Some v => v | None => JNull end), s).
Proof.
  intros Hp Hb. unfold quote_of_response, bind at 1, raise_for_status.
  unfold passes in Hp. apply negb_true_iff in Hp. rewrite Hp.
  unfold ret at 1. unfold bind at 1, response_json. rewrite Hb.
  unfold ret at 1. unfold bind, lift. cbn [Py.contains Py.getitem].
  unfold Dict.has. destruct (Dict.get symbol m); reflexivity.
Qed.

(** The first response passes and is a dict: the entry under the symbol as
    the caller wrote it, or [None]. *)
Lemma get_quote_first_ok (symbol : string) (s : Sys) (r : Response) (m : dict) :
  Py.truthy (access_token (self s)) = true ->
  reply_to s (first_request repr_other
                (quotes_url (self s) (PyStr.upper symbol)) [] s) = Answer r ->
  passes r = true -> body r = Some (JObj m) ->
  get_quote repr_other symbol s =
  (Ret (match Dict.get symbol m with Some v => v | None => JNull end),
   after_send s (first_request repr_other
                   (quotes_url (self s) (PyStr.upper symbol)) [] s)).
Proof.
  intros Ht Hr Hp Hb. unfold first_request in *.
  unfold get_quote, bind at 1, get_self.
  unfold try_except, bind at 1.
  rewrite (get_headers_ok repr_other s Ht). unfold bind at 1.
  fold (quotes_url (self s) (PyStr.upper symbol)).
  rewrite (requests_get_answer repr_other _ _ _ _ _ Hr).
  assert (H401 : (status_code r =? 401) = false).
  { apply Z.eqb_neq. intros E. apply status_401_fails in E. congruence. }
  rewrite H401, (quote_of_response_dict symbol r m _ Hp Hb).
  destruct (Dict.get symbol m); reflexivity.
Qed.

Lemma get_quote_refresh_fails (symbol : string) (s s2 : Sys) (r : Response) :
  Py.truthy (access_token (self s)) = true ->
  reply_to s (first_request repr_other
                (quotes_url (self s) (PyStr.upper symbol)) [] s) = Answer r ->
  status_code r = 401 ->
  refresh_access_token
    (after_send s (first_request repr_other
                     (quotes_url (self s) (PyStr.upper symbol)) [] s)) =
    (Ret false, s2) ->
  get_quote repr_other symbol s = (Ret JNull, s2).
Proof.
  intros Ht Hr H401 Href. unfold first_request in *.
  unfold get_quote, bind at 1, get_self.
  unfold try_except, bind at 1.
  rewrite (get_headers_ok repr_other s Ht). unfold bind at 1.
  fold (quotes_url (self s) (PyStr.upper symbol)).
  rewrite (requests_get_answer repr_other _ _ _ _ _ Hr).
  rewrite H401. cbn [Z.eqb Pos.eqb]. unfold bind at 1. rewrite Href.
  reflexivity.
Qed.

(** C1 (what [get_quote] does where the claim expects a retry): when the
    first response is a 401 and the refresh succeeds and leaves an access
    token, [get_quote] raises [NameError] for the unbound name [params]; the
    state is the one the refresh left, so the request is not sent again and no
    payload is returned. *)
Theorem get_quote_retry_raises_NameError (symbol : string) (s s2 : Sys)
  (r : Response) :
  Py.truthy (access_token (self s)) = true ->
  reply_to s (first_request repr_other
                (quotes_url (self s) (PyStr.upper symbol)) [] s) = Answer r ->
  status_code r = 401 ->
  refresh_access_token
    (after_send s (first_request repr_other
                     (quotes_url (self s) (PyStr.upper symbol)) [] s)) =
    (Ret true, s2) ->
  Py.truthy (access_token (self s2)) = true ->
  get_quote repr_other symbol s = (Raise (NameError "params"), s2).
Proof.
  intros Ht Hr H401 Href Ht2. unfold first_request in *.
  unfold get_quote, bind at 1, get_self.
  unfold try_except, bind at 1.
  rewrite (get_headers_ok repr_other s Ht). unfold bind at 1.
  fold (quotes_url (self s) (PyStr.upper symbol)).
  rewrite (requests_get_answer repr_other _ _ _ _ _ Hr).
  rewrite H401. cbn [Z.eqb Pos.eqb]. unfold bind at 1. rewrite Href.
  unfold bind at 1. rewrite (get_headers_ok repr_other s2 Ht2).
  reflexivity.
Qed.



End GetQuote.

Lemma get_quote_retry_raises_NameError_witness :
  get_quote repr0 "AAPL" (sys0 (replies_401_refresh_then (answer 200 payload_aapl))) =
  (Raise (NameError "params"),
   sys_after_refresh (quotes_url client0 "AAPL") [] (answer 200 payload_aapl)) /\
  gets (sent (net (sys_after_refresh (quotes_url client0 "AAPL") []
                     (answer 200 payload_aapl)))) = 1%nat.
Proof.
  split; [ | reflexivity].
  apply (get_quote_retry_raises_NameError repr0 "AAPL"
           (sys0 (replies_401_refresh_then (answer 200 payload_aapl)))
           (sys_after_refresh (quotes_url client0 "AAPL") [] (answer 200 payload_aapl))
           {| status_code := 401; body := Some JNull |});
    reflexivity.
Defined.



(** ** At most one refresh, at most one retry *)

Section SingleRetry.

Variable repr_other : json -> string.

(** C3, as the code has it: every fetch makes at most one call of
    [refresh_access_token], sends at most one POST and at most two GETs
    ([get_quote] at most one); when the first response is a 401 and the
    refresh returns [False], the fetch returns its failure value in the state
    the refresh left (nothing more is sent); when the retried request of
    [get_quotes_bulk] or [get_price_history] is answered with a status from
    400 to 599 (a second 401 included), the fetch returns its failure value in
    the state right after that second GET (no third attempt). *)
Theorem fetch_at_most_one_refresh_one_retry :
  (forall symbol, cost 1 1 1 (get_quote repr_other symbol)) /\
  (forall symbols, cost 2 1 1 (get_quotes_bulk repr_other symbols)) /\
  (forall symbol period_type period frequency_type frequency,
     cost 2 1 1 (get_price_history repr_other symbol period_type period
                   frequency_type frequency)) /\
  (forall symbol s s2 r,
     Py.truthy (access_token (self s)) = true ->
     reply_to s (first_request repr_other
                   (quotes_url (self s) (PyStr.upper symbol)) [] s) = Answer r ->
     status_code r = 401 ->
     refresh_access_token
       (after_send s (first_request repr_other
                        (quotes_url (self s) (PyStr.upper symbol)) [] s)) =
       (Ret false, s2) ->
     get_quote repr_other symbol s = (Ret JNull, s2)) /\
  (forall symbols s s2 r,
     let u := quotes_url (self s) (PyStr.join "," (map PyStr.upper symbols)) in
     Py.truthy (access_token (self s)) = true ->
     reply_to s (first_request repr_other u [] s) = Answer r ->
     status_code r = 401 ->
     refresh_access_token (after_send s (first_request repr_other u [] s)) =
       (Ret false, s2) ->
     get_quotes_bulk repr_other symbols s = (Ret (JObj []), s2)) /\
  (forall symbol period_type period frequency_type frequency s s2 r,
     let u := history_url (self s) in
     let p := history_params symbol period_type period frequency_type frequency in
     Py.truthy (access_token (self s)) = true ->
     reply_to s (first_request repr_other u p s) = Answer r ->
     status_code r = 401 ->
     refresh_access_token (after_send s (first_request repr_other u p s)) =
       (Ret false, s2) ->
     get_price_history repr_other symbol period_type period frequency_type
       frequency s = (Ret JNull, s2)) /\
  (forall symbols s s2 r r2,
     let u := quotes_url (self s) (PyStr.join "," (map PyStr.upper symbols)) in
     Py.truthy (access_token (self s)) = true ->
     reply_to s (first_request repr_other u [] s) = Answer r ->
     status_code r = 401 ->
     refresh_access_token (after_send s (first_request repr_other u [] s)) =
       (Ret true, s2) ->
     Py.truthy (access_token (self s2)) = true ->
     reply_to s2 (first_request repr_other u [] s2) = Answer r2 ->
     400 <= status_code r2 < 600 ->
     get_quotes_bulk repr_other symbols s =
     (Ret (JObj []), after_send s2 (first_request repr_other u [] s2))) /\
  (forall symbol period_type period frequency_type frequency s s2 r r2,
     let u := history_url (self s) in
     let p := history_params symbol period_type period frequency_type frequency in
     Py.truthy (access_token (self s)) = true ->
     reply_to s (first_request repr_other u p s) = Answer r ->
     status_code r = 401 ->
     refresh_access_token (after_send s (first_request repr_other u p s)) =
       (Ret true, s2) ->
     Py.truthy (access_token (self s2)) = true ->
     reply_to s2 (first_request repr_other u p s2) = Answer r2 ->
     400 <= status_code r2 < 600 ->
     get_price_history repr_other symbol period_type period frequency_type
       frequency s =
     (Ret JNull, after_send s2 (first_request repr_other u p s2))).
Proof.
  assert (Hfail : forall r2, 400 <= status_code r2 < 600 -> passes r2 = false).
  { intros r2 H. unfold passes. apply negb_false_iff, andb_true_iff.
    split; [apply Z.leb_le | apply Z.ltb_lt]; lia. }
  split; [intros; apply cost_get_quote | ].
  split; [intros; apply cost_get_quotes_bulk | ].
  split; [intros; apply cost_get_price_history | ].
  split; [intros symbol s s2 r; apply get_quote_refresh_fails | ].
  split.
  { intros symbols s s2 r u Ht Hr H401 Href.
    rewrite get_quotes_bulk_shape.
    exact (fetch_refresh_fails repr_other _ _ _ s s2 r Ht Hr H401 Href). }
  split.
  { intros symbol period_type period frequency_type frequency s s2 r u p
           Ht Hr H401 Href.
    rewrite get_price_history_shape.
    exact (fetch_refresh_fails repr_other _ _ _ s s2 r Ht Hr H401 Href). }
  split.
  { intros symbols s s2 r r2 u Ht Hr H401 Href Ht2 Hr2 Hst.
    rewrite get_quotes_bulk_shape.
    exact (fetch_retry_http_error repr_other _ _ _ s s2 r r2 Ht Hr H401 Href
             Ht2 Hr2 (Hfail r2 Hst)). }
  intros symbol period_type period frequency_type frequency s s2 r r2 u p
         Ht Hr H401 Href Ht2 Hr2 Hst.
  rewrite get_price_history_shape.
  exact (fetch_retry_http_error repr_other _ _ _ s s2 r r2 Ht Hr H401 Href
           Ht2 Hr2 (Hfail r2 Hst)).
Qed.

End SingleRetry.

Lemma fetch_at_most_one_refresh_one_retry_witness :
  get_quote repr0 "AAPL" (sys0 replies_401_refresh_fails) =
    (Ret JNull, sys_after_failed_refresh (quotes_url client0 "AAPL") []) /\
  get_quotes_bulk repr0 ["AAPL"; "msft"] (sys0 replies_401_refresh_fails) =
    (Ret (JObj []), sys_after_failed_refresh (quotes_url client0 "AAPL,MSFT") []) /\
  get_price_history repr0 "AAPL" "day" 1 "minute" 1 (sys0 replies_401_refresh_fails) =
    (Ret JNull, sys_after_failed_refresh (history_url client0) history_params0) /\
  get_quotes_bulk repr0 ["AAPL"; "msft"]
      (sys0 (replies_401_refresh_then (answer 401 JNull))) =
    (Ret (JObj []),
     after_send
       (sys_after_refresh (quotes_url client0 "AAPL,MSFT") [] (answer 401 JNull))
       (first_request repr0 (quotes_url client0 "AAPL,MSFT") []
          (sys_after_refresh (quotes_url client0 "AAPL,MSFT") [] (answer 401 JNull)))) /\
  get_price_history repr0 "AAPL" "day" 1 "minute" 1
      (sys0 (replies_401_refresh_then (answer 503 JNull))) =
    (Ret JNull,
     after_send
       (sys_after_refresh (history_url client0) history_params0 (answer 503 JNull))
       (first_request repr0 (history_url client0) history_params0
          (sys_after_refresh (history_url client0) history_params0 (answer 503 JNull)))).
Proof.
  destruct (fetch_at_most_one_refresh_one_retry repr0)
    as [_ [_ [_ [Hq [Hb [Hh [Hb2 Hh2]]]]]]].
  split; [ | split; [ | split; [ | split] ] ].
  - apply (Hq "AAPL" (sys0 replies_401_refresh_fails) _
              {| status_code := 401; body := Some JNull |}); reflexivity.
  - apply (Hb ["AAPL"; "msft"] (sys0 replies_401_refresh_fails) _
              {| status_code := 401; body := Some JNull |}); reflexivity.
  - apply (Hh "AAPL" "day" 1 "minute" 1 (sys0 replies_401_refresh_fails) _
              {| status_code := 401; body := Some JNull |}); reflexivity.
  - apply (Hb2 ["AAPL"; "msft"]
              (sys0 (replies_401_refresh_then (answer 401 JNull)))
              (sys_after_refresh (quotes_url client0 "AAPL,MSFT") [] (answer 401 JNull))
              {| status_code := 401; body := Some JNull |}
              {| status_code := 401; body := Some JNull |});
      try reflexivity.
    cbn. lia.
  - apply (Hh2 "AAPL" "day" 1 "minute" 1
              (sys0 (replies_401_refresh_then (answer 503 JNull)))
              (sys_after_refresh (history_url client0) history_params0 (answer 503 JNull))
              {| status_code := 401; body := Some JNull |}
              {| status_code := 503; body := Some JNull |});
      try reflexivity.
    cbn. lia.
Defined.

(** C3, as the claim words it, fails: a retried request answered with status
    300, which is not a 2xx, and a JSON body does not make the fetch fail;
    [get_quotes_bulk] returns that body. *)
Lemma bulk_retry_status_300_returns_payload :
  reply_to
    (sys_after_refresh (quotes_url client0 "AAPL") [] (answer 300 payload_aapl))
    (first_request repr0 (quotes_url client0 "AAPL") []
       (sys_after_refresh (quotes_url client0 "AAPL") [] (answer 300 payload_aapl)))
    = Answer {| status_code := 300; body := Some payload_aapl |} /\
  ~ (200 <= 300 < 300) /\
  fst (get_quotes_bulk repr0 ["AAPL"]
         (sys0 (replies_401_refresh_then (answer 300 payload_aapl)))) =
    Ret payload_aapl /\
  payload_aapl <> JObj [].
Proof.
  split; [reflexivity | split; [lia | split; [reflexivity | discriminate] ] ].
Qed.

(** ** How the credentials travel on a refresh *)

Lemma refresh_sends (s : Sys) :
  Py.truthy (refresh_token (self s)) = true ->
  sent (net (snd (refresh_access_token s))) =
  (sent (net s) ++ [refresh_request (self s)])%list.
Proof.
  intros Ht.
  destruct (reply_to s (refresh_request (self s))) as [r | | ] eqn:Hr.
  - destruct (passes r) eqn:Hp.
    + destruct (body r) as [j | ] eqn:Hb.
      * destruct j;
          try (rewrite (refresh_not_dict s r _ Ht Hr Hp Hb);
               [reflexivity | intros m' E; discriminate E]).
        rewrite (refresh_ok s r m Ht Hr Hp Hb). reflexivity.
      * rewrite (refresh_not_json s r Ht Hr Hp Hb). reflexivity.
    + rewrite (refresh_http_error s r Ht Hr Hp). reflexivity.
  - rewrite (refresh_no_answer s Ht Hr). reflexivity.
  - rewrite (refresh_refused s Ht Hr). reflexivity.
Qed.

(** C2 (what the client's refresh sends): with a refresh token in hand,
    [refresh_access_token] sends one POST to the token endpoint that carries
    no [Authorization] header and has [client_id] and [client_secret] among
    the form fields of its body. *)
Theorem refresh_access_token_sends_credentials_in_body (s : Sys) :
  Py.truthy (refresh_token (self s)) = true ->
  exists req,
    sent (net (snd (refresh_access_token s))) = (sent (net s) ++ [req])%list /\
    meth req = POST /\
    url req = base_url (self s) ++ "/v1/oauth/token" /\
    header "Authorization" (headers req) = None /\
    Dict.get "client_id" (data req) = Some (JStr (client_id (self s))) /\
    Dict.get "client_secret" (data req) = Some (JStr (client_secret (self s))).
Proof.
  intros Ht. exists (refresh_request (self s)).
  split; [apply refresh_sends; exact Ht | ].
  repeat split.
Qed.

Lemma refresh_access_token_sends_credentials_in_body_witness :
  exists req,
    sent (net (snd (refresh_access_token
                      (sys_refresh (answer 200 (JObj [("access_token", JStr "a1")]))))))
      = ([] ++ [req])%list /\
    meth req = POST /\
    url req = "https://api.schwabapi.com" ++ "/v1/oauth/token" /\
    header "Authorization" (headers req) = None /\
    Dict.get "client_id" (data req) = Some (JStr "id") /\
    Dict.get "client_secret" (data req) = Some (JStr "secret").
Proof.
  apply (refresh_access_token_sends_credentials_in_body
           (sys_refresh (answer 200 (JObj [("access_token", JStr "a1")])))).
  reflexivity.
Defined.

(** The script [refresh_token.py] sends the credentials as a Basic
    authorization header and not in the body. *)
Lemma refresh_script_request_basic_auth (cid csec rt : string) :
  header "Authorization"
    (headers (refresh_script_request (Some cid) (Some csec) (Some rt))) =
    Some ("Basic " ++ Base64.b64encode (cid ++ ":" ++ csec)) /\
  Dict.get "client_id"
    (data (refresh_script_request (Some cid) (Some csec) (Some rt))) = None /\
  Dict.get "client_secret"
    (data (refresh_script_request (Some cid) (Some csec) (Some rt))) = None /\
  Dict.get "refresh_token"
    (data (refresh_script_request (Some cid) (Some csec) (Some rt))) =
    Some (JStr rt).
Proof. repeat split. Qed.

(** ** A token response without [access_token] *)

(** C4 (what the client's refresh does with such a response): when the token
    endpoint answers the refresh with a status that passes and a dict without
    [access_token], [refresh_access_token] returns [True] and the stored
    access token becomes [None]. *)
Theorem refresh_without_access_token_returns_True (s : Sys) (r : Response)
  (m : dict) :
  Py.truthy (refresh_token (self s)) = true ->
  reply_to s (refresh_request (self s)) = Answer r ->
  200 <= status_code r < 300 ->
  body r = Some (JObj m) ->
  Dict.get "access_token" m = None ->
  fst (refresh_access_token s) = Ret true /\
  access_token (self (snd (refresh_access_token s))) = JNull.
Proof.
  intros Ht Hr Hst Hb Hnone.
  assert (Hp : passes r = true).
  { unfold passes. apply negb_true_iff, andb_false_iff. left.
    apply Z.leb_gt. lia. }
  rewrite (refresh_ok s r m Ht Hr Hp Hb).
  cbn [fst snd after_refresh self refreshed access_token].
  rewrite Hnone. split; reflexivity.
Qed.

Lemma refresh_without_access_token_returns_True_witness :
  fst (refresh_access_token (sys_refresh (answer 200 (JObj tokens_without_access))))
    = Ret true /\
  access_token
    (self (snd (refresh_access_token
                  (sys_refresh (answer 200 (JObj tokens_without_access)))))) = JNull.
Proof.
  apply (refresh_without_access_token_returns_True
           (sys_refresh (answer 200 (JObj tokens_without_access)))
           {| status_code := 200; body := Some (JObj tokens_without_access) |}
           tokens_without_access); try reflexivity.
  cbn. lia.
Defined.

(** ** Rotation of the refresh token *)

Lemma refresh_true_inv (s s' : Sys) (r : Response) (m : dict) :
  refresh_access_token s = (Ret true, s') ->
  reply_to s (refresh_request (self s)) = Answer r ->
  body r = Some (JObj m) ->
  s' = after_refresh s m.
Proof.
  intros Hrun Hr Hb.
  destruct (Py.truthy (refresh_token (self s))) eqn:Ht.
  - destruct (passes r) eqn:Hp.
    + rewrite (refresh_ok s r m Ht Hr Hp Hb) in Hrun. congruence.
    + rewrite (refresh_http_error s r Ht Hr Hp) in Hrun. discriminate Hrun.
  - rewrite (refresh_no_token s Ht) in Hrun. discriminate Hrun.
Qed.

Lemma startswith_split (s p : string) :
  PyStr.startswith s p = true -> exists rest, s = p ++ rest.
Proof.
  revert s. induction p as [| a p IH]; intros s H.
  - exists s. reflexivity.
  - destruct s as [| b s]; [discriminate H | ].
    cbn [PyStr.startswith] in H. apply andb_true_iff in H. destruct H as [Hab Hrest].
    apply Ascii.eqb_eq in Hab. subst b.
    destruct (IH s Hrest) as [rest ->]. exists rest. reflexivity.
Qed.

Lemma refresh_line_is_no_access_line (line : string) :
  PyStr.startswith line "SCHWAB_REFRESH_TOKEN=" = true ->
  PyStr.startswith line "SCHWAB_ACCESS_TOKEN=" = false.
Proof.
  intros H. destruct (startswith_split _ _ H) as [rest ->]. reflexivity.
Qed.

Section Rotation.

Variable repr_other : json -> string.

(** C5: after a refresh that returned [True] on a response dict without
    [refresh_token], the client holds the refresh token it held before; when
    the dict has one, the client holds that one. In [refresh_token.py], with
    such a response, the line of [.env] beginning with
    [SCHWAB_REFRESH_TOKEN=] is written back with the refresh token the script
    was started with. *)
Theorem refresh_keeps_refresh_token_when_omitted :
  (forall s s' r m,
     refresh_access_token s = (Ret true, s') ->
     reply_to s (refresh_request (self s)) = Answer r ->
     body r = Some (JObj m) ->
     Dict.get "refresh_token" m = None ->
     refresh_token (self s') = refresh_token (self s)) /\
  (forall s s' r m v,
     refresh_access_token s = (Ret true, s') ->
     reply_to s (refresh_request (self s)) = Answer r ->
     body r = Some (JObj m) ->
     Dict.get "refresh_token" m = Some v ->
     refresh_token (self s') = v) /\
  (forall m a rt line s written,
     Dict.get "access_token" m = Some a ->
     Dict.get "refresh_token" m = None ->
     PyStr.startswith line "SCHWAB_REFRESH_TOKEN=" = true ->
     env_file s = Some written ->
     rewrite_env_lines repr_other (JObj m) (Some rt) [line] s =
     (Ret tt,
      with_env_file s
        (written ++ [("SCHWAB_REFRESH_TOKEN=" ++ rt ++ newline)%string])%list)).
Proof.
  split; [ | split].
  - intros s s' r m Hrun Hr Hb Hnone.
    rewrite (refresh_true_inv s s' r m Hrun Hr Hb).
    cbn [after_refresh self refreshed refresh_token]. rewrite Hnone. reflexivity.
  - intros s s' r m v Hrun Hr Hb Hsome.
    rewrite (refresh_true_inv s s' r m Hrun Hr Hb).
    cbn [after_refresh self refreshed refresh_token]. rewrite Hsome. reflexivity.
  - intros m a rt line s written Ha Hnone Hline Hs.
    destruct (rewrite_loop repr_other m (Some rt) a [line] Ha s written Hs)
      as [out [Hrun Hall]].
    rewrite Hrun.
    inversion Hall as [| ? chunk ? rest Hchunk Hrest]; subst.
    inversion Hrest; subst.
    unfold env_line_rewritten in Hchunk.
    rewrite (refresh_line_is_no_access_line line Hline), Hline, Hnone in Hchunk.
    cbn [Py.of_opt py_str] in Hchunk. rewrite Hchunk. reflexivity.
Qed.

End Rotation.

Lemma refresh_keeps_refresh_token_when_omitted_witness :
  refresh_token
    (self (after_refresh (sys_refresh (answer 200 (JObj [("access_token", JStr "a1")])))
             [("access_token", JStr "a1")])) = JStr "r0" /\
  refresh_token
    (self (after_refresh
             (sys_refresh (answer 200 (JObj [("access_token", JStr "a1");
                                             ("refresh_token", JStr "r1")])))
             [("access_token", JStr "a1"); ("refresh_token", JStr "r1")])) = JStr "r1" /\
  rewrite_env_lines repr0 (JObj [("access_token", JStr "a1")]) (Some "r0")
    ["SCHWAB_REFRESH_TOKEN=old" ++ newline] (script0 [] [] []) =
  (Ret tt,
   with_env_file (script0 [] [] [])
     ([] ++ [("SCHWAB_REFRESH_TOKEN=" ++ "r0" ++ newline)%string])%list).
Proof.
  destruct (refresh_keeps_refresh_token_when_omitted repr0) as [Hkeep [Hrot Hline]].
  split; [ | split].
  - apply (Hkeep (sys_refresh (answer 200 (JObj [("access_token", JStr "a1")]))) _
             {| status_code := 200; body := Some (JObj [("access_token", JStr "a1")]) |}
             [("access_token", JStr "a1")]); reflexivity.
  - apply (Hrot (sys_refresh (answer 200 (JObj [("access_token", JStr "a1");
                                                ("refresh_token", JStr "r1")]))) _
             {| status_code := 200;
                body := Some (JObj [("access_token", JStr "a1");
                                    ("refresh_token", JStr "r1")]) |}
             [("access_token", JStr "a1"); ("refresh_token", JStr "r1")]);
      reflexivity.
  - apply (Hline [("access_token", JStr "a1")] (JStr "a1") "r0"); reflexivity.
Defined.

Lemma update_env_file_preserves_other_lines_witness :
  (exists out,
     update_env_file repr0 (JStr "a1") (JStr "r1") (script0 [] env_lines0 []) =
       (Ret tt, with_env_file (script0 [] env_lines0 []) out) /\
     Forall2 (env_line_rewritten "a1" "r1") env_lines0 out) /\
  (forall m REFRESH_TOKEN a,
     Dict.get "access_token" m = Some a ->
     exists out,
       bind open_env_w
            (fun _ => rewrite_env_lines repr0 (JObj m) REFRESH_TOKEN env_lines0)
            (script0 [] env_lines0 [])
       = (Ret tt, with_env_file (script0 [] env_lines0 []) out) /\
       Forall2 (env_line_rewritten
                  (py_str repr0 a)
                  (py_str repr0
                     (match Dict.get "refresh_token" m with
                      | Some v => v
                      | None => Py.of_opt REFRESH_TOKEN
                      end))) env_lines0 out).
Proof.
  apply (update_env_file_preserves_other_lines repr0 (JStr "a1") (JStr "r1")
           (script0 [] env_lines0 []) env_lines0).
  reflexivity.
Defined.

(** ** Prices of several symbols *)

(** A symbol absent from the quotes gets its own error entry. *)
Lemma price_entry_absent (m : dict) (symbol : string) (result : dict) :
  Dict.get symbol m = None ->
  price_entry (JObj m) symbol result =
  Ret (Dict.set symbol (error_dict "No data available") result).
Proof.
  intros Hn. unfold price_entry. cbn [Py.contains obind].
  unfold Dict.has. rewrite Hn. reflexivity.
Qed.

(** C7 (what the tool reports for a symbol the server answered): for a symbol
    other than ["quote"] that is present in the quotes, whatever its payload,
    the three entries [<symbol>_price], [<symbol>_bid] and [<symbol>_ask] are
    set to 0: the payload is wrapped under the symbol before it is formatted,
    so the formatter finds no ["quote"] key. *)
Theorem price_entry_present_reports_zero (m : dict) (symbol : string)
  (q : json) (result : dict) :
  symbol <> "quote" ->
  Dict.get symbol m = Some q ->
  price_entry (JObj m) symbol result =
  Ret (Dict.set (symbol ++ "_ask") (JNum 0)
         (Dict.set (symbol ++ "_bid") (JNum 0)
            (Dict.set (symbol ++ "_price") (JNum 0) result))).
Proof.
  intros Hne Hq. unfold price_entry. cbn [Py.contains obind].
  unfold Dict.has. rewrite Hq. cbn [Py.getitem]. rewrite Hq. cbn [obind].
  assert (Hfmt : format_quote_for_trading (JObj [(symbol, q)]) = Ret (JObj [])).
  { apply format_quote_no_quote_key. cbn [Dict.get].
    destruct (String.eqb "quote" symbol) eqn:E; [ | reflexivity].
    apply String.eqb_eq in E. congruence. }
  rewrite Hfmt. reflexivity.
Qed.

Lemma price_entry_present_reports_zero_witness :
  price_entry payload_aapl "AAPL" [] =
  Ret [("AAPL_price", JNum 0); ("AAPL_bid", JNum 0); ("AAPL_ask", JNum 0)].
Proof.
  apply (price_entry_present_reports_zero
           [("AAPL", JObj [("symbol", JStr "AAPL");
                           ("quote", JObj [("lastPrice", JNum 150);
                                           ("bidPrice", JNum 149);
                                           ("askPrice", JNum 151)])])]
           "AAPL"
           (JObj [("symbol", JStr "AAPL");
                  ("quote", JObj [("lastPrice", JNum 150);
                                  ("bidPrice", JNum 149);
                                  ("askPrice", JNum 151)])])
           []).
  - discriminate.
  - reflexivity.
Defined.

(** The run of the spec's example: AAPL is answered with its prices, BAD is
    not; the tool reports zeros for AAPL and an error entry for BAD, while
    the single-symbol tool reports AAPL's prices. *)
Example get_multiple_prices_aapl_bad :
  fst (get_multiple_prices repr0 str_exn0 "AAPL,BAD" (tool0 [answer 200 payload_aapl])) =
  Ret (JObj [("AAPL_price", JNum 0); ("AAPL_bid", JNum 0); ("AAPL_ask", JNum 0);
             ("BAD", JObj [("error", JStr "No data available")])]) /\
  fst (get_real_time_price repr0 str_exn0 "AAPL" (tool0 [answer 200 payload_aapl])) =
  Ret (JObj [("symbol", JStr "AAPL");
             ("current_price", JNum 150);
             ("bid_price", JNum 149);
             ("ask_price", JNum 151);
             ("high", JNum 0);
             ("low", JNum 0);
             ("volume", JNum 0);
             ("timestamp", JNum 0);
             ("status", JStr "success")]).
Proof. split; reflexivity. Qed.

(** * Further properties of the client *)

(** ** Construction *)

(** X1: The constructor raises exactly when the client id or the client secret
    is unset or empty; otherwise the client talks to the fixed endpoint and
    takes both tokens from the environment as they are. *)
Theorem SchwabAPIClient_init (getenv : string -> option string) :
  (PyStr.truthy_opt (getenv "SCHWAB_CLIENT_ID") = false \/
   PyStr.truthy_opt (getenv "SCHWAB_CLIENT_SECRET") = false ->
   SchwabAPIClient getenv =
   Raise (ValueError "Schwab API credentials not found in environment variables")) /\
  (forall cid csec,
     getenv "SCHWAB_CLIENT_ID" = Some cid -> cid <> "" ->
     getenv "SCHWAB_CLIENT_SECRET" = Some csec -> csec <> "" ->
     SchwabAPIClient getenv =
     Ret {| base_url := "https://api.schwabapi.com";
            client_id := cid;
            client_secret := csec;
            access_token := Py.of_opt (getenv "SCHWAB_ACCESS_TOKEN");
            refresh_token := Py.of_opt (getenv "SCHWAB_REFRESH_TOKEN") |}).
Proof.
  split.
  - intros [H | H]; unfold SchwabAPIClient; rewrite H;
      [ | rewrite orb_true_r]; reflexivity.
  - intros cid csec Hid Hne Hsec Hnes. unfold SchwabAPIClient.
    rewrite Hid, Hsec.
    destruct cid; [congruence | ]. destruct csec; [congruence | ]. reflexivity.
Qed.

Lemma SchwabAPIClient_init_witness :
  SchwabAPIClient (env_of [("SCHWAB_CLIENT_ID", "id"); ("SCHWAB_CLIENT_SECRET", "")]) =
    Raise (ValueError "Schwab API credentials not found in environment variables") /\
  SchwabAPIClient creds_env =
    Ret {| base_url := "https://api.schwabapi.com";
           client_id := "id";
           client_secret := "secret";
           access_token := JNull;
           refresh_token := JStr "r0" |}.
Proof.
  split.
  - apply (SchwabAPIClient_init
             (env_of [("SCHWAB_CLIENT_ID", "id"); ("SCHWAB_CLIENT_SECRET", "")])).
    right. reflexivity.
  - apply (proj2 (SchwabAPIClient_init creds_env) "id" "secret");
      try reflexivity; discriminate.
Defined.

(** ** Edge cases of the refresh *)

(** X2: Without a refresh token the refresh returns [False], sends nothing and
    leaves the client as it was. *)
Theorem refresh_without_refresh_token (s : Sys) :
  Py.truthy (refresh_token (self s)) = false ->
  fst (refresh_access_token s) = Ret false /\
  self (snd (refresh_access_token s)) = self s /\
  sent (net (snd (refresh_access_token s))) = sent (net s).
Proof.
  intros Ht. rewrite (refresh_no_token s Ht). repeat split.
Qed.

Lemma refresh_without_refresh_token_witness :
  fst (refresh_access_token
         {| self := {| base_url := "u"; client_id := "id"; client_secret := "secret";
                       access_token := JStr "a0"; refresh_token := JNull |};
            net := {| server := stub []; sent := [] |};
            refresh_calls := 0 |}) = Ret false /\
  self (snd (refresh_access_token
         {| self := {| base_url := "u"; client_id := "id"; client_secret := "secret";
                       access_token := JStr "a0"; refresh_token := JNull |};
            net := {| server := stub []; sent := [] |};
            refresh_calls := 0 |})) =
    {| base_url := "u"; client_id := "id"; client_secret := "secret";
       access_token := JStr "a0"; refresh_token := JNull |} /\
  sent (net (snd (refresh_access_token
         {| self := {| base_url := "u"; client_id := "id"; client_secret := "secret";
                       access_token := JStr "a0"; refresh_token := JNull |};
            net := {| server := stub []; sent := [] |};
            refresh_calls := 0 |}))) = [].
Proof.
  apply (refresh_without_refresh_token
           {| self := {| base_url := "u"; client_id := "id"; client_secret := "secret";
                         access_token := JStr "a0"; refresh_token := JNull |};
              net := {| server := stub []; sent := [] |};
              refresh_calls := 0 |}).
  reflexivity.
Defined.

(** X3: A refresh that does not return [True] (it returns [False] or raises)
    leaves the client object, tokens included, as it was. *)
Theorem refresh_failure_keeps_tokens (s : Sys) :
  fst (refresh_access_token s) <> Ret true ->
  self (snd (refresh_access_token s)) = self s.
Proof.
  intros Hne.
  destruct (Py.truthy (refresh_token (self s))) eqn:Ht.
  - destruct (reply_to s (refresh_request (self s))) as [r | | ] eqn:Hr.
    + destruct (passes r) eqn:Hp.
      * destruct (body r) as [j | ] eqn:Hb.
        -- destruct j;
             try (rewrite (refresh_not_dict s r _ Ht Hr Hp Hb);
                  [reflexivity | intros m' E; discriminate E]).
           rewrite (refresh_ok s r m Ht Hr Hp Hb) in Hne.
           exfalso. apply Hne. reflexivity.
        -- rewrite (refresh_not_json s r Ht Hr Hp Hb). reflexivity.
      * rewrite (refresh_http_error s r Ht Hr Hp). reflexivity.
    + rewrite (refresh_no_answer s Ht Hr). reflexivity.
    + rewrite (refresh_refused s Ht Hr). reflexivity.
  - rewrite (refresh_no_token s Ht). reflexivity.
Qed.

Lemma refresh_failure_keeps_tokens_witness :
  self (snd (refresh_access_token (sys_refresh (answer 400 (JObj [("error", JStr "invalid_grant")])))))
  = client0.
Proof.
  apply (refresh_failure_keeps_tokens
           (sys_refresh (answer 400 (JObj [("error", JStr "invalid_grant")])))).
  discriminate.
Defined.

(** ** Fetching without an access token *)

Section FetchEdges.

Variable repr_other : json -> string.

(** X4: With no access token the three fetches raise [ValueError] (it is not
    caught as a request error) before anything is sent; the state is
    untouched. *)
Theorem fetch_without_access_token_raises (s : Sys) :
  Py.truthy (access_token (self s)) = false ->
  (forall symbol,
     get_quote repr_other symbol s =
     (Raise (ValueError "No access token available. Please authenticate first."), s)) /\
  (forall symbols,
     get_quotes_bulk repr_other symbols s =
     (Raise (ValueError "No access token available. Please authenticate first."), s)) /\
  (forall symbol period_type period frequency_type frequency,
     get_price_history repr_other symbol period_type period frequency_type
       frequency s =
     (Raise (ValueError "No access token available. Please authenticate first."), s)).
Proof.
  intros Ht. split; [ | split].
  - intros symbol. unfold get_quote, bind at 1, get_self.
    unfold try_except, bind at 1.
    rewrite (get_headers_no_token repr_other s Ht). reflexivity.
  - intros symbols. rewrite get_quotes_bulk_shape.
    apply fetch_no_access_token. exact Ht.
  - intros. rewrite get_price_history_shape.
    apply fetch_no_access_token. exact Ht.
Qed.

(** ** A 401 answered by a successful refresh *)

Lemma fetch_retries_with_new_token u p fail (s : Sys) (r rr r2 : Response)
  (m : dict) (tok : string) (j : json) :
  Py.truthy (access_token (self s)) = true ->
  Py.truthy (refresh_token (self s)) = true ->
  reply_to s (first_request repr_other u p s) = Answer r ->
  status_code r = 401 ->
  reply_to (after_send s (first_request repr_other u p s))
           (refresh_request (self s)) = Answer rr ->
  passes rr = true -> body rr = Some (JObj m) ->
  Dict.get "access_token" m = Some (JStr tok) -> tok <> "" ->
  reply_to (after_refresh (after_send s (first_request repr_other u p s)) m)
           (bearer_get repr_other u p (JStr tok)) = Answer r2 ->
  passes r2 = true -> body r2 = Some j ->
  fst (fetch_with_retry repr_other u p fail s) = Ret j /\
  sent (net (snd (fetch_with_retry repr_other u p fail s))) =
    (sent (net s) ++ [first_request repr_other u p s;
                      refresh_request (self s);
                      bearer_get repr_other u p (JStr tok)])%list /\
  header "Authorization" (headers (bearer_get repr_other u p (JStr tok))) =
    Some ("Bearer " ++ tok) /\
  refresh_calls (snd (fetch_with_retry repr_other u p fail s)) =
    S (refresh_calls s) /\
  access_token (self (snd (fetch_with_retry repr_other u p fail s))) = JStr tok.
Proof.
  intros Ht Hrt Hr H401 Hrr Hprr Hbrr Htok Hne Hr2 Hp2 Hb2.
  set (s1 := after_send s (first_request repr_other u p s)) in *.
  assert (Href : refresh_access_token s1 = (Ret true, after_refresh s1 m)).
  { apply (refresh_ok s1 rr m); assumption. }
  assert (Hacc : access_token (self (after_refresh s1 m)) = JStr tok).
  { cbn [after_refresh self refreshed access_token]. rewrite Htok. reflexivity. }
  assert (Ht2 : Py.truthy (access_token (self (after_refresh s1 m))) = true).
  { rewrite Hacc. cbn [Py.truthy]. apply negb_true_iff, String.eqb_neq. exact Hne. }
  unfold first_request in Hr.
  rewrite <- Hacc in Hr2.
  rewrite (fetch_retry_ok repr_other u p fail s (after_refresh s1 m) r r2 j
             Ht Hr H401 Href Ht2 Hr2 Hp2 Hb2).
  rewrite Hacc.
  cbn [fst snd after_send after_refresh net sent self refresh_calls refreshed
       access_token].
  rewrite Htok.
  repeat split. unfold s1, after_send. cbn [net sent].
  rewrite <- !app_assoc. reflexivity.
Qed.

(** X5: For [get_quotes_bulk] and [get_price_history]: when the first response
    is a 401 and the refresh is answered with a new access token, the request
    is sent once more with [Bearer <new token>], and when that is answered
    (which takes a token the library accepts in a header: [reply_to] goes
    through [deliver]) and passes, its payload is returned; the run sent the
    GET, the refresh POST and the GET again, called the refresh once, and the
    client holds the new token. *)
Theorem fetch_retry_returns_payload :
  (forall symbols s r rr r2 m tok j,
     let u := quotes_url (self s) (PyStr.join "," (map PyStr.upper symbols)) in
     Py.truthy (access_token (self s)) = true ->
     Py.truthy (refresh_token (self s)) = true ->
     reply_to s (first_request repr_other u [] s) = Answer r ->
     status_code r = 401 ->
     reply_to (after_send s (first_request repr_other u [] s))
              (refresh_request (self s)) = Answer rr ->
     passes rr = true -> body rr = Some (JObj m) ->
     Dict.get "access_token" m = Some (JStr tok) -> tok <> "" ->
     reply_to (after_refresh (after_send s (first_request repr_other u [] s)) m)
              (bearer_get repr_other u [] (JStr tok)) = Answer r2 ->
     passes r2 = true -> body r2 = Some j ->
     fst (get_quotes_bulk repr_other symbols s) = Ret j /\
     sent (net (snd (get_quotes_bulk repr_other symbols s))) =
       (sent (net s) ++ [first_request repr_other u [] s;
                         refresh_request (self s);
                         bearer_get repr_other u [] (JStr tok)])%list /\
     header "Authorization" (headers (bearer_get repr_other u [] (JStr tok))) =
       Some ("Bearer " ++ tok) /\
     refresh_calls (snd (get_quotes_bulk repr_other symbols s)) =
       S (refresh_calls s) /\
     access_token (self (snd (get_quotes_bulk repr_other symbols s))) = JStr tok) /\
  (forall symbol period_type period frequency_type frequency s r rr r2 m tok j,
     let u := history_url (self s) in
     let p := history_params symbol period_type period frequency_type frequency in
     Py.truthy (access_token (self s)) = true ->
     Py.truthy (refresh_token (self s)) = true ->
     reply_to s (first_request repr_other u p s) = Answer r ->
     status_code r = 401 ->
     reply_to (after_send s (first_request repr_other u p s))
              (refresh_request (self s)) = Answer rr ->
     passes rr = true -> body rr = Some (JObj m) ->
     Dict.get "access_token" m = Some (JStr tok) -> tok <> "" ->
     reply_to (after_refresh (after_send s (first_request repr_other u p s)) m)
              (bearer_get repr_other u p (JStr tok)) = Answer r2 ->
     passes r2 = true -> body r2 = Some j ->
     fst (get_price_history repr_other symbol period_type period
            frequency_type frequency s) = Ret j /\
     sent (net (snd (get_price_history repr_other symbol period_type period
                       frequency_type frequency s))) =
       (sent (net s) ++ [first_request repr_other u p s;
                         refresh_request (self s);
                         bearer_get repr_other u p (JStr tok)])%list /\
     header "Authorization" (headers (bearer_get repr_other u p (JStr tok))) =
       Some ("Bearer " ++ tok) /\
     refresh_calls (snd (get_price_history repr_other symbol period_type period
                           frequency_type frequency s)) =
       S (refresh_calls s) /\
     access_token (self (snd (get_price_history repr_other symbol period_type
                                period frequency_type frequency s))) = JStr tok).
Proof.
  split.
  - intros symbols s r rr r2 m tok j u. rewrite get_quotes_bulk_shape.
    apply fetch_retries_with_new_token.
  - intros symbol period_type period frequency_type frequency s r rr r2 m tok j
           u p.
    rewrite get_price_history_shape.
    apply fetch_retries_with_new_token.
Qed.

End FetchEdges.

Lemma fetch_without_access_token_raises_witness :
  get_quote repr0 "AAPL" sys_no_token =
    (Raise (ValueError "No access token available. Please authenticate first."),
     sys_no_token) /\
  get_quotes_bulk repr0 ["AAPL"] sys_no_token =
    (Raise (ValueError "No access token available. Please authenticate first."),
     sys_no_token) /\
  get_price_history repr0 "AAPL" "day" 1 "minute" 1 sys_no_token =
    (Raise (ValueError "No access token available. Please authenticate first."),
     sys_no_token).
Proof.
  destruct (fetch_without_access_token_raises repr0 sys_no_token eq_refl)
    as [Hq [Hb Hh]].
  split; [apply Hq | split; [apply Hb | apply Hh] ].
Defined.

Lemma fetch_retry_returns_payload_witness :
  fst (get_quotes_bulk repr0 ["AAPL"]
         (sys0 (replies_401_refresh_then (answer 200 payload_aapl)))) =
    Ret payload_aapl /\
  fst (get_price_history repr0 "AAPL" "day" 1 "minute" 1
         (sys0 (replies_401_refresh_then (answer 200 candles0)))) = Ret candles0 /\
  sent (net (snd (get_price_history repr0 "AAPL" "day" 1 "minute" 1
                    (sys0 (replies_401_refresh_then (answer 200 candles0)))))) =
    ([] ++ [bearer_get repr0 (history_url client0) history_params0 (JStr "a0");
            refresh_request client0;
            bearer_get repr0 (history_url client0) history_params0 (JStr "a1")])%list.
Proof.
  destruct (fetch_retry_returns_payload repr0) as [Hb Hh].
  split; [ | split].
  - apply (Hb ["AAPL"] (sys0 (replies_401_refresh_then (answer 200 payload_aapl)))
              {| status_code := 401; body := Some JNull |}
              {| status_code := 200; body := Some (JObj tokens_a1) |}
              {| status_code := 200; body := Some payload_aapl |}
              tokens_a1 "a1" payload_aapl); try reflexivity.
    discriminate.
  - apply (Hh "AAPL" "day" 1 "minute" 1
              (sys0 (replies_401_refresh_then (answer 200 candles0)))
              {| status_code := 401; body := Some JNull |}
              {| status_code := 200; body := Some (JObj tokens_a1) |}
              {| status_code := 200; body := Some candles0 |}
              tokens_a1 "a1" candles0); try reflexivity.
    discriminate.
  - apply (Hh "AAPL" "day" 1 "minute" 1
              (sys0 (replies_401_refresh_then (answer 200 candles0)))
              {| status_code := 401; body := Some JNull |}
              {| status_code := 200; body := Some (JObj tokens_a1) |}
              {| status_code := 200; body := Some candles0 |}
              tokens_a1 "a1" candles0); try reflexivity.
    discriminate.
Defined.

(** A new token that holds a line end in its middle is refused by the library
    ([InvalidHeader], a request error): the retry is not answered and
    [get_quotes_bulk] returns its failure value, the empty dict. *)
Example bulk_retry_token_with_line_end :
  let token := JStr ("a" ++ newline ++ "b") in
  let s := sys0 [answer 401 JNull;
                 answer 200 (JObj [("access_token", token)]);
                 answer 200 payload_aapl] in
  reply_to (snd (get_quotes_bulk repr0 ["AAPL"] s))
           (bearer_get repr0 (quotes_url client0 "AAPL") [] token) = Refused /\
  refusal (bearer_get repr0 (quotes_url client0 "AAPL") [] token) = InvalidHeader /\
  fst (get_quotes_bulk repr0 ["AAPL"] s) = Ret (JObj []).
Proof. repeat split. Qed.

(** ** No refresh without a 401 *)

Section NoRefresh.

Variable repr_other : json -> string.

Lemma snd_payload_of_response (r : Response) (s : Sys) :
  snd (payload_of_response r s) = s.
Proof.
  unfold payload_of_response, bind, raise_for_status, response_json.
  destruct ((400 <=? status_code r) && (status_code r <? 600)); [reflexivity | ].
  cbn. destruct (body r); reflexivity.
Qed.

Lemma snd_quote_of_response (symbol : string) (r : Response) (s : Sys) :
  snd (quote_of_response symbol r s) = s.
Proof.
  unfold quote_of_response, bind, raise_for_status, response_json, lift.
  destruct ((400 <=? status_code r) && (status_code r <? 600)); [reflexivity | ].
  cbn. destruct (body r) as [j | ]; [ | reflexivity].
  cbn. destruct (Py.contains symbol j) as [[ | ] | e]; cbn; try reflexivity.
Qed.

Lemma fetch_one_request u p fail (s : Sys) :
  Py.truthy (access_token (self s)) = true ->
  (forall r, reply_to s (first_request repr_other u p s) = Answer r ->
             status_code r <> 401) ->
  snd (fetch_with_retry repr_other u p fail s) =
  after_send s (first_request repr_other u p s).
Proof.
  intros Ht Hno. unfold first_request in *.
  destruct (reply_to s (bearer_get repr_other u p (access_token (self s))))
    as [r | | ] eqn:Hr.
  - unfold fetch_with_retry, try_except, bind at 1.
    rewrite (get_headers_ok repr_other s Ht). unfold bind at 1.
    rewrite (requests_get_answer repr_other _ _ _ _ _ Hr).
    specialize (Hno r eq_refl). apply Z.eqb_neq in Hno. rewrite Hno.
    pose proof (snd_payload_of_response r
                  (after_send s (bearer_get repr_other u p (access_token (self s)))))
      as Hs.
    destruct (payload_of_response r _) as [[j | e] s'] eqn:E; cbn [snd] in Hs;
      subst s'; [reflexivity | ].
    destruct (is_RequestException e); reflexivity.
  - rewrite (fetch_no_answer repr_other u p fail s Ht Hr). reflexivity.
  - unfold fetch_with_retry, try_except, bind at 1.
    rewrite (get_headers_ok repr_other s Ht). unfold bind at 1.
    rewrite (requests_get_refused repr_other _ _ _ _ Hr).
    destruct (is_RequestException (refusal _)); reflexivity.
Qed.

Lemma get_quote_one_request (symbol : string) (s : Sys) :
  Py.truthy (access_token (self s)) = true ->
  (forall r, reply_to s (first_request repr_other
                           (quotes_url (self s) (PyStr.upper symbol)) [] s) = Answer r ->
             status_code r <> 401) ->
  snd (get_quote repr_other symbol s) =
  after_send s (first_request repr_other
                  (quotes_url (self s) (PyStr.upper symbol)) [] s).
Proof.
  intros Ht Hno. unfold first_request in *.
  unfold get_quote, bind at 1, get_self.
  unfold try_except, bind at 1.
  rewrite (get_headers_ok repr_other s Ht). unfold bind at 1.
  fold (quotes_url (self s) (PyStr.upper symbol)).
  destruct (reply_to s (bearer_get repr_other
                          (quotes_url (self s) (PyStr.upper symbol)) []
                          (access_token (self s)))) as [r | | ] eqn:Hr.
  - rewrite (requests_get_answer repr_other _ _ _ _ _ Hr).
    specialize (Hno r eq_refl). apply Z.eqb_neq in Hno. rewrite Hno.
    pose proof (snd_quote_of_response symbol r
                  (after_send s (bearer_get repr_other
                                   (quotes_url (self s) (PyStr.upper symbol)) []
                                   (access_token (self s))))) as Hs.
    destruct (quote_of_response symbol r _) as [[j | e] s'] eqn:E; cbn [snd] in Hs;
      subst s'; [reflexivity | ].
    destruct (is_RequestException e); reflexivity.
  - rewrite (requests_get_no_answer repr_other _ _ _ _ Hr). reflexivity.
  - rewrite (requests_get_refused repr_other _ _ _ _ Hr).
    destruct (is_RequestException (refusal _)); reflexivity.
Qed.

(** X6: When the first request is not answered with a 401 (whatever else
    happens: a payload, another error status, a body that is not JSON, no
    answer at all), each of the three fetches sends that one request and
    nothing else, does not call the refresh, and leaves the client and its
    tokens as they were. *)
Theorem fetch_without_401_sends_one_request (s : Sys) :
  Py.truthy (access_token (self s)) = true ->
  (forall symbol,
     let g := first_request repr_other
                (quotes_url (self s) (PyStr.upper symbol)) [] s in
     (forall r, reply_to s g = Answer r -> status_code r <> 401) ->
     snd (get_quote repr_other symbol s) = after_send s g) /\
  (forall symbols,
     let g := first_request repr_other
                (quotes_url (self s) (PyStr.join "," (map PyStr.upper symbols)))
                [] s in
     (forall r, reply_to s g = Answer r -> status_code r <> 401) ->
     snd (get_quotes_bulk repr_other symbols s) = after_send s g) /\
  (forall symbol period_type period frequency_type frequency,
     let g := first_request repr_other (history_url (self s))
                (history_params symbol period_type period frequency_type
                   frequency) s in
     (forall r, reply_to s g = Answer r -> status_code r <> 401) ->
     snd (get_price_history repr_other symbol period_type period
            frequency_type frequency s) = after_send s g) /\
  (forall g, self (after_send s g) = self s /\
             refresh_calls (after_send s g) = refresh_calls s /\
             sent (net (after_send s g)) = (sent (net s) ++ [g])%list).
Proof.
  intros Ht. split; [ | split; [ | split] ].
  - intros symbol g. apply get_quote_one_request. exact Ht.
  - intros symbols g Hno. rewrite get_quotes_bulk_shape.
    apply fetch_one_request; assumption.
  - intros symbol period_type period frequency_type frequency g Hno.
    rewrite get_price_history_shape.
    apply fetch_one_request; assumption.
  - intros g. repeat split.
Qed.

End NoRefresh.

Lemma fetch_without_401_sends_one_request_witness :
  snd (get_quote repr0 "AAPL" (sys0 [answer 500 JNull; answer 200 payload_aapl])) =
    after_send (sys0 [answer 500 JNull; answer 200 payload_aapl])
      (first_request repr0 (quotes_url client0 "AAPL") []
         (sys0 [answer 500 JNull; answer 200 payload_aapl])) /\
  snd (get_quotes_bulk repr0 ["AAPL"] (sys0 [])) =
    after_send (sys0 [])
      (first_request repr0 (quotes_url client0 "AAPL") [] (sys0 [])).
Proof.
  split.
  - apply (proj1 (fetch_without_401_sends_one_request repr0
                    (sys0 [answer 500 JNull; answer 200 payload_aapl]) eq_refl)).
    intros r Hr. cbn in Hr. inversion Hr. cbn. lia.
  - apply (proj1 (proj2 (fetch_without_401_sends_one_request repr0
                           (sys0 []) eq_refl))).
    intros r Hr. cbn in Hr. discriminate Hr.
Defined.

(** ** What no method touches *)

Lemma same_identity_refl (s : Sys) : same_identity s s.
Proof. repeat split. Qed.

Lemma same_identity_trans (s1 s2 s3 : Sys) :
  same_identity s1 s2 -> same_identity s2 s3 -> same_identity s1 s3.
Proof.
  unfold same_identity. intros [A1 [B1 [C1 D1]]] [A2 [B2 [C2 D2]]].
  repeat split; congruence.
Qed.

Lemma keeps_pure {A} (m : M Sys A) :
  (forall s, snd (m s) = s) -> keeps same_identity m.
Proof. intros H s. rewrite H. apply same_identity_refl. Qed.

Lemma keeps_bind {A B} (m : M Sys A) (k : A -> M Sys B) :
  keeps same_identity m -> (forall a, keeps same_identity (k a)) ->
  keeps same_identity (bind m k).
Proof.
  intros Hm Hk s. specialize (Hm s). unfold bind.
  destruct (m s) as [[a | e] s1]; cbn [snd] in *; [ | exact Hm].
  apply (same_identity_trans s s1); [exact Hm | apply Hk].
Qed.

Lemma keeps_try_except {A} (m : M Sys A) (catches : exn -> bool)
  (h : exn -> M Sys A) :
  keeps same_identity m -> (forall e, keeps same_identity (h e)) ->
  keeps same_identity (try_except m catches h).
Proof.
  intros Hm Hh s. specialize (Hm s). unfold try_except.
  destruct (m s) as [[a | e] s1]; cbn [snd] in *; [exact Hm | ].
  destruct (catches e); [ | exact Hm].
  apply (same_identity_trans s s1); [exact Hm | apply Hh].
Qed.

Lemma keeps_requests (r : Request) : keeps same_identity (requests r).
Proof.
  intros s. unfold requests, send.
  destruct (deliver (server (net s)) (sent (net s)) r); repeat split.
Qed.

Lemma keeps_get_headers repr_other b :
  keeps same_identity (_get_headers repr_other b).
Proof.
  apply keeps_pure. intros s. unfold _get_headers, bind, get_self.
  destruct (negb (Py.truthy (access_token (self s)))); [reflexivity | ].
  destruct b; reflexivity.
Qed.

Lemma keeps_raise_for_status r : keeps same_identity (@raise_for_status Sys r).
Proof.
  apply keeps_pure. intros s. unfold raise_for_status.
  destruct ((400 <=? status_code r) && (status_code r <? 600)); reflexivity.
Qed.

Lemma keeps_response_json r : keeps same_identity (@response_json Sys r).
Proof.
  apply keeps_pure. intros s. unfold response_json.
  destruct (body r); reflexivity.
Qed.

Lemma keeps_lift {A} (o : outcome A) : keeps same_identity (lift o).
Proof. apply keeps_pure. reflexivity. Qed.

Lemma keeps_ret {A} (a : A) : keeps same_identity (ret a).
Proof. apply keeps_pure. reflexivity. Qed.

Lemma keeps_set_access_token v : keeps same_identity (set_access_token v).
Proof. intros s. repeat split. Qed.

Lemma keeps_set_refresh_token v : keeps same_identity (set_refresh_token v).
Proof. intros s. repeat split. Qed.

Lemma keeps_count_refresh_call : keeps same_identity count_refresh_call.
Proof. intros s. repeat split. Qed.

Create HintDb keeps_db.
#[local] Hint Resolve keeps_requests keeps_get_headers keeps_raise_for_status
  keeps_response_json keeps_lift keeps_ret keeps_set_access_token
  keeps_set_refresh_token keeps_count_refresh_call : keeps_db.

Ltac keeps_steps :=
  repeat first
    [ assumption
    | apply keeps_requests
    | apply keeps_bind; [ | intros ? ]
    | apply keeps_try_except; [ | intros ? ]
    | progress auto with keeps_db
    | apply keeps_pure; reflexivity
    | match goal with
      | |- keeps _ (if ?b then _ else _) => destruct b
      end ].

Lemma keeps_refresh_access_token : keeps same_identity refresh_access_token.
Proof.
  unfold refresh_access_token, requests_post. keeps_steps.
Qed.

(** X7: Neither the refresh nor any fetch changes the endpoint, the client id,
    the client secret or the service talked to: only the two tokens of the
    client can change. *)
Theorem credentials_never_change (repr_other : json -> string) :
  keeps same_identity refresh_access_token /\
  (forall symbol, keeps same_identity (get_quote repr_other symbol)) /\
  (forall symbols, keeps same_identity (get_quotes_bulk repr_other symbols)) /\
  (forall symbol period_type period frequency_type frequency,
     keeps same_identity
       (get_price_history repr_other symbol period_type period frequency_type
          frequency)).
Proof.
  pose proof keeps_refresh_access_token as Href.
  split; [exact Href | ].
  split; [ | split].
  - intros symbol.
    unfold get_quote, quote_of_response, unbound_name, requests_get, get_self.
    keeps_steps.
  - intros symbols.
    unfold get_quotes_bulk, payload_of_response, requests_get, get_self.
    keeps_steps.
  - intros symbol period_type period frequency_type frequency.
    unfold get_price_history, payload_of_response, requests_get, get_self.
    keeps_steps.
Qed.

(** * The price tools *)

(** ** The tools never raise *)

Lemma yields_ret {S A} (P : A -> Prop) (a : A) : P a -> yields P (@ret S A a).
Proof. intros H s. exact H. Qed.

Lemma yields_raise {S A} (P : A -> Prop) (e : exn) :
  is_Exception e = true -> yields P (@raise S A e).
Proof. intros H s. exact H. Qed.

Lemma yields_lift {S A} (P : A -> Prop) (o : outcome A) :
  gives P o -> yields P (@lift S A o).
Proof. intros H s. exact H. Qed.

Lemma yields_weaken {S A} (P Q : A -> Prop) (m : M S A) :
  yields P m -> (forall a, P a -> Q a) -> yields Q m.
Proof.
  intros H HPQ s. specialize (H s).
  destruct (fst (m s)); [apply HPQ | ]; exact H.
Qed.

Lemma yields_bind {S A B} (P : A -> Prop) (Q : B -> Prop) (m : M S A)
  (k : A -> M S B) :
  yields P m -> (forall a, P a -> yields Q (k a)) -> yields Q (bind m k).
Proof.
  intros Hm Hk s. specialize (Hm s). unfold bind.
  destruct (m s) as [[a | e] s1]; cbn [fst] in *.
  - apply (Hk a Hm).
  - exact Hm.
Qed.

Lemma yields_try_except {S A} (P : A -> Prop) (m : M S A)
  (catches : exn -> bool) (h : exn -> M S A) :
  yields P m -> (forall e, yields P (h e)) -> yields P (try_except m catches h).
Proof.
  intros Hm Hh s. specialize (Hm s). unfold try_except.
  destruct (m s) as [[a | e] s1]; cbn [fst] in *; [exact Hm | ].
  destruct (catches e); [apply Hh | exact Hm].
Qed.

Lemma gives_obind {A B} (P : A -> Prop) (Q : B -> Prop) (o : outcome A)
  (k : A -> outcome B) :
  gives P o -> (forall a, P a -> gives Q (k a)) -> gives Q (obind o k).
Proof.
  intros Ho Hk. destruct o as [a | e]; cbn in *; [apply Hk | ]; exact Ho.
Qed.

Lemma gives_contains k v : gives any (Py.contains k v).
Proof. destruct v; exact I || reflexivity. Qed.

Lemma gives_getitem v k : gives any (Py.getitem v k).
Proof.
  destruct v; try reflexivity. cbn. destruct (Dict.get k m); exact I || reflexivity.
Qed.

Lemma gives_get v k d : gives any (Py.get v k d).
Proof.
  destruct v; try reflexivity. cbn. destruct (Dict.get k m); exact I.
Qed.

(** The formatter returns a dict or raises an ordinary exception. *)
Lemma gives_format_quote_for_trading (q : json) :
  gives is_dict (format_quote_for_trading q).
Proof.
  unfold format_quote_for_trading.
  destruct (negb (Py.truthy q)); [exists []; reflexivity | ].
  apply (gives_obind any); [apply gives_contains | intros has _].
  destruct (negb has); [exists []; reflexivity | ].
  apply (gives_obind any); [apply gives_getitem | intros quote _].
  repeat (apply (gives_obind any); [apply gives_get | intros ? _]).
  cbn. eexists. reflexivity.
Qed.

Lemma yields_requests (r : Request) : yields any (requests r).
Proof.
  intros s. unfold requests, send.
  destruct (deliver (server (net s)) (sent (net s)) r);
    [exact I | reflexivity | apply refusal_is_Exception].
Qed.

Lemma yields_get_headers repr_other b : yields any (_get_headers repr_other b).
Proof.
  intros s. unfold _get_headers, bind, get_self.
  destruct (negb (Py.truthy (access_token (self s)))); [reflexivity | ].
  destruct b; exact I.
Qed.

Lemma yields_raise_for_status {S} r : yields any (@raise_for_status S r).
Proof.
  intros s. unfold raise_for_status.
  destruct ((400 <=? status_code r) && (status_code r <? 600));
    [reflexivity | exact I].
Qed.

Lemma yields_response_json {S} r : yields any (@response_json S r).
Proof.
  intros s. unfold response_json. destruct (body r); [exact I | reflexivity].
Qed.

Lemma yields_any_ret {S A} (a : A) : yields any (@ret S A a).
Proof. intros s. exact I. Qed.

Lemma yields_any_lift_contains {S} k v : yields any (@lift S _ (Py.contains k v)).
Proof. apply yields_lift, gives_contains. Qed.

Lemma yields_any_lift_getitem {S} v k : yields any (@lift S _ (Py.getitem v k)).
Proof. apply yields_lift, gives_getitem. Qed.

Lemma yields_any_lift_get {S} v k d : yields any (@lift S _ (Py.get v k d)).
Proof. apply yields_lift, gives_get. Qed.

Lemma yields_any_state {A} (m : M Sys A) :
  (forall s, exists a, fst (m s) = Ret a) -> yields any m.
Proof. intros H s. destruct (H s) as [a ->]. exact I. Qed.

Ltac yields_steps :=
  repeat first
    [ assumption
    | apply yields_requests
    | apply yields_get_headers
    | apply yields_raise_for_status
    | apply yields_response_json
    | apply yields_any_lift_contains
    | apply yields_any_lift_getitem
    | apply yields_any_lift_get
    | apply yields_any_ret
    | apply yields_raise; reflexivity
    | apply yields_any_state; intros ?; eexists; reflexivity
    | apply (yields_bind any); [ | intros ? _ ]
    | apply yields_try_except; [ | intros ? ]
    | match goal with
      | |- yields _ (if ?b then _ else _) => destruct b
      end ].

Lemma yields_refresh_access_token : yields any refresh_access_token.
Proof.
  unfold refresh_access_token, requests_post. yields_steps.
Qed.

Lemma yields_get_quote repr_other symbol : yields any (get_quote repr_other symbol).
Proof.
  pose proof yields_refresh_access_token as Href.
  unfold get_quote, quote_of_response, unbound_name, requests_get, get_self.
  yields_steps.
Qed.

Lemma yields_get_quotes_bulk repr_other symbols :
  yields any (get_quotes_bulk repr_other symbols).
Proof.
  pose proof yields_refresh_access_token as Href.
  unfold get_quotes_bulk, payload_of_response, requests_get, get_self.
  yields_steps.
Qed.

Lemma yields_call_method {A} (P : A -> Prop) (c : Client) (m : M Sys A) :
  yields P m -> yields P (call_method c m).
Proof.
  intros H t. unfold call_method.
  specialize (H {| self := c; net := tool_net t;
                   refresh_calls := tool_refresh_calls t |}).
  destruct (m _) as [o s]. exact H.
Qed.

Lemma gives_price_entry quotes symbol result :
  gives any (price_entry quotes symbol result).
Proof.
  unfold price_entry.
  apply (gives_obind any); [apply gives_contains | intros has _].
  destruct has; [ | exact I].
  apply (gives_obind any); [apply gives_getitem | intros q _].
  apply (gives_obind is_dict); [apply gives_format_quote_for_trading | intros f _].
  repeat (apply (gives_obind any); [apply gives_get | intros ? _]).
  exact I.
Qed.

Lemma gives_price_entries quotes symbol_list :
  forall result, gives any (price_entries quotes symbol_list result).
Proof.
  induction symbol_list as [| symbol rest IH]; intros result; [exact I | ].
  cbn [price_entries].
  apply (gives_obind any); [apply gives_price_entry | intros d _; apply IH].
Qed.

Lemma caught_returns_dict {S} (body : M S json) (msg : exn -> string) (s : S) :
  yields is_dict body ->
  exists d,
    fst (try_except body is_Exception (fun e => ret (error_dict (msg e))) s) =
    Ret (JObj d).
Proof.
  intros H. specialize (H s). unfold try_except.
  destruct (body s) as [[a | e] s1]; cbn [fst] in *.
  - destruct H as [d ->]. exists d. reflexivity.
  - rewrite H. eexists. reflexivity.
Qed.

Section ToolsTotal.

Variable repr_other : json -> string.
Variable str_exn : exn -> string.

(** X10: Whatever the symbol text, the state of the client and the behaviour of
    the service, [get_real_time_price] and [get_multiple_prices] return a
    dict and never raise: every failure inside becomes an ["error"] entry.
    Without a client they return the error dict at once and send nothing. *)
Theorem price_tools_always_return_a_dict :
  (forall symbol t,
     exists d, fst (get_real_time_price repr_other str_exn symbol t) = Ret (JObj d)) /\
  (forall symbols t,
     exists d, fst (get_multiple_prices repr_other str_exn symbols t) = Ret (JObj d)) /\
  (forall symbol t,
     schwab_client t = None ->
     get_real_time_price repr_other str_exn symbol t =
       (Ret (error_dict "Schwab API client not initialized"), t) /\
     get_multiple_prices repr_other str_exn symbol t =
       (Ret (error_dict "Schwab API client not initialized"), t)).
Proof.
  split; [ | split].
  - intros symbol t. unfold get_real_time_price.
    destruct (schwab_client t) as [c | ]; [ | eexists; reflexivity].
    apply (caught_returns_dict _
             (fun e => "Failed to fetch price for " ++ symbol ++ ": " ++ str_exn e)).
    apply (yields_bind any).
    { apply yields_call_method, yields_get_quote. }
    intros quote_data _.
    destruct (negb (Py.truthy quote_data)).
    { apply yields_ret. eexists. reflexivity. }
    apply (yields_bind is_dict).
    { apply yields_lift, gives_format_quote_for_trading. }
    intros formatted _.
    repeat (apply (yields_bind any); [apply yields_lift, gives_get | intros ? _]).
    apply yields_ret. eexists. reflexivity.
  - intros symbols t. unfold get_multiple_prices.
    destruct (schwab_client t) as [c | ]; [ | eexists; reflexivity].
    apply (caught_returns_dict _
             (fun e => "Failed to fetch prices: " ++ str_exn e)).
    apply (yields_bind any).
    { apply yields_call_method, yields_get_quotes_bulk. }
    intros quotes _.
    apply (yields_bind any).
    { apply yields_lift, gives_price_entries. }
    intros result _. apply yields_ret. eexists. reflexivity.
  - intros symbol t Hn. unfold get_real_time_price, get_multiple_prices.
    rewrite Hn. split; reflexivity.
Qed.

End ToolsTotal.

Lemma price_tools_always_return_a_dict_witness :
  get_real_time_price repr0 str_exn0 "AAPL" tool_uninitialised =
    (Ret (error_dict "Schwab API client not initialized"), tool_uninitialised) /\
  get_multiple_prices repr0 str_exn0 "AAPL" tool_uninitialised =
    (Ret (error_dict "Schwab API client not initialized"), tool_uninitialised).
Proof.
  apply (proj2 (proj2 (price_tools_always_return_a_dict repr0 str_exn0))
           "AAPL" tool_uninitialised).
  reflexivity.
Defined.

(** ** Insertion and lookup in a dict *)

Lemma dict_get_set_same (k : string) (v : json) (d : dict) :
  Dict.get k (Dict.set k v d) = Some v.
Proof.
  induction d as [| [k' v'] d IH]; cbn.
  - rewrite String.eqb_refl. reflexivity.
  - destruct (String.eqb k k') eqn:E; cbn.
    + rewrite String.eqb_refl. reflexivity.
    + rewrite E. exact IH.
Qed.

Lemma dict_get_set_other (k k' : string) (v : json) (d : dict) :
  k <> k' -> Dict.get k (Dict.set k' v d) = Dict.get k d.
Proof.
  intros Hne. induction d as [| [k2 v2] d IH]; cbn.
  - apply String.eqb_neq in Hne. rewrite Hne. reflexivity.
  - destruct (String.eqb k' k2) eqn:E; cbn.
    + apply String.eqb_eq in E. subst k2.
      apply String.eqb_neq in Hne. rewrite Hne. reflexivity.
    + destruct (String.eqb k k2); [reflexivity | exact IH].
Qed.

Lemma all_no_data_get (symbol_list : list string) :
  forall (result : dict) (symbol : string),
    Dict.get symbol (all_no_data symbol_list result) =
    if existsb (String.eqb symbol) symbol_list then Some no_data
    else Dict.get symbol result.
Proof.
  induction symbol_list as [| s0 rest IH]; intros result symbol; [reflexivity | ].
  cbn [all_no_data fold_left existsb]. fold (all_no_data rest (Dict.set s0 no_data result)).
  rewrite IH.
  destruct (existsb (String.eqb symbol) rest); [rewrite orb_true_r; reflexivity | ].
  rewrite orb_false_r.
  destruct (String.eqb symbol s0) eqn:E.
  - apply String.eqb_eq in E. subst s0. apply dict_get_set_same.
  - apply String.eqb_neq in E. apply dict_get_set_other. exact E.
Qed.

Lemma price_entries_no_quotes (symbol_list : list string) :
  forall result,
    price_entries (JObj []) symbol_list result =
    Ret (all_no_data symbol_list result).
Proof.
  induction symbol_list as [| s0 rest IH]; intros result; [reflexivity | ].
  cbn [price_entries]. rewrite (price_entry_absent [] s0 result eq_refl).
  cbn [obind]. rewrite IH. reflexivity.
Qed.

Section ToolRuns.

Variable repr_other : json -> string.
Variable str_exn : exn -> string.

(** X11: When the bulk fetch gives its failure value, the empty dict (no answer,
    an error status, a refresh that failed), [get_multiple_prices] still
    returns a result: every requested symbol, stripped of blanks, has the
    entry [{"error": "No data available"}], and there is no other entry. *)
Theorem get_multiple_prices_when_fetch_fails (symbols : string) (t : Tool)
  (c : Client) :
  schwab_client t = Some c ->
  fst (get_quotes_bulk repr_other (parse_symbols symbols) (tool_sys t c)) =
    Ret (JObj []) ->
  exists d,
    fst (get_multiple_prices repr_other str_exn symbols t) = Ret (JObj d) /\
    (forall symbol, In symbol (parse_symbols symbols) ->
                    Dict.get symbol d = Some no_data) /\
    (forall k, ~ In k (parse_symbols symbols) -> Dict.get k d = None).
Proof.
  intros Hc Hq.
  exists (all_no_data (parse_symbols symbols) []).
  split; [ | split].
  - unfold get_multiple_prices. rewrite Hc.
    unfold try_except, bind at 1, call_method. fold (tool_sys t c).
    destruct (get_quotes_bulk repr_other (parse_symbols symbols) (tool_sys t c))
      as [o s1]. cbn [fst] in Hq. subst o.
    unfold bind, lift. rewrite price_entries_no_quotes. reflexivity.
  - intros symbol Hin. rewrite all_no_data_get.
    assert (E : existsb (String.eqb symbol) (parse_symbols symbols) = true).
    { apply existsb_exists. exists symbol. split; [exact Hin | apply String.eqb_refl]. }
    rewrite E. reflexivity.
  - intros k Hnin. rewrite all_no_data_get.
    destruct (existsb (String.eqb k) (parse_symbols symbols)) eqn:E; [ | reflexivity].
    apply existsb_exists in E. destruct E as [x [Hin Hx]].
    apply String.eqb_eq in Hx. subst x. contradiction.
Qed.

(** X12: For a request that is answered (which takes an access token the
    library accepts in a header: [reply_to] goes through [deliver]), under
    the very text the caller gave as symbol, with a payload whose ["quote"]
    entry is a dict, [get_real_time_price] reports current_price = lastPrice, bid_price = bidPrice else lastPrice,
    ask_price = askPrice else lastPrice, high, low, volume and timestamp, each
    0 when its source field is absent, with status ["success"]. *)
Theorem get_real_time_price_reports_quote (symbol : string) (t : Tool)
  (c : Client) (r : Response) (m payload quote : dict) :
  schwab_client t = Some c ->
  Py.truthy (access_token c) = true ->
  reply_to (tool_sys t c)
    (bearer_get repr_other (quotes_url c (PyStr.upper symbol)) [] (access_token c))
    = Answer r ->
  passes r = true ->
  body r = Some (JObj m) ->
  Dict.get symbol m = Some (JObj payload) ->
  Dict.get "quote" payload = Some (JObj quote) ->
  fst (get_real_time_price repr_other str_exn symbol t) =
  Ret (JObj [("symbol", JStr symbol);
             ("current_price", first_present ["lastPrice"] quote);
             ("bid_price", first_present ["bidPrice"; "lastPrice"] quote);
             ("ask_price", first_present ["askPrice"; "lastPrice"] quote);
             ("high", first_present ["highPrice"] quote);
             ("low", first_present ["lowPrice"] quote);
             ("volume", first_present ["totalVolume"] quote);
             ("timestamp", first_present ["quoteTime"] quote);
             ("status", JStr "success")]).
Proof.
  intros Hc Ht Hr Hp Hb Hsym Hquote.
  unfold get_real_time_price. rewrite Hc.
  unfold try_except, bind at 1, call_method. fold (tool_sys t c).
  rewrite (get_quote_first_ok repr_other symbol (tool_sys t c) r m Ht Hr Hp Hb).
  rewrite Hsym.
  assert (Htruthy : Py.truthy (JObj payload) = true).
  { destruct payload; [discriminate Hquote | reflexivity]. }
  rewrite Htruthy. cbn [negb].
  unfold bind at 1, lift at 1.
  rewrite (format_quote_of_dict payload quote Hquote).
  reflexivity.
Qed.

End ToolRuns.

Lemma get_multiple_prices_when_fetch_fails_witness :
  exists d,
    fst (get_multiple_prices repr0 str_exn0 "AAPL, msft" (tool0 [answer 500 JNull])) =
      Ret (JObj d) /\
    (forall symbol, In symbol (parse_symbols "AAPL, msft") ->
                    Dict.get symbol d = Some no_data) /\
    (forall k, ~ In k (parse_symbols "AAPL, msft") -> Dict.get k d = None).
Proof.
  apply (get_multiple_prices_when_fetch_fails repr0 str_exn0 "AAPL, msft"
           (tool0 [answer 500 JNull]) client0); reflexivity.
Defined.

Lemma get_real_time_price_reports_quote_witness :
  fst (get_real_time_price repr0 str_exn0 "AAPL" (tool0 [answer 200 payload_aapl])) =
  Ret (JObj [("symbol", JStr "AAPL");
             ("current_price", JNum 150);
             ("bid_price", JNum 149);
             ("ask_price", JNum 151);
             ("high", JNum 0);
             ("low", JNum 0);
             ("volume", JNum 0);
             ("timestamp", JNum 0);
             ("status", JStr "success")]).
Proof.
  apply (get_real_time_price_reports_quote repr0 str_exn0 "AAPL"
           (tool0 [answer 200 payload_aapl]) client0
           {| status_code := 200; body := Some payload_aapl |}
           [("AAPL", JObj [("symbol", JStr "AAPL");
                           ("quote", JObj [("lastPrice", JNum 150);
                                           ("bidPrice", JNum 149);
                                           ("askPrice", JNum 151)])])]
           [("symbol", JStr "AAPL");
            ("quote", JObj [("lastPrice", JNum 150);
                            ("bidPrice", JNum 149);
                            ("askPrice", JNum 151)])]
           [("lastPrice", JNum 150); ("bidPrice", JNum 149); ("askPrice", JNum 151)]);
    reflexivity.
Defined.

(** With an access token that holds a line end the request is refused and no
    price is reported: in the middle of the token [requests] raises
    [InvalidHeader], which [get_quote] turns into [None]; at its end the
    [ValueError] of [http.client] passes through [get_quote] and is caught
    here. *)
Example get_real_time_price_token_with_line_end :
  let tool token :=
    {| schwab_client :=
         Some {| base_url := "https://api.schwabapi.com";
                 client_id := "id"; client_secret := "secret";
                 access_token := JStr token; refresh_token := JStr "r0" |};
       tool_net := {| server := stub [answer 200 payload_aapl]; sent := [] |};
       tool_refresh_calls := 0 |} in
  fst (get_real_time_price repr0 str_exn0 "AAPL" (tool ("a" ++ newline ++ "b"))) =
    Ret (error_dict "No quote data available for AAPL") /\
  fst (get_real_time_price repr0 (fun _ => "Invalid header value") "AAPL"
         (tool ("a" ++ newline))) =
    Ret (error_dict "Failed to fetch price for AAPL: Invalid header value").
Proof. repeat split. Qed.

(** * The scripts *)

(** ** [update_env_file] at the edges *)

Section EnvEdges.

Variable repr_other : json -> string.

(** X13: Without a file [.env], [update_env_file] raises [FileNotFoundError] and
    creates nothing. *)
Theorem update_env_file_missing_file (access refresh : json) (s : Script) :
  env_file s = None ->
  update_env_file repr_other access refresh s = (Raise FileNotFoundError, s).
Proof.
  intros Hn. unfold update_env_file, bind, read_env_lines. rewrite Hn. reflexivity.
Qed.

Lemma rewritten_without_token_lines (a r : string) (lines out : list string) :
  Forall (fun line => is_token_line line = false) lines ->
  Forall2 (env_line_rewritten a r) lines out ->
  out = lines.
Proof.
  intros Hno Hall. induction Hall as [| old new lines out Hrw Hrest IH];
    [reflexivity | ].
  inversion Hno as [| ? ? Hold Hlines]; subst.
  unfold is_token_line in Hold. apply orb_false_iff in Hold.
  destruct Hold as [Ha Hr]. unfold env_line_rewritten in Hrw.
  rewrite Ha, Hr in Hrw. subst new. rewrite (IH Hlines). reflexivity.
Qed.

(** X14: When no line of [.env] begins with [SCHWAB_ACCESS_TOKEN=] or
    [SCHWAB_REFRESH_TOKEN=], [update_env_file] writes the file back as it
    was: it adds no line, so the new tokens are not stored. *)
Theorem update_env_file_without_token_lines (access refresh : json)
  (s : Script) (lines : list string) :
  env_file s = Some lines ->
  Forall (fun line => is_token_line line = false) lines ->
  update_env_file repr_other access refresh s = (Ret tt, s).
Proof.
  intros Hs Hno.
  destruct (update_env_file_run repr_other access refresh s lines Hs)
    as [out [Hrun Hall]].
  rewrite Hrun, (rewritten_without_token_lines _ _ lines out Hno Hall).
  unfold with_env_file. rewrite <- Hs. destruct s; reflexivity.
Qed.

Lemma startswith_app (p rest : string) : PyStr.startswith (p ++ rest) p = true.
Proof.
  induction p as [| c p IH]; [destruct rest; reflexivity | ].
  cbn. rewrite Ascii.eqb_refl. exact IH.
Qed.

Lemma rewritten_twice (a r : string) (lines out out2 : list string) :
  Forall2 (env_line_rewritten a r) lines out ->
  Forall2 (env_line_rewritten a r) out out2 ->
  out2 = out.
Proof.
  intros H1. revert out2.
  induction H1 as [| old new lines out Hrw Hrest IH]; intros out2 H2.
  - inversion H2. reflexivity.
  - inversion H2 as [| ? new2 ? out2' Hrw2 Hrest2]; subst.
    rewrite (IH out2' Hrest2). f_equal.
    unfold env_line_rewritten in Hrw, Hrw2.
    destruct (PyStr.startswith old "SCHWAB_ACCESS_TOKEN=") eqn:Ea.
    + subst new. rewrite startswith_app in Hrw2. exact Hrw2.
    + destruct (PyStr.startswith old "SCHWAB_REFRESH_TOKEN=") eqn:Er.
      * subst new.
        rewrite (refresh_line_is_no_access_line _ (startswith_app _ _)) in Hrw2.
        rewrite startswith_app in Hrw2. exact Hrw2.
      * subst new. rewrite Ea, Er in Hrw2. exact Hrw2.
Qed.

Lemma translate_no_cr_bounded (n : nat) :
  forall s, (String.length s <= n)%nat -> no_cr (TextFile.translate s) = true.
Proof.
  induction n as [| n IH]; intros s Hlen.
  - destruct s; [reflexivity | cbn in Hlen; lia].
  - destruct s as [| c r]; [reflexivity | ].
    cbn [String.length] in Hlen. cbn [TextFile.translate].
    destruct (Ascii.eqb c PyStr.cr) eqn:Ec.
    + cbn [no_cr]. change (Ascii.eqb PyStr.lf PyStr.cr) with false. cbn [negb andb].
      destruct r as [| c' r']; [reflexivity | ].
      cbn [String.length] in Hlen.
      destruct (Ascii.eqb c' PyStr.lf); apply IH; cbn [String.length]; lia.
    + cbn [no_cr]. rewrite Ec. cbn [negb andb]. apply IH. lia.
Qed.

(** What is read holds no CR. *)
Lemma translate_no_cr (s : string) : no_cr (TextFile.translate s) = true.
Proof. apply (translate_no_cr_bounded (String.length s)). apply le_n. Qed.

Lemma is_empty_eq (s : string) : Http.is_empty s = true -> s = EmptyString.
Proof. destruct s; [reflexivity | discriminate]. Qed.

Lemma cut_is_lines (s : string) :
  no_cr s = true -> is_lines (TextFile.cut s) = true.
Proof.
  induction s as [| c r IH]; [reflexivity | ].
  cbn [no_cr TextFile.cut]. intros H. apply andb_true_iff in H.
  destruct H as [Hc Hr]. specialize (IH Hr). apply negb_true_iff in Hc.
  destruct (Ascii.eqb c PyStr.lf) eqn:El.
  - cbn [is_lines full_line]. rewrite El. cbn [Http.is_empty orb andb]. exact IH.
  - assert (Hfl : forall l, full_line (String c l) = full_line l).
    { intros l. cbn [full_line]. rewrite El, Hc. reflexivity. }
    assert (Hol : forall l, PyStr.plain l = true -> open_line (String c l) = true).
    { intros l Hl. unfold open_line. cbn [Http.is_empty negb andb PyStr.plain].
      unfold PyStr.plain_char. rewrite El, Hc, Hl. reflexivity. }
    destruct (TextFile.cut r) as [| l ls].
    + cbn [is_lines]. rewrite (Hol EmptyString eq_refl), orb_true_r. reflexivity.
    + cbn [is_lines] in IH |- *. rewrite Hfl.
      apply andb_true_iff in IH. destruct IH as [Hx Hls]. rewrite Hls, andb_true_r.
      apply orb_true_iff in Hx. destruct Hx as [Hf | Ho];
        [rewrite Hf; reflexivity | ].
      destruct ls as [| l' ls']; [ | discriminate Ho].
      unfold open_line in Ho. apply andb_true_iff in Ho. destruct Ho as [_ Hp].
      rewrite (Hol l Hp). apply orb_true_r.
Qed.

(** [readlines()] gives lines. *)
Lemma readlines_is_lines (text : string) :
  is_lines (TextFile.readlines text) = true.
Proof. apply cut_is_lines, translate_no_cr. Qed.

Lemma cut_full_line (x rest : string) :
  full_line x = true -> TextFile.cut (x ++ rest) = x :: TextFile.cut rest.
Proof.
  induction x as [| c r IH]; [discriminate | ].
  cbn [full_line append TextFile.cut].
  destruct (Ascii.eqb c PyStr.lf) eqn:El.
  - intros He. rewrite (is_empty_eq r He). reflexivity.
  - intros H. apply andb_true_iff in H. destruct H as [_ Hr].
    rewrite (IH Hr). reflexivity.
Qed.

Lemma cut_open_line (x : string) :
  open_line x = true -> TextFile.cut x = [x].
Proof.
  unfold open_line. induction x as [| c r IH]; [discriminate | ].
  cbn [Http.is_empty negb andb PyStr.plain TextFile.cut].
  unfold PyStr.plain_char. intros H. apply andb_true_iff in H.
  destruct H as [Hc Hr]. apply negb_true_iff, orb_false_iff in Hc.
  destruct Hc as [El _]. rewrite El.
  destruct r as [| c' r']; [reflexivity | ].
  rewrite (IH Hr). reflexivity.
Qed.

Lemma translate_full_line (x rest : string) :
  full_line x = true ->
  TextFile.translate (x ++ rest) = x ++ TextFile.translate rest.
Proof.
  induction x as [| c r IH]; [discriminate | ].
  cbn [full_line append].
  destruct (Ascii.eqb c PyStr.lf) eqn:El.
  - intros He. rewrite (is_empty_eq r He).
    apply Ascii.eqb_eq in El. subst c. reflexivity.
  - intros H. apply andb_true_iff in H. destruct H as [Hc Hr].
    apply negb_true_iff in Hc. cbn [TextFile.translate]. rewrite Hc.
    rewrite (IH Hr). reflexivity.
Qed.

Lemma translate_plain (x : string) :
  PyStr.plain x = true -> TextFile.translate x = x.
Proof.
  induction x as [| c r IH]; [reflexivity | ].
  cbn [PyStr.plain TextFile.translate]. unfold PyStr.plain_char.
  intros H. apply andb_true_iff in H. destruct H as [Hc Hr].
  apply negb_true_iff, orb_false_iff in Hc. destruct Hc as [_ Ec].
  rewrite Ec, (IH Hr). reflexivity.
Qed.

Lemma append_empty (x : string) : x ++ EmptyString = x.
Proof. induction x as [| c r IH]; [reflexivity | cbn; rewrite IH; reflexivity]. Qed.

(** Lines written one after the other are read back as they were. *)
Lemma readlines_text_of (l : list string) :
  is_lines l = true -> TextFile.readlines (TextFile.text_of l) = l.
Proof.
  unfold TextFile.readlines.
  assert (Ht : is_lines l = true ->
               TextFile.translate (TextFile.text_of l) = TextFile.text_of l).
  { induction l as [| x r IH]; [reflexivity | ].
    cbn [is_lines TextFile.text_of fold_right]. intros H.
    apply andb_true_iff in H. destruct H as [Hx Hr].
    fold (TextFile.text_of r).
    apply orb_true_iff in Hx. destruct Hx as [Hf | Ho].
    - rewrite (translate_full_line x _ Hf), (IH Hr). reflexivity.
    - destruct r as [| y r']; [ | discriminate Ho].
      cbn [TextFile.text_of fold_right]. rewrite append_empty.
      apply translate_plain. unfold open_line in Ho.
      apply andb_true_iff in Ho. apply Ho. }
  intros Hl. rewrite (Ht Hl). clear Ht.
  induction l as [| x r IH]; [reflexivity | ].
  cbn [is_lines TextFile.text_of fold_right] in Hl |- *.
  apply andb_true_iff in Hl. destruct Hl as [Hx Hr].
  fold (TextFile.text_of r).
  apply orb_true_iff in Hx. destruct Hx as [Hf | Ho].
  - rewrite (cut_full_line x _ Hf), (IH Hr). reflexivity.
  - destruct r as [| y r']; [ | discriminate Ho].
    cbn [TextFile.text_of fold_right]. rewrite append_empty.
    apply cut_open_line. exact Ho.
Qed.

Lemma full_line_app_newline (p : string) :
  PyStr.plain p = true -> full_line (p ++ newline) = true.
Proof.
  induction p as [| c r IH]; [reflexivity | ].
  cbn [PyStr.plain append full_line]. unfold PyStr.plain_char.
  intros H. apply andb_true_iff in H. destruct H as [Hc Hr].
  apply negb_true_iff, orb_false_iff in Hc. destruct Hc as [El Ec].
  rewrite El, Ec. apply IH. exact Hr.
Qed.

Lemma append_assoc (a b c : string) : (a ++ b) ++ c = a ++ b ++ c.
Proof. induction a as [| x a IH]; [reflexivity | cbn; rewrite IH; reflexivity]. Qed.

Lemma rewritten_full_line (a r old new : string) :
  PyStr.plain a = true -> PyStr.plain r = true ->
  env_line_rewritten a r old new ->
  full_line old = true -> full_line new = true.
Proof.
  intros Ha Hr Hrw Hold. unfold env_line_rewritten in Hrw.
  destruct (PyStr.startswith old "SCHWAB_ACCESS_TOKEN=").
  - subst new. rewrite <- append_assoc. apply full_line_app_newline.
    rewrite plain_app, Ha. reflexivity.
  - destruct (PyStr.startswith old "SCHWAB_REFRESH_TOKEN=").
    + subst new. rewrite <- append_assoc. apply full_line_app_newline.
      rewrite plain_app, Hr. reflexivity.
    + subst new. exact Hold.
Qed.

Lemma rewritten_last_line (a r old new : string) :
  PyStr.plain a = true -> PyStr.plain r = true ->
  env_line_rewritten a r old new ->
  open_line old = true -> full_line new || open_line new = true.
Proof.
  intros Ha Hr Hrw Hold. unfold env_line_rewritten in Hrw.
  destruct (PyStr.startswith old "SCHWAB_ACCESS_TOKEN=").
  - subst new. rewrite <- append_assoc, full_line_app_newline; [reflexivity | ].
    rewrite plain_app, Ha. reflexivity.
  - destruct (PyStr.startswith old "SCHWAB_REFRESH_TOKEN=").
    + subst new. rewrite <- append_assoc, full_line_app_newline; [reflexivity | ].
      rewrite plain_app, Hr. reflexivity.
    + subst new. rewrite Hold. apply orb_true_r.
Qed.

(** With tokens that hold no line end, the rewrite of lines gives lines. *)
Lemma rewritten_is_lines (a r : string) (lines out : list string) :
  PyStr.plain a = true -> PyStr.plain r = true ->
  Forall2 (env_line_rewritten a r) lines out ->
  is_lines lines = true -> is_lines out = true.
Proof.
  intros Ha Hr Hall.
  induction Hall as [| old new lines out Hrw Hrest IH]; [reflexivity | ].
  cbn [is_lines]. intros H. apply andb_true_iff in H. destruct H as [Hx Hl].
  rewrite (IH Hl), andb_true_r.
  apply orb_true_iff in Hx. destruct Hx as [Hf | Ho].
  - rewrite (rewritten_full_line a r old new Ha Hr Hrw Hf). reflexivity.
  - destruct lines as [| y lines']; [ | discriminate Ho].
    inversion Hrest; subst.
    apply (rewritten_last_line a r old new Ha Hr Hrw Ho).
Qed.

(** X15: for tokens whose text holds no CR and no LF, and a file [.env] as a
    starting script reads it, what [update_env_file] writes is read back by
    the next process line for line as it was written, and a second run with
    the same tokens leaves it so: the lines written the first time keep
    their keys and are rewritten to themselves. *)
Theorem update_env_file_idempotent (access refresh : json) (s s1 : Script)
  (text : string) :
  PyStr.plain (py_str repr_other access) = true ->
  PyStr.plain (py_str repr_other refresh) = true ->
  env_file s = Some (TextFile.readlines text) ->
  update_env_file repr_other access refresh s = (Ret tt, s1) ->
  reopened s1 = s1 /\
  update_env_file repr_other access refresh (reopened s1) = (Ret tt, reopened s1).
Proof.
  intros Ha Hr Hs Hrun1.
  destruct (update_env_file_run repr_other access refresh s _ Hs)
    as [out [Hrun Hall]].
  rewrite Hrun in Hrun1. injection Hrun1 as <-.
  assert (Hout : is_lines out = true).
  { apply (rewritten_is_lines _ _ _ _ Ha Hr Hall), readlines_is_lines. }
  assert (Hre : reopened (with_env_file s out) = with_env_file s out).
  { unfold reopened, with_env_file. cbn [env_file script_net stdin option_map].
    rewrite (readlines_text_of out Hout). reflexivity. }
  split; [exact Hre | ]. rewrite Hre.
  destruct (update_env_file_run repr_other access refresh
              (with_env_file s out) out eq_refl) as [out2 [Hrun2 Hall2]].
  rewrite Hrun2, (rewritten_twice _ _ _ out out2 Hall Hall2). reflexivity.
Qed.

End EnvEdges.

Lemma update_env_file_missing_file_witness :
  update_env_file repr0 (JStr "a1") (JStr "r1")
    {| script_net := {| server := stub []; sent := [] |};
       env_file := None; stdin := [] |} =
  (Raise FileNotFoundError,
   {| script_net := {| server := stub []; sent := [] |};
      env_file := None; stdin := [] |}).
Proof.
  apply (update_env_file_missing_file repr0 (JStr "a1") (JStr "r1")
           {| script_net := {| server := stub []; sent := [] |};
              env_file := None; stdin := [] |}).
  reflexivity.
Defined.

Lemma update_env_file_without_token_lines_witness :
  update_env_file repr0 (JStr "a1") (JStr "r1")
    (script0 [] ["SCHWAB_CLIENT_ID=id" ++ newline; "SCHWAB_CLIENT_SECRET=secret"] []) =
  (Ret tt,
   script0 [] ["SCHWAB_CLIENT_ID=id" ++ newline; "SCHWAB_CLIENT_SECRET=secret"] []).
Proof.
  apply (update_env_file_without_token_lines repr0 (JStr "a1") (JStr "r1")
           (script0 [] ["SCHWAB_CLIENT_ID=id" ++ newline; "SCHWAB_CLIENT_SECRET=secret"] [])
           ["SCHWAB_CLIENT_ID=id" ++ newline; "SCHWAB_CLIENT_SECRET=secret"]).
  - reflexivity.
  - repeat constructor.
Defined.

Lemma update_env_file_idempotent_witness :
  reopened (snd (update_env_file repr0 (JStr "a1") (JStr "r1")
                   (script0 [] env_lines0 []))) =
    snd (update_env_file repr0 (JStr "a1") (JStr "r1") (script0 [] env_lines0 [])) /\
  update_env_file repr0 (JStr "a1") (JStr "r1")
    (reopened (snd (update_env_file repr0 (JStr "a1") (JStr "r1")
                      (script0 [] env_lines0 [])))) =
  (Ret tt,
   reopened (snd (update_env_file repr0 (JStr "a1") (JStr "r1")
                    (script0 [] env_lines0 [])))).
Proof.
  apply (update_env_file_idempotent repr0 (JStr "a1") (JStr "r1")
           (script0 [] env_lines0 []) _ (TextFile.text_of env_lines0));
    reflexivity.
Defined.

(** Without that condition the second run is no repetition of the first: an
    access token holding a line end is written as one chunk and read back as
    two lines, and the second run writes one line more. *)
Example update_env_file_token_with_line_end :
  let token := JStr ("a" ++ newline ++ "b") in
  let s := script0 [] ["SCHWAB_ACCESS_TOKEN=a0" ++ newline] [] in
  let s1 := snd (update_env_file repr0 token (JStr "r1") s) in
  env_file s1 = Some ["SCHWAB_ACCESS_TOKEN=a" ++ newline ++ "b" ++ newline] /\
  env_file (reopened s1) =
    Some ["SCHWAB_ACCESS_TOKEN=a" ++ newline; "b" ++ newline] /\
  option_map TextFile.text_of
    (env_file (snd (update_env_file repr0 token (JStr "r1") (reopened s1)))) =
    Some ("SCHWAB_ACCESS_TOKEN=a" ++ newline ++ "b" ++ newline ++ "b" ++ newline).
Proof. repeat split. Qed.

(** ** What a step of a script leaves alone *)

Lemma leaves_ret {S X A} (f : S -> X) (a : A) : leaves f (@ret S A a).
Proof. intros s. reflexivity. Qed.

Lemma leaves_raise {S X A} (f : S -> X) (e : exn) : leaves f (@raise S A e).
Proof. intros s. reflexivity. Qed.

Lemma leaves_lift {S X A} (f : S -> X) (o : outcome A) : leaves f (@lift S A o).
Proof. intros s. reflexivity. Qed.

Lemma leaves_bind {S X A B} (f : S -> X) (m : M S A) (k : A -> M S B) :
  leaves f m -> (forall a, leaves f (k a)) -> leaves f (bind m k).
Proof.
  intros Hm Hk s. specialize (Hm s). unfold bind.
  destruct (m s) as [[a | e] s1]; cbn [snd] in *; [ | exact Hm].
  rewrite Hk. exact Hm.
Qed.

Lemma leaves_try_except {S X A} (f : S -> X) (m : M S A) (catches : exn -> bool)
  (h : exn -> M S A) :
  leaves f m -> (forall e, leaves f (h e)) -> leaves f (try_except m catches h).
Proof.
  intros Hm Hh s. specialize (Hm s). unfold try_except.
  destruct (m s) as [[a | e] s1]; cbn [snd] in *; [exact Hm | ].
  destruct (catches e); [rewrite Hh | ]; exact Hm.
Qed.

Lemma leaves_for_each {S X A} (f : S -> X) (l : list A) (body : A -> M S unit) :
  (forall a, leaves f (body a)) -> leaves f (for_each l body).
Proof.
  intros Hb. induction l as [| a l IH]; [apply leaves_ret | ].
  cbn [for_each]. apply leaves_bind; [apply Hb | intros _; exact IH].
Qed.

Lemma leaves_raise_for_status {S X} (f : S -> X) r : leaves f (@raise_for_status S r).
Proof.
  unfold raise_for_status.
  destruct ((400 <=? status_code r) && (status_code r <? 600));
    [apply leaves_raise | apply leaves_ret].
Qed.

Lemma leaves_response_json {S X} (f : S -> X) r : leaves f (@response_json S r).
Proof.
  unfold response_json. destruct (body r); [apply leaves_ret | apply leaves_raise].
Qed.

Lemma input_leaves_net : leaves script_net input.
Proof. intros s. unfold input. destruct (stdin s); reflexivity. Qed.

Lemma f_write_leaves_net chunk : leaves script_net (f_write chunk).
Proof. intros s. reflexivity. Qed.

Lemma read_env_lines_leaves {X} (f : Script -> X) : leaves f read_env_lines.
Proof. intros s. unfold read_env_lines. destruct (env_file s); reflexivity. Qed.

Lemma open_env_w_leaves_net : leaves script_net open_env_w.
Proof. intros s. reflexivity. Qed.

Lemma update_env_file_leaves_net repr_other a r :
  leaves script_net (update_env_file repr_other a r).
Proof.
  unfold update_env_file.
  apply leaves_bind; [apply read_env_lines_leaves | intros lines].
  apply leaves_bind; [apply open_env_w_leaves_net | intros _].
  apply leaves_for_each. intros line.
  destruct (PyStr.startswith line "SCHWAB_ACCESS_TOKEN=");
    [ | destruct (PyStr.startswith line "SCHWAB_REFRESH_TOKEN=")];
    apply f_write_leaves_net.
Qed.

Lemma rewrite_env_lines_leaves_net repr_other tokens rt lines :
  leaves script_net (rewrite_env_lines repr_other tokens rt lines).
Proof.
  unfold rewrite_env_lines. apply leaves_for_each. intros line.
  destruct (PyStr.startswith line "SCHWAB_ACCESS_TOKEN=");
    [ | destruct (PyStr.startswith line "SCHWAB_REFRESH_TOKEN=")];
    try apply f_write_leaves_net;
    (apply leaves_bind; [apply leaves_lift | intros ?; apply f_write_leaves_net]).
Qed.

Lemma exchange_continue_leaves_net repr_other response :
  leaves script_net (exchange_continue repr_other response).
Proof.
  unfold exchange_continue.
  apply leaves_bind; [apply leaves_raise_for_status | intros _].
  apply leaves_bind; [apply leaves_response_json | intros tokens].
  do 3 (apply leaves_bind; [apply leaves_lift | intros _]).
  apply leaves_bind; [apply input_leaves_net | intros update].
  apply leaves_bind; [ | intros _; apply leaves_ret].
  destruct (String.eqb (PyStr.lower (PyStr.strip update)) "y");
    [ | apply leaves_ret].
  do 2 (apply leaves_bind; [apply leaves_lift | intros ?]).
  apply update_env_file_leaves_net.
Qed.

(** ** [exchange_code_for_tokens] *)

Lemma script_post_answer (s : Script) (u : string) (h : list (string * string))
  (d : list (string * json)) (r : Response) :
  Http.check h = None ->
  server (script_net s) (sent (script_net s))
    {| meth := POST; url := u; headers := h; params := []; data := d |} = Answer r ->
  script_post u h d s =
  (Ret r, script_after_send s
            {| meth := POST; url := u; headers := h; params := []; data := d |}).
Proof.
  intros Hc Hr. unfold script_post, send, deliver. cbn [headers].
  rewrite Hc, Hr. reflexivity.
Qed.

Lemma script_post_refused (s : Script) (u : string) (h : list (string * string))
  (d : list (string * json)) :
  Http.check h = None ->
  server (script_net s) (sent (script_net s))
    {| meth := POST; url := u; headers := h; params := []; data := d |} = Refused ->
  script_post u h d s =
  (Raise ConnectionError,
   script_after_send s
     {| meth := POST; url := u; headers := h; params := []; data := d |}).
Proof.
  intros Hc Hr. unfold script_post, send, deliver, refusal. cbn [headers].
  rewrite Hc, Hr. reflexivity.
Qed.

Lemma script_post_no_answer (s : Script) (u : string) (h : list (string * string))
  (d : list (string * json)) :
  Http.check h = None ->
  server (script_net s) (sent (script_net s))
    {| meth := POST; url := u; headers := h; params := []; data := d |} = NoAnswer ->
  script_post u h d s =
  (Raise ConnectionError,
   script_after_send s
     {| meth := POST; url := u; headers := h; params := []; data := d |}).
Proof.
  intros Hc Hr. unfold script_post, send, deliver. cbn [headers].
  rewrite Hc, Hr. reflexivity.
Qed.

Section Exchange.

Variable repr_other : json -> string.
Variables CLIENT_ID CLIENT_SECRET : option string.
Variable auth_code : string.

Lemma exchange_shape (s : Script) :
  exchange_code_for_tokens repr_other CLIENT_ID CLIENT_SECRET auth_code s =
  try_except
    (bind (script_post
             (url (exchange_request CLIENT_ID CLIENT_SECRET auth_code))
             (headers (exchange_request CLIENT_ID CLIENT_SECRET auth_code))
             (data (exchange_request CLIENT_ID CLIENT_SECRET auth_code)))
          (exchange_continue repr_other))
    is_RequestException (fun _ => ret JNull) s.
Proof. reflexivity. Qed.

Lemma exchange_answered (s : Script) (r : Response) :
  server (script_net s) (sent (script_net s))
    (exchange_request CLIENT_ID CLIENT_SECRET auth_code) = Answer r ->
  exchange_code_for_tokens repr_other CLIENT_ID CLIENT_SECRET auth_code s =
  try_except (exchange_continue repr_other r) is_RequestException
    (fun _ => ret JNull)
    (script_after_send s (exchange_request CLIENT_ID CLIENT_SECRET auth_code)).
Proof.
  intros Hr. rewrite exchange_shape. unfold try_except at 1, bind at 1.
  cbn [url headers data exchange_request].
  rewrite (script_post_answer s _ _ _ r (check_basic_auth_headers _ _) Hr). reflexivity.
Qed.

(** X17: The exchange returns [None] when the token endpoint gives no answer,
    answers with a 4xx or 5xx status, or answers with a body that is not
    JSON; it has sent its one request, has not prompted the operator and has
    not touched [.env]. *)
Theorem exchange_failure_returns_None (s : Script) :
  server (script_net s) (sent (script_net s))
    (exchange_request CLIENT_ID CLIENT_SECRET auth_code) = NoAnswer \/
  (exists r,
     server (script_net s) (sent (script_net s))
       (exchange_request CLIENT_ID CLIENT_SECRET auth_code) = Answer r /\
     (passes r = false \/ body r = None)) ->
  exchange_code_for_tokens repr_other CLIENT_ID CLIENT_SECRET auth_code s =
  (Ret JNull,
   script_after_send s (exchange_request CLIENT_ID CLIENT_SECRET auth_code)).
Proof.
  intros [Hn | [r [Hr Hcase]]].
  - rewrite exchange_shape. unfold try_except, bind at 1.
    cbn [url headers data exchange_request].
    rewrite (script_post_no_answer s _ _ _ (check_basic_auth_headers _ _) Hn). reflexivity.
  - rewrite (exchange_answered s r Hr).
    unfold try_except, exchange_continue, bind at 1, raise_for_status.
    destruct (passes r) eqn:Hp.
    + destruct Hcase as [Hf | Hb]; [discriminate Hf | ].
      unfold passes in Hp. apply negb_true_iff in Hp. rewrite Hp.
      unfold ret at 1. unfold bind at 1, response_json. rewrite Hb. reflexivity.
    + unfold passes in Hp. apply negb_false_iff in Hp. rewrite Hp. reflexivity.
Qed.

Lemma exchange_continue_dict (r : Response) (m : dict) (s : Script) :
  passes r = true -> body r = Some (JObj m) ->
  exchange_continue repr_other r s =
  (_ <- lift (Py.getitem (JObj m) "access_token") ;;
   _ <- lift (Py.getitem (JObj m) "refresh_token") ;;
   _ <- lift (Py.get (JObj m) "expires_in" Py.zero) ;;
   update <- input ;;
   (if String.eqb (PyStr.lower (PyStr.strip update)) "y"
    then
      a <- lift (Py.getitem (JObj m) "access_token") ;;
      r <- lift (Py.getitem (JObj m) "refresh_token") ;;
      update_env_file repr_other a r
    else ret tt) ;;
   ret (JObj m)) s.
Proof.
  intros Hp Hb. unfold exchange_continue, bind at 1, raise_for_status.
  unfold passes in Hp. apply negb_true_iff in Hp. rewrite Hp.
  unfold ret at 1. unfold bind at 1, response_json. rewrite Hb. reflexivity.
Qed.

Lemma status_2xx_passes (r : Response) :
  200 <= status_code r < 300 -> passes r = true.
Proof.
  intros H. unfold passes. apply negb_true_iff, andb_false_iff. left.
  apply Z.leb_gt. lia.
Qed.

(** X18: A 2xx token response that lacks [access_token], or has it and lacks
    [refresh_token], makes the exchange raise [KeyError] for the missing key;
    the operator is not prompted and [.env] is not touched. *)
Theorem exchange_missing_token_raises_KeyError (s : Script) (r : Response)
  (m : dict) :
  server (script_net s) (sent (script_net s))
    (exchange_request CLIENT_ID CLIENT_SECRET auth_code) = Answer r ->
  200 <= status_code r < 300 ->
  body r = Some (JObj m) ->
  (Dict.get "access_token" m = None ->
   exchange_code_for_tokens repr_other CLIENT_ID CLIENT_SECRET auth_code s =
   (Raise (KeyError "access_token"),
    script_after_send s (exchange_request CLIENT_ID CLIENT_SECRET auth_code))) /\
  (Dict.get "access_token" m <> None ->
   Dict.get "refresh_token" m = None ->
   exchange_code_for_tokens repr_other CLIENT_ID CLIENT_SECRET auth_code s =
   (Raise (KeyError "refresh_token"),
    script_after_send s (exchange_request CLIENT_ID CLIENT_SECRET auth_code))).
Proof.
  intros Hr Hst Hb.
  rewrite (exchange_answered s r Hr). unfold try_except.
  rewrite (exchange_continue_dict r m _ (status_2xx_passes r Hst) Hb).
  split.
  - intros Ha. unfold bind, lift. cbn [Py.getitem]. rewrite Ha. reflexivity.
  - intros Ha Hrt. unfold bind, lift. cbn [Py.getitem].
    destruct (Dict.get "access_token" m); [ | congruence].
    rewrite Hrt. reflexivity.
Qed.

(** X19: A 2xx token response with both tokens: the exchange prompts once. When
    the answer, stripped and lowercased, is not [y], the tokens are returned
    and [.env] is left alone; when it is [y] and [.env] exists, the tokens
    are returned and [.env] is rewritten line by line with the two tokens of
    the response. *)
Theorem exchange_success (s : Script) (r : Response) (m : dict)
  (a rt : json) (typed : string) (rest : list string) :
  server (script_net s) (sent (script_net s))
    (exchange_request CLIENT_ID CLIENT_SECRET auth_code) = Answer r ->
  200 <= status_code r < 300 ->
  body r = Some (JObj m) ->
  Dict.get "access_token" m = Some a ->
  Dict.get "refresh_token" m = Some rt ->
  stdin s = typed :: rest ->
  (says_yes typed = false ->
   exchange_code_for_tokens repr_other CLIENT_ID CLIENT_SECRET auth_code s =
   (Ret (JObj m),
    script_after_input
      (script_after_send s (exchange_request CLIENT_ID CLIENT_SECRET auth_code)))) /\
  (says_yes typed = true ->
   forall lines, env_file s = Some lines ->
   exists out,
     exchange_code_for_tokens repr_other CLIENT_ID CLIENT_SECRET auth_code s =
     (Ret (JObj m),
      with_env_file
        (script_after_input
           (script_after_send s (exchange_request CLIENT_ID CLIENT_SECRET auth_code)))
        out) /\
     Forall2 (env_line_rewritten (py_str repr_other a) (py_str repr_other rt))
       lines out).
Proof.
  intros Hr Hst Hb Ha Hrt Hin.
  rewrite (exchange_answered s r Hr). unfold try_except.
  rewrite (exchange_continue_dict r m _ (status_2xx_passes r Hst) Hb).
  set (s1 := script_after_send s (exchange_request CLIENT_ID CLIENT_SECRET auth_code)).
  assert (Hinput : input s1 = (Ret typed, script_after_input s1)).
  { unfold input, script_after_input, s1, script_after_send. cbn [stdin].
    rewrite Hin. reflexivity. }
  split.
  - intros Hno. unfold says_yes in Hno.
    unfold bind, lift. cbn [Py.getitem Py.get].
    rewrite Ha, Hrt.
    destruct (Dict.get "expires_in" m); rewrite Hinput, Hno; reflexivity.
  - intros Hyes lines Hlines. unfold says_yes in Hyes.
    destruct (update_env_file_run repr_other a rt
                (script_after_input s1) lines Hlines)
      as [out [Hrun Hall]].
    exists out. split; [ | exact Hall].
    unfold bind, lift. cbn [Py.getitem Py.get].
    rewrite Ha, Hrt.
    destruct (Dict.get "expires_in" m); rewrite Hinput, Hyes, Hrun; reflexivity.
Qed.

(** X16: The request of the exchange carries the credentials as
    [Basic base64(id:secret)] and not in the body, whose fields are the grant
    type, the code and the registered redirect URI; whatever the answer, the
    exchange sends this one request and no other. *)
Theorem exchange_sends_one_basic_auth_request :
  header "Authorization"
    (headers (exchange_request CLIENT_ID CLIENT_SECRET auth_code)) =
    Some ("Basic " ++ Base64.b64encode
                        (PyStr.fmt_opt CLIENT_ID ++ ":" ++ PyStr.fmt_opt CLIENT_SECRET)) /\
  Dict.keys (data (exchange_request CLIENT_ID CLIENT_SECRET auth_code)) =
    ["grant_type"; "code"; "redirect_uri"] /\
  Dict.get "grant_type" (data (exchange_request CLIENT_ID CLIENT_SECRET auth_code)) =
    Some (JStr "authorization_code") /\
  Dict.get "code" (data (exchange_request CLIENT_ID CLIENT_SECRET auth_code)) =
    Some (JStr auth_code) /\
  (forall s,
     sent (script_net
             (snd (exchange_code_for_tokens repr_other CLIENT_ID CLIENT_SECRET
                     auth_code s))) =
     (sent (script_net s) ++ [exchange_request CLIENT_ID CLIENT_SECRET auth_code])%list).
Proof.
  repeat split.
  intros s.
  destruct (server (script_net s) (sent (script_net s))
              (exchange_request CLIENT_ID CLIENT_SECRET auth_code)) as [r | | ] eqn:Hr.
  - rewrite (exchange_answered s r Hr).
    assert (Hl : leaves script_net
                   (try_except (exchange_continue repr_other r) is_RequestException
                      (fun _ => ret JNull))).
    { apply leaves_try_except;
        [apply exchange_continue_leaves_net | intros e; apply leaves_ret]. }
    rewrite Hl. reflexivity.
  - rewrite exchange_shape. unfold try_except, bind at 1.
    cbn [url headers data exchange_request].
    rewrite (script_post_no_answer s _ _ _ (check_basic_auth_headers _ _) Hr). reflexivity.
  - rewrite exchange_shape. unfold try_except, bind at 1.
    cbn [url headers data exchange_request].
    rewrite (script_post_refused s _ _ _ (check_basic_auth_headers _ _) Hr). reflexivity.
Qed.

End Exchange.

Lemma exchange_failure_returns_None_witness :
  exchange_code_for_tokens repr0 (Some "id") (Some "secret") "code0"
    (script0 [answer 400 (JObj [("error", JStr "invalid_grant")])] env_lines0 ["y"]) =
  (Ret JNull,
   script_after_send
     (script0 [answer 400 (JObj [("error", JStr "invalid_grant")])] env_lines0 ["y"])
     exchange_req0).
Proof.
  apply (exchange_failure_returns_None repr0 (Some "id") (Some "secret") "code0"
           (script0 [answer 400 (JObj [("error", JStr "invalid_grant")])]
              env_lines0 ["y"])).
  right.
  exists {| status_code := 400; body := Some (JObj [("error", JStr "invalid_grant")]) |}.
  split; [reflexivity | left; reflexivity].
Defined.

Lemma exchange_missing_token_raises_KeyError_witness :
  exchange_code_for_tokens repr0 (Some "id") (Some "secret") "code0"
    (script0 [answer 200 (JObj tokens_without_access)] env_lines0 ["y"]) =
  (Raise (KeyError "access_token"),
   script_after_send
     (script0 [answer 200 (JObj tokens_without_access)] env_lines0 ["y"])
     exchange_req0) /\
  exchange_code_for_tokens repr0 (Some "id") (Some "secret") "code0"
    (script0 [answer 200 (JObj tokens_a1)] env_lines0 ["y"]) =
  (Raise (KeyError "refresh_token"),
   script_after_send
     (script0 [answer 200 (JObj tokens_a1)] env_lines0 ["y"]) exchange_req0).
Proof.
  split.
  - apply (proj1 (exchange_missing_token_raises_KeyError repr0 (Some "id")
                    (Some "secret") "code0"
                    (script0 [answer 200 (JObj tokens_without_access)] env_lines0 ["y"])
                    {| status_code := 200; body := Some (JObj tokens_without_access) |}
                    tokens_without_access eq_refl
                    ltac:(cbn; lia)
                    eq_refl)).
    reflexivity.
  - apply (proj2 (exchange_missing_token_raises_KeyError repr0 (Some "id")
                    (Some "secret") "code0"
                    (script0 [answer 200 (JObj tokens_a1)] env_lines0 ["y"])
                    {| status_code := 200; body := Some (JObj tokens_a1) |}
                    tokens_a1 eq_refl
                    ltac:(cbn; lia)
                    eq_refl)).
    + discriminate.
    + reflexivity.
Defined.

Lemma exchange_success_witness :
  exchange_code_for_tokens repr0 (Some "id") (Some "secret") "code0"
    (script0 [answer 200 (JObj tokens_both)] env_lines0 ["n"]) =
  (Ret (JObj tokens_both),
   script_after_input
     (script_after_send (script0 [answer 200 (JObj tokens_both)] env_lines0 ["n"])
        exchange_req0)) /\
  exists out,
    exchange_code_for_tokens repr0 (Some "id") (Some "secret") "code0"
      (script0 [answer 200 (JObj tokens_both)] env_lines0 [" Y "]) =
    (Ret (JObj tokens_both),
     with_env_file
       (script_after_input
          (script_after_send (script0 [answer 200 (JObj tokens_both)] env_lines0 [" Y "])
             exchange_req0))
       out) /\
    Forall2 (env_line_rewritten "a1" "r1") env_lines0 out.
Proof.
  split.
  - apply (proj1 (exchange_success repr0 (Some "id") (Some "secret") "code0"
                    (script0 [answer 200 (JObj tokens_both)] env_lines0 ["n"])
                    {| status_code := 200; body := Some (JObj tokens_both) |}
                    tokens_both (JStr "a1") (JStr "r1") "n" [] eq_refl
                    ltac:(cbn; lia)
                    eq_refl eq_refl eq_refl eq_refl)).
    reflexivity.
  - apply (proj2 (exchange_success repr0 (Some "id") (Some "secret") "code0"
                    (script0 [answer 200 (JObj tokens_both)] env_lines0 [" Y "])
                    {| status_code := 200; body := Some (JObj tokens_both) |}
                    tokens_both (JStr "a1") (JStr "r1") " Y " [] eq_refl
                    ltac:(cbn; lia)
                    eq_refl eq_refl eq_refl eq_refl)).
    + reflexivity.
    + reflexivity.
Defined.

(** ** The script [refresh_token.py] *)

Lemma yields_script_post u h d : yields any (script_post u h d).
Proof.
  intros s. unfold script_post, send.
  destruct (deliver (server (script_net s)) (sent (script_net s)) _);
    [exact I | reflexivity | apply refusal_is_Exception].
Qed.

Lemma yields_input : yields any input.
Proof. intros s. unfold input. destruct (stdin s); [reflexivity | exact I]. Qed.

Lemma yields_read_env_lines : yields any read_env_lines.
Proof.
  intros s. unfold read_env_lines. destruct (env_file s); [exact I | reflexivity].
Qed.

Lemma yields_for_each {S A} (l : list A) (body : A -> M S unit) :
  (forall a, yields any (body a)) -> yields any (for_each l body).
Proof.
  intros Hb. induction l as [| a l IH]; [intros s; exact I | ].
  cbn [for_each]. apply (yields_bind any); [apply Hb | intros _ _; exact IH].
Qed.

Lemma yields_f_write chunk : yields any (f_write chunk).
Proof. intros s. exact I. Qed.

Lemma yields_rewrite_env_lines repr_other tokens rt lines :
  yields any (rewrite_env_lines repr_other tokens rt lines).
Proof.
  unfold rewrite_env_lines. apply yields_for_each. intros line.
  destruct (PyStr.startswith line "SCHWAB_ACCESS_TOKEN=");
    [ | destruct (PyStr.startswith line "SCHWAB_REFRESH_TOKEN=")];
    try apply yields_f_write.
  - apply (yields_bind any); [apply yields_lift, gives_getitem | ].
    intros ? _. apply yields_f_write.
  - apply (yields_bind any); [apply yields_lift, gives_get | ].
    intros ? _. apply yields_f_write.
Qed.

Lemma yields_refresh_script_continue repr_other rt response :
  yields any (refresh_script_continue repr_other rt response).
Proof.
  unfold refresh_script_continue.
  destruct (status_code response =? 200); [ | intros s; exact I].
  apply (yields_bind any); [apply yields_response_json | intros tokens _].
  apply (yields_bind any); [apply yields_lift, gives_getitem | intros _ _].
  do 2 (apply (yields_bind any); [apply yields_lift, gives_get | intros _ _]).
  apply (yields_bind any); [apply yields_input | intros update _].
  destruct (String.eqb (PyStr.lower (PyStr.strip update)) "y");
    [ | intros s; exact I].
  apply (yields_bind any); [apply yields_read_env_lines | intros lines _].
  apply (yields_bind any); [intros s; exact I | intros _ _].
  apply yields_rewrite_env_lines.
Qed.

Lemma refresh_script_continue_leaves_net repr_other rt response :
  leaves script_net (refresh_script_continue repr_other rt response).
Proof.
  unfold refresh_script_continue.
  destruct (status_code response =? 200); [ | apply leaves_ret].
  apply leaves_bind; [apply leaves_response_json | intros tokens].
  do 3 (apply leaves_bind; [apply leaves_lift | intros _]).
  apply leaves_bind; [apply input_leaves_net | intros update].
  destruct (String.eqb (PyStr.lower (PyStr.strip update)) "y");
    [ | apply leaves_ret].
  apply leaves_bind; [apply read_env_lines_leaves | intros lines].
  apply leaves_bind; [apply open_env_w_leaves_net | intros _].
  apply rewrite_env_lines_leaves_net.
Qed.

Section RefreshScript.

Variable repr_other : json -> string.
Variable getenv : string -> option string.

(** X20: With the client id, the client secret or the refresh token unset or
    empty, the script exits with status 1 before anything is sent. *)
Theorem refresh_token_main_exits_without_credentials (s : Script) :
  PyStr.truthy_opt (getenv "SCHWAB_CLIENT_ID") = false \/
  PyStr.truthy_opt (getenv "SCHWAB_CLIENT_SECRET") = false \/
  PyStr.truthy_opt (getenv "SCHWAB_REFRESH_TOKEN") = false ->
  refresh_token_main repr_other getenv s = (Raise (SystemExit 1), s).
Proof.
  intros H. unfold refresh_token_main. cbn [forallb].
  destruct H as [H | [H | H]]; rewrite H;
    rewrite ?andb_false_r, ?andb_false_l; reflexivity.
Qed.

Lemma refresh_token_main_shape (s : Script) :
  forallb PyStr.truthy_opt
    [getenv "SCHWAB_CLIENT_ID"; getenv "SCHWAB_CLIENT_SECRET";
     getenv "SCHWAB_REFRESH_TOKEN"] = true ->
  refresh_token_main repr_other getenv s =
  try_except
    (bind (script_post
             (url (refresh_script_request (getenv "SCHWAB_CLIENT_ID")
                     (getenv "SCHWAB_CLIENT_SECRET") (getenv "SCHWAB_REFRESH_TOKEN")))
             (headers (refresh_script_request (getenv "SCHWAB_CLIENT_ID")
                         (getenv "SCHWAB_CLIENT_SECRET") (getenv "SCHWAB_REFRESH_TOKEN")))
             (data (refresh_script_request (getenv "SCHWAB_CLIENT_ID")
                      (getenv "SCHWAB_CLIENT_SECRET") (getenv "SCHWAB_REFRESH_TOKEN"))))
          (refresh_script_continue repr_other (getenv "SCHWAB_REFRESH_TOKEN")))
    is_Exception (fun _ => ret tt) s.
Proof.
  intros H. unfold refresh_token_main. rewrite H. reflexivity.
Qed.

Lemma refresh_token_main_answered (s : Script) (r : Response) :
  forallb PyStr.truthy_opt
    [getenv "SCHWAB_CLIENT_ID"; getenv "SCHWAB_CLIENT_SECRET";
     getenv "SCHWAB_REFRESH_TOKEN"] = true ->
  server (script_net s) (sent (script_net s))
    (refresh_script_request (getenv "SCHWAB_CLIENT_ID")
       (getenv "SCHWAB_CLIENT_SECRET") (getenv "SCHWAB_REFRESH_TOKEN")) = Answer r ->
  refresh_token_main repr_other getenv s =
  try_except (refresh_script_continue repr_other (getenv "SCHWAB_REFRESH_TOKEN") r)
    is_Exception (fun _ => ret tt)
    (script_after_send s
       (refresh_script_request (getenv "SCHWAB_CLIENT_ID")
          (getenv "SCHWAB_CLIENT_SECRET") (getenv "SCHWAB_REFRESH_TOKEN"))).
Proof.
  intros H Hr. rewrite (refresh_token_main_shape s H).
  unfold try_except at 1, bind at 1.
  cbn [url headers data refresh_script_request].
  rewrite (script_post_answer s _ _ _ r (check_basic_auth_headers _ _) Hr). reflexivity.
Qed.

(** X21: With the three credentials present the script always ends normally,
    whatever the service answers, the operator types and the state of
    [.env]: every exception inside is caught. It sends exactly one request,
    the refresh grant with the credentials as [Basic base64(id:secret)]. *)
Theorem refresh_token_main_ends_normally (s : Script) :
  forallb PyStr.truthy_opt
    [getenv "SCHWAB_CLIENT_ID"; getenv "SCHWAB_CLIENT_SECRET";
     getenv "SCHWAB_REFRESH_TOKEN"] = true ->
  fst (refresh_token_main repr_other getenv s) = Ret tt /\
  sent (script_net (snd (refresh_token_main repr_other getenv s))) =
    (sent (script_net s) ++
     [refresh_script_request (getenv "SCHWAB_CLIENT_ID")
        (getenv "SCHWAB_CLIENT_SECRET") (getenv "SCHWAB_REFRESH_TOKEN")])%list /\
  header "Authorization"
    (headers (refresh_script_request (getenv "SCHWAB_CLIENT_ID")
                (getenv "SCHWAB_CLIENT_SECRET") (getenv "SCHWAB_REFRESH_TOKEN"))) =
    Some ("Basic " ++ Base64.b64encode
                        (PyStr.fmt_opt (getenv "SCHWAB_CLIENT_ID") ++ ":" ++
                         PyStr.fmt_opt (getenv "SCHWAB_CLIENT_SECRET"))).
Proof.
  intros H.
  split; [ | split; [ | reflexivity] ].
  - rewrite (refresh_token_main_shape s H).
    match goal with
    | |- fst (try_except ?body _ _ s) = _ =>
        assert (Hy : yields any body)
    end.
    { apply (yields_bind any); [apply yields_script_post | ].
      intros response _. apply yields_refresh_script_continue. }
    specialize (Hy s). unfold try_except.
    match goal with
    | |- fst (match ?b with _ => _ end) = _ =>
        destruct b as [[[] | e] s1]; cbn [fst] in *; [reflexivity | ]
    end.
    rewrite Hy. reflexivity.
  - destruct (server (script_net s) (sent (script_net s))
                (refresh_script_request (getenv "SCHWAB_CLIENT_ID")
                   (getenv "SCHWAB_CLIENT_SECRET") (getenv "SCHWAB_REFRESH_TOKEN")))
      as [r | | ] eqn:Hr.
    + rewrite (refresh_token_main_answered s r H Hr).
      assert (Hl : leaves script_net
                     (try_except
                        (refresh_script_continue repr_other
                           (getenv "SCHWAB_REFRESH_TOKEN") r)
                        is_Exception (fun _ => ret tt))).
      { apply leaves_try_except;
          [apply refresh_script_continue_leaves_net | intros e; apply leaves_ret]. }
      rewrite Hl. reflexivity.
    + rewrite (refresh_token_main_shape s H).
      unfold try_except, bind at 1.
      cbn [url headers data refresh_script_request].
      rewrite (script_post_no_answer s _ _ _ (check_basic_auth_headers _ _) Hr). reflexivity.
    + rewrite (refresh_token_main_shape s H).
      unfold try_except, bind at 1.
      cbn [url headers data refresh_script_request].
      rewrite (script_post_refused s _ _ _ (check_basic_auth_headers _ _) Hr). reflexivity.
Qed.

(** X22: The script rewrites [.env] only after a response with status exactly
    200 that holds an access token, and only when the operator answers [y]:
    with another status, or without an access token in the response, it ends
    without prompting and without touching [.env]; with another answer at the
    prompt [.env] stays as it was; with [y] each line is rewritten with the
    new access token and with the refresh token of the response, or the one
    the script was started with when the response has none. *)
Theorem refresh_token_main_writes_only_on_yes (s : Script) (r : Response) :
  forallb PyStr.truthy_opt
    [getenv "SCHWAB_CLIENT_ID"; getenv "SCHWAB_CLIENT_SECRET";
     getenv "SCHWAB_REFRESH_TOKEN"] = true ->
  server (script_net s) (sent (script_net s))
    (refresh_script_request (getenv "SCHWAB_CLIENT_ID")
       (getenv "SCHWAB_CLIENT_SECRET") (getenv "SCHWAB_REFRESH_TOKEN")) = Answer r ->
  let s1 :=
    script_after_send s
      (refresh_script_request (getenv "SCHWAB_CLIENT_ID")
         (getenv "SCHWAB_CLIENT_SECRET") (getenv "SCHWAB_REFRESH_TOKEN")) in
  (status_code r <> 200 ->
   refresh_token_main repr_other getenv s = (Ret tt, s1)) /\
  (forall m,
     status_code r = 200 -> body r = Some (JObj m) ->
     Dict.get "access_token" m = None ->
     refresh_token_main repr_other getenv s = (Ret tt, s1)) /\
  (forall m a typed rest,
     status_code r = 200 -> body r = Some (JObj m) ->
     Dict.get "access_token" m = Some a ->
     stdin s = typed :: rest ->
     (says_yes typed = false ->
      refresh_token_main repr_other getenv s = (Ret tt, script_after_input s1)) /\
     (says_yes typed = true ->
      forall lines, env_file s = Some lines ->
      exists out,
        refresh_token_main repr_other getenv s =
          (Ret tt, with_env_file (script_after_input s1) out) /\
        Forall2 (env_line_rewritten
                   (py_str repr_other a)
                   (py_str repr_other
                      (match Dict.get "refresh_token" m with
                       | Some v => v
                       | None => Py.of_opt (getenv "SCHWAB_REFRESH_TOKEN")
                       end))) lines out)).
Proof.
  intros H Hr s1. rewrite (refresh_token_main_answered s r H Hr). fold s1.
  split; [ | split].
  - intros Hne. unfold try_except, refresh_script_continue.
    apply Z.eqb_neq in Hne. rewrite Hne. reflexivity.
  - intros m H200 Hb Hnone. unfold try_except, refresh_script_continue.
    rewrite H200. cbn [Z.eqb Pos.eqb].
    unfold bind at 1, response_json. rewrite Hb. unfold ret at 1.
    unfold bind, lift. cbn [Py.getitem]. rewrite Hnone. reflexivity.
  - intros m a typed rest H200 Hb Ha Hin.
    assert (Hinput : input s1 = (Ret typed, script_after_input s1)).
    { unfold input, script_after_input, s1, script_after_send. cbn [stdin].
      rewrite Hin. reflexivity. }
    assert (Hstart :
      refresh_script_continue repr_other (getenv "SCHWAB_REFRESH_TOKEN") r s1 =
      (if says_yes typed
       then
         (lines <- read_env_lines ;;
          open_env_w ;;
          rewrite_env_lines repr_other (JObj m) (getenv "SCHWAB_REFRESH_TOKEN") lines)
       else ret tt) (script_after_input s1)).
    { unfold refresh_script_continue. rewrite H200. cbn [Z.eqb Pos.eqb].
      unfold bind at 1, response_json. rewrite Hb. unfold ret at 1.
      unfold bind at 1, lift at 1. cbn [Py.getitem]. rewrite Ha.
      unfold bind at 1, lift at 1. cbn [Py.get].
      destruct (Dict.get "refresh_token" m);
        (unfold bind at 1, lift at 1;
         destruct (Dict.get "expires_in" m);
         (unfold bind at 1; rewrite Hinput; reflexivity)). }
    unfold try_except. rewrite Hstart.
    split.
    + intros Hno. rewrite Hno. reflexivity.
    + intros Hyes lines Hlines. rewrite Hyes.
      destruct (rewrite_after_open_run repr_other (script_after_input s1) lines
                  m (getenv "SCHWAB_REFRESH_TOKEN") a Ha) as [out [Hrun Hall]].
      exists out. split; [ | exact Hall].
      unfold bind at 1, read_env_lines.
      assert (Henv : env_file (script_after_input s1) = Some lines) by exact Hlines.
      rewrite Henv. rewrite Hrun. reflexivity.
Qed.

End RefreshScript.

Lemma refresh_token_main_exits_without_credentials_witness :
  refresh_token_main repr0
    (env_of [("SCHWAB_CLIENT_ID", "id"); ("SCHWAB_CLIENT_SECRET", "secret")])
    (script_creds [answer 200 (JObj tokens_both)] ["y"]) =
  (Raise (SystemExit 1), script_creds [answer 200 (JObj tokens_both)] ["y"]).
Proof.
  apply (refresh_token_main_exits_without_credentials repr0
           (env_of [("SCHWAB_CLIENT_ID", "id"); ("SCHWAB_CLIENT_SECRET", "secret")])
           (script_creds [answer 200 (JObj tokens_both)] ["y"])).
  right. right. reflexivity.
Defined.

Lemma refresh_token_main_ends_normally_witness :
  fst (refresh_token_main repr0 creds_env
         {| script_net := {| server := stub [answer 200 (JObj tokens_both)]; sent := [] |};
            env_file := None; stdin := ["y"] |}) = Ret tt /\
  sent (script_net (snd (refresh_token_main repr0 creds_env
         {| script_net := {| server := stub [answer 200 (JObj tokens_both)]; sent := [] |};
            env_file := None; stdin := ["y"] |}))) =
    ([] ++ [refresh_script_request (Some "id") (Some "secret") (Some "r0")])%list /\
  header "Authorization"
    (headers (refresh_script_request (Some "id") (Some "secret") (Some "r0"))) =
    Some ("Basic " ++ Base64.b64encode ("id" ++ ":" ++ "secret")).
Proof.
  apply (refresh_token_main_ends_normally repr0 creds_env
           {| script_net := {| server := stub [answer 200 (JObj tokens_both)]; sent := [] |};
              env_file := None; stdin := ["y"] |}).
  reflexivity.
Defined.

Lemma refresh_token_main_writes_only_on_yes_witness :
  refresh_token_main repr0 creds_env (script_creds [answer 201 (JObj tokens_both)] ["y"]) =
    (Ret tt,
     script_after_send (script_creds [answer 201 (JObj tokens_both)] ["y"])
       (refresh_script_request (Some "id") (Some "secret") (Some "r0"))) /\
  refresh_token_main repr0 creds_env
      (script_creds [answer 200 (JObj tokens_without_access)] ["y"]) =
    (Ret tt,
     script_after_send (script_creds [answer 200 (JObj tokens_without_access)] ["y"])
       (refresh_script_request (Some "id") (Some "secret") (Some "r0"))) /\
  refresh_token_main repr0 creds_env (script_creds [answer 200 (JObj tokens_a1)] ["no"]) =
    (Ret tt,
     script_after_input
       (script_after_send (script_creds [answer 200 (JObj tokens_a1)] ["no"])
          (refresh_script_request (Some "id") (Some "secret") (Some "r0")))) /\
  exists out,
    refresh_token_main repr0 creds_env (script_creds [answer 200 (JObj tokens_a1)] ["y"]) =
      (Ret tt,
       with_env_file
         (script_after_input
            (script_after_send (script_creds [answer 200 (JObj tokens_a1)] ["y"])
               (refresh_script_request (Some "id") (Some "secret") (Some "r0"))))
         out) /\
    Forall2 (env_line_rewritten "a1" "r0") env_lines0 out.
Proof.
  split; [ | split; [ | split] ].
  - apply (proj1 (refresh_token_main_writes_only_on_yes repr0 creds_env
                    (script_creds [answer 201 (JObj tokens_both)] ["y"])
                    {| status_code := 201; body := Some (JObj tokens_both) |}
                    eq_refl eq_refl)).
    cbn. lia.
  - apply (proj1 (proj2 (refresh_token_main_writes_only_on_yes repr0 creds_env
                           (script_creds [answer 200 (JObj tokens_without_access)] ["y"])
                           {| status_code := 200;
                              body := Some (JObj tokens_without_access) |}
                           eq_refl eq_refl))
             tokens_without_access); reflexivity.
  - apply (proj1 (proj2 (proj2 (refresh_token_main_writes_only_on_yes repr0 creds_env
                                  (script_creds [answer 200 (JObj tokens_a1)] ["no"])
                                  {| status_code := 200; body := Some (JObj tokens_a1) |}
                                  eq_refl eq_refl))
                    tokens_a1 (JStr "a1") "no" [] eq_refl eq_refl eq_refl eq_refl)).
    reflexivity.
  - apply (proj2 (proj2 (proj2 (refresh_token_main_writes_only_on_yes repr0 creds_env
                                  (script_creds [answer 200 (JObj tokens_a1)] ["y"])
                                  {| status_code := 200; body := Some (JObj tokens_a1) |}
                                  eq_refl eq_refl))
                    tokens_a1 (JStr "a1") "y" [] eq_refl eq_refl eq_refl eq_refl)).
    + reflexivity.
    + reflexivity.
Defined.

(** * Further error behaviour *)

(** X9: A ["quote"] entry that is not a dict makes the formatter raise
    [AttributeError]; a truthy input that is a number or a boolean makes it
    raise [TypeError]. *)
Theorem format_quote_for_trading_raises (m : dict) (q : json) :
  Dict.get "quote" m = Some q ->
  (forall quote, q <> JObj quote) ->
  format_quote_for_trading (JObj m) = Raise (AttributeError "get") /\
  format_quote_for_trading (JBool true) = Raise TypeError /\
  (forall n, Py.truthy (JNum n) = true ->
             format_quote_for_trading (JNum n) = Raise TypeError).
Proof.
  intros Hq Hnd. split; [ | split; [reflexivity | ] ].
  2: { intros n Hn. unfold format_quote_for_trading. rewrite Hn. reflexivity. }
  unfold format_quote_for_trading.
  destruct m as [| p m']; [discriminate Hq | ].
  cbn [Py.truthy negb Py.contains obind Py.getitem].
  unfold Dict.has. rewrite Hq. cbn [negb obind].
  destruct q; try reflexivity.
  exfalso. apply (Hnd m). reflexivity.
Qed.

Lemma format_quote_for_trading_raises_witness :
  format_quote_for_trading (JObj [("symbol", JStr "AAPL"); ("quote", JNum 5)]) =
    Raise (AttributeError "get") /\
  format_quote_for_trading (JBool true) = Raise TypeError /\
  format_quote_for_trading (JNum 5) = Raise TypeError.
Proof.
  destruct (format_quote_for_trading_raises
              [("symbol", JStr "AAPL"); ("quote", JNum 5)] (JNum 5) eq_refl)
    as [Hattr [Hbool Hnum]].
  - intros quote E. discriminate E.
  - split; [exact Hattr | split; [exact Hbool | apply Hnum; reflexivity] ].
Defined.

Section FailureValues.

Variable repr_other : json -> string.

Lemma get_quote_failure (symbol : string) (s : Sys) :
  Py.truthy (access_token (self s)) = true ->
  reply_to s (first_request repr_other
                (quotes_url (self s) (PyStr.upper symbol)) [] s) = NoAnswer \/
  (exists r,
     reply_to s (first_request repr_other
                   (quotes_url (self s) (PyStr.upper symbol)) [] s) = Answer r /\
     status_code r <> 401 /\ (passes r = false \/ body r = None)) ->
  fst (get_quote repr_other symbol s) = Ret JNull.
Proof.
  intros Ht Hcase. unfold first_request in *.
  unfold get_quote, bind at 1, get_self.
  unfold try_except, bind at 1.
  rewrite (get_headers_ok repr_other s Ht). unfold bind at 1.
  fold (quotes_url (self s) (PyStr.upper symbol)).
  destruct Hcase as [Hn | [r [Hr [H401 Hbad]]]].
  - rewrite (requests_get_no_answer repr_other _ _ _ _ Hn). reflexivity.
  - rewrite (requests_get_answer repr_other _ _ _ _ _ Hr).
    apply Z.eqb_neq in H401. rewrite H401.
    unfold quote_of_response, bind at 1, raise_for_status.
    destruct (passes r) eqn:Hp.
    + destruct Hbad as [Hf | Hb]; [discriminate Hf | ].
      unfold passes in Hp. apply negb_true_iff in Hp. rewrite Hp.
      unfold ret at 1. unfold bind at 1, response_json. rewrite Hb. reflexivity.
    + unfold passes in Hp. apply negb_false_iff in Hp. rewrite Hp. reflexivity.
Qed.

Lemma fetch_failure u p fail (s : Sys) :
  Py.truthy (access_token (self s)) = true ->
  reply_to s (first_request repr_other u p s) = NoAnswer \/
  (exists r,
     reply_to s (first_request repr_other u p s) = Answer r /\
     status_code r <> 401 /\ (passes r = false \/ body r = None)) ->
  fst (fetch_with_retry repr_other u p fail s) = Ret fail.
Proof.
  intros Ht Hcase. unfold first_request in *.
  destruct Hcase as [Hn | [r [Hr [H401 Hbad]]]].
  - rewrite (fetch_no_answer repr_other u p fail s Ht Hn). reflexivity.
  - destruct (passes r) eqn:Hp.
    + destruct Hbad as [Hf | Hb]; [discriminate Hf | ].
      unfold fetch_with_retry, try_except, bind at 1.
      rewrite (get_headers_ok repr_other s Ht). unfold bind at 1.
      rewrite (requests_get_answer repr_other _ _ _ _ _ Hr).
      apply Z.eqb_neq in H401. rewrite H401.
      unfold payload_of_response, bind at 1, raise_for_status.
      unfold passes in Hp. apply negb_true_iff in Hp. rewrite Hp.
      unfold ret at 1. unfold response_json. rewrite Hb. reflexivity.
    + rewrite (fetch_first_http_error repr_other u p fail s r Ht Hr Hp H401).
      reflexivity.
Qed.

(** X8: When the first request gets no answer, an error status other than 401,
    or a body that is not JSON, [get_quote] and [get_price_history] return
    [None] and [get_quotes_bulk] returns the empty dict: request errors never
    leave the fetch as exceptions. *)
Theorem fetch_returns_failure_value (s : Sys) :
  Py.truthy (access_token (self s)) = true ->
  (forall symbol,
     let g := first_request repr_other
                (quotes_url (self s) (PyStr.upper symbol)) [] s in
     reply_to s g = NoAnswer \/
     (exists r, reply_to s g = Answer r /\ status_code r <> 401 /\
                (passes r = false \/ body r = None)) ->
     fst (get_quote repr_other symbol s) = Ret JNull) /\
  (forall symbols,
     let g := first_request repr_other
                (quotes_url (self s) (PyStr.join "," (map PyStr.upper symbols)))
                [] s in
     reply_to s g = NoAnswer \/
     (exists r, reply_to s g = Answer r /\ status_code r <> 401 /\
                (passes r = false \/ body r = None)) ->
     fst (get_quotes_bulk repr_other symbols s) = Ret (JObj [])) /\
  (forall symbol period_type period frequency_type frequency,
     let g := first_request repr_other (history_url (self s))
                (history_params symbol period_type period frequency_type
                   frequency) s in
     reply_to s g = NoAnswer \/
     (exists r, reply_to s g = Answer r /\ status_code r <> 401 /\
                (passes r = false \/ body r = None)) ->
     fst (get_price_history repr_other symbol period_type period
            frequency_type frequency s) = Ret JNull).
Proof.
  intros Ht. split; [ | split].
  - intros symbol g. apply get_quote_failure. exact Ht.
  - intros symbols g Hcase. rewrite get_quotes_bulk_shape.
    apply fetch_failure; assumption.
  - intros symbol period_type period frequency_type frequency g Hcase.
    rewrite get_price_history_shape. apply fetch_failure; assumption.
Qed.

End FailureValues.

Lemma fetch_returns_failure_value_witness :
  fst (get_quote repr0 "AAPL" (sys0 [])) = Ret JNull /\
  fst (get_quotes_bulk repr0 ["AAPL"] (sys0 [answer 500 JNull])) = Ret (JObj []) /\
  fst (get_price_history repr0 "AAPL" "day" 1 "minute" 1
         (sys0 [Answer {| status_code := 200; body := None |}])) = Ret JNull.
Proof.
  destruct (fetch_returns_failure_value repr0 (sys0 []) eq_refl) as [Hq _].
  destruct (fetch_returns_failure_value repr0 (sys0 [answer 500 JNull]) eq_refl)
    as [_ [Hb _]].
  destruct (fetch_returns_failure_value repr0
              (sys0 [Answer {| status_code := 200; body := None |}]) eq_refl)
    as [_ [_ Hh]].
  split; [ | split].
  - apply Hq. left. reflexivity.
  - apply Hb. right. exists {| status_code := 500; body := Some JNull |}.
    split; [reflexivity | split; [cbn; lia | left; reflexivity] ].
  - apply Hh. right. exists {| status_code := 200; body := None |}.
    split; [reflexivity | split; [cbn; lia | right; reflexivity] ].
Defined.
